(** * maplibre-gl-stars: the star shader, the render guard and the resource lifecycle

    The repository holds two variants of one effect: [StarsPlugin]
    (a map control that owns a custom layer) and [createStarsLayer]
    (a bare custom layer object).  Both embed the same GLSL fragment program,
    up to the two constants of the star size.

    Numbers.  JavaScript numbers and GLSL [float]s are modelled as real
    numbers ([R]): rounding, NaN and the infinities are outside the model.
    Division is Rocq's total division. *)

From Stdlib Require Import Reals Lra Lia ZArith List String Bool.
Import ListNotations.
Open Scope R_scope.

(** ** GLSL ES 1.00 built-ins used by the fragment program *)

Module GLSL.

Record vec2 := Vec2 { v2x : R; v2y : R }.
Record vec3 := Vec3 { v3x : R; v3y : R; v3z : R }.
Record vec4 := Vec4 { v4x : R; v4y : R; v4z : R; v4w : R }.

(** [floor] and [fract(x) = x - floor(x)]. *)
Definition floor (x : R) : R := IZR (Zfloor x).
Definition fract (x : R) : R := x - floor x.

Definition floor2 (v : vec2) : vec2 := Vec2 (floor (v2x v)) (floor (v2y v)).
Definition fract2 (v : vec2) : vec2 := Vec2 (fract (v2x v)) (fract (v2y v)).

Definition dot (a b : vec2) : R := v2x a * v2x b + v2y a * v2y b.

Definition length2 (v : vec2) : R := sqrt (v2x v * v2x v + v2y v * v2y v).
Definition length3 (v : vec3) : R :=
  sqrt (v3x v * v3x v + v3y v * v3y v + v3z v * v3z v).

(** [normalize(v) = v / length(v)]. *)
Definition normalize (v : vec3) : vec3 :=
  Vec3 (v3x v / length3 v) (v3y v / length3 v) (v3z v / length3 v).

Definition max (a b : R) : R := Rmax a b.
Definition min (a b : R) : R := Rmin a b.
Definition clamp (x lo hi : R) : R := min (max x lo) hi.

(** [smoothstep(edge0, edge1, x)]: Hermite interpolation of the clamped
    ratio. *)
Definition smoothstep (edge0 edge1 x : R) : R :=
  let t := clamp ((x - edge0) / (edge1 - edge0)) 0 1 in
  t * t * (3 - 2 * t).

(** [pow(x, y)]: [x] to the power [y]; [0] to a positive power is [0].
    GLSL leaves [x < 0] undefined; the model answers [0] there. *)
Definition pow (x y : R) : R :=
  if Rlt_dec 0 x then Rpower x y else 0.

(** Two-argument [atan(y, x)]: the angle of the point [(x, y)], in
    [(-PI, PI]].  GLSL leaves [x = y = 0] undefined; the model answers [0]. *)
Definition atan2 (y x : R) : R :=
  if Rlt_dec 0 x then atan (y / x)
  else if Rlt_dec x 0 then
    (if Rle_dec 0 y then atan (y / x) + PI else atan (y / x) - PI)
  else if Rlt_dec 0 y then PI / 2
  else if Rlt_dec y 0 then - (PI / 2)
  else 0.

Definition vscale2 (v : vec2) (k : R) : vec2 := Vec2 (v2x v * k) (v2y v * k).
Definition vdiv2 (v : vec2) (k : R) : vec2 := Vec2 (v2x v / k) (v2y v / k).
Definition vsub2 (a b : vec2) : vec2 := Vec2 (v2x a - v2x b) (v2y a - v2y b).

End GLSL.

(** ** The fragment program

    One definition per block of [main()], with the names of the source. *)

Module Shader.
Import GLSL.

(** What is baked into the fragment source when it is built: the literal of
    the presence test, and the two constants of [starSize], which differ
    between the two files. *)
Record baked := Baked {
  threshold : R;
  sizeBase : R;
  sizeRange : R
}.

(** The uniforms read by [main()]. *)
Record uniforms := Uniforms {
  u_globe_position : vec3;
  u_globe_radius : R;
  u_stars_intensity : R;
  u_globe_center : vec2;
  u_camera_angles : vec3
}.

(** "Apply camera rotations" and "Apply globe rotation". *)
Definition rotate (ray_dir : vec3) (u_camera_angles : vec3)
    (u_globe_center : vec2) : vec3 :=
  let rotated := ray_dir in
  let cosPitch := cos (v3x u_camera_angles) in
  let sinPitch := sin (v3x u_camera_angles) in
  let rotated := Vec3
    (v3x rotated)
    (v3y rotated * cosPitch - v3z rotated * sinPitch)
    (v3y rotated * sinPitch + v3z rotated * cosPitch) in
  let cosBearing := cos (v3y u_camera_angles) in
  let sinBearing := sin (v3y u_camera_angles) in
  let rotated := Vec3
    (v3x rotated * cosBearing - v3z rotated * sinBearing)
    (v3y rotated)
    (v3x rotated * sinBearing + v3z rotated * cosBearing) in
  let cosRoll := cos (v3z u_camera_angles) in
  let sinRoll := sin (v3z u_camera_angles) in
  let rotated := Vec3
    (v3x rotated * cosRoll - v3y rotated * sinRoll)
    (v3x rotated * sinRoll + v3y rotated * cosRoll)
    (v3z rotated) in
  let cosLat := cos (v2y u_globe_center) in
  let sinLat := sin (v2y u_globe_center) in
  let rotated := Vec3
    (v3x rotated)
    (v3y rotated * cosLat + v3z rotated * sinLat)
    (- v3y rotated * sinLat + v3z rotated * cosLat) in
  let cosLng := cos (v2x u_globe_center) in
  let sinLng := sin (v2x u_globe_center) in
  let rotated := Vec3
    (v3x rotated * cosLng + v3z rotated * sinLng)
    (v3y rotated)
    (- v3x rotated * sinLng + v3z rotated * cosLng) in
  rotated.

(** [const float PI = 3.141592653589793;] *)
Definition PI : R := 3.141592653589793.

(** "Convert to spherical coordinates". *)
Definition lng (rotated : vec3) : R := atan2 (v3x rotated) (v3z rotated).
Definition lat (rotated : vec3) : R := asin (v3y rotated).

Definition uv (lng lat : R) : vec2 :=
  Vec2 ((lng / PI) * 0.5 + 0.5) ((lat / (PI * 0.5)) * 0.5 + 0.5).

(** The hash expression [fract(sin(dot(gridPos, k)) * 43758.5453)], which
    the source writes out four times with four constant vectors [k].  It is
    taken over the reals; in floating point its value for a cell depends on
    the precision of [sin], except at the cell (0, 0), where it is 0. *)
Definition cell_hash (gridPos k : vec2) : R :=
  fract (sin (dot gridPos k) * 43758.5453).

Definition hash (gridPos : vec2) : R := cell_hash gridPos (Vec2 12.9898 78.233).
Definition hashX (gridPos : vec2) : R := cell_hash gridPos (Vec2 127.1 311.7).
Definition hashY (gridPos : vec2) : R := cell_hash gridPos (Vec2 269.5 183.3).
Definition sizeHash (gridPos : vec2) : R := cell_hash gridPos (Vec2 415.2 371.9).

(** The locals of the branch taken when the cell holds a star. *)
Record star := Star {
  randomOffset : vec2;
  localPos : vec2;
  delta : vec2;
  aspectCorrection : R;
  dist : R;
  starSize : R;
  brightness : R;
  branch_stars : R
}.

Definition star_branch (b : baked) (scaledUV gridPos : vec2) (lat : R) : star :=
  let randomOffset := Vec2 (hashX gridPos) (hashY gridPos) in
  let localPos := fract2 scaledUV in
  let delta := vdiv2 (vsub2 localPos randomOffset) 200 in
  let aspectCorrection := max 0.3 (cos lat) in
  let delta := Vec2 (v2x delta / aspectCorrection) (v2y delta) in
  let delta := Vec2 (v2x delta) (v2y delta * 2) in
  let dist := length2 delta * 200 in
  let starSize := sizeBase b + sizeRange b * sizeHash gridPos in
  let stars := 1 - smoothstep 0 starSize dist in
  let stars := pow stars 4 in
  let brightness := 0.5 + 0.5 * sizeHash gridPos in
  let stars := stars * brightness in
  Star randomOffset localPos delta aspectCorrection dist starSize brightness stars.

(** The locals of "Create star field", for a direction [(lng, lat)]. *)
Record field := Field {
  scaledUV : vec2;
  gridPos : vec2;
  cell : option star;
  stars : R
}.

Definition star_field (b : baked) (u_stars_intensity lng lat : R) : field :=
  let scaledUV := vscale2 (uv lng lat) 200 in
  let gridPos := floor2 scaledUV in
  let stars := 0 in
  let cell :=
    if Rlt_dec (threshold b) (hash gridPos)
    then Some (star_branch b scaledUV gridPos lat) else None in
  let stars := match cell with Some s => branch_stars s | None => stars end in
  let stars := stars * u_stars_intensity in
  Field scaledUV gridPos cell stars.

(** The locals of [main()], from the interpolated [view_direction] to
    [gl_FragColor]. *)
Record frag := Frag {
  ray_dir : vec3;
  rotated : vec3;
  f_lng : R;
  f_lat : R;
  f_field : field;
  gl_FragColor : vec4
}.

Definition main (b : baked) (u : uniforms) (view_direction : vec3) : frag :=
  let ray_dir := normalize view_direction in
  let rotated := rotate ray_dir (u_camera_angles u) (u_globe_center u) in
  let lng := lng rotated in
  let lat := lat rotated in
  let f := star_field b (u_stars_intensity u) lng lat in
  let stars := stars f in
  let starColor := Vec3 (1 * stars) (1 * stars) (1 * stars) in
  Frag ray_dir rotated lng lat f
       (Vec4 (v3x starColor) (v3y starColor) (v3z starColor) 1).

End Shader.

(** ** JavaScript: values, exceptions and the state monad of the embedding *)

Module JS.

Inductive exn := TypeError (msg : string).

Inductive result (S A : Type) : Type :=
| Ok (a : A) (s : S)
| Throw (e : exn) (s : S).
Arguments Ok {S A} a s.
Arguments Throw {S A} e s.

(** A computation over a mutable state [S] that returns or throws. *)
Definition M (S A : Type) : Type := S -> result S A.

Definition ret {S A} (a : A) : M S A := fun s => Ok a s.
Definition bind {S A B} (m : M S A) (k : A -> M S B) : M S B :=
  fun s => match m s with
           | Ok a s' => k a s'
           | Throw e s' => Throw e s'
           end.
Definition throw {S A} (e : exn) : M S A := fun s => Throw e s.
Definition gets {S A} (f : S -> A) : M S A := fun s => Ok (f s) s.
Definition modify {S} (f : S -> S) : M S unit := fun s => Ok tt (f s).

(** Runs a computation on a component [T] of the state [S]. *)
Definition lift {S T A} (proj : S -> T) (inj : T -> S -> S) (m : M T A) : M S A :=
  fun s => match m (proj s) with
           | Ok a t => Ok a (inj t s)
           | Throw e t => Throw e (inj t s)
           end.

Definition state_of {S A} (r : result S A) : S :=
  match r with Ok _ s => s | Throw _ s => s end.
Definition returned {S A} (r : result S A) : Prop :=
  match r with Ok _ _ => True | Throw _ _ => False end.

(** [a || b] on a property that holds a number or is [undefined]:
    [undefined] and [0] are falsy. *)
Definition or_else (a : option R) (b : R) : R :=
  match a with
  | Some x => if Req_dec_T x 0 then b else x
  | None => b
  end.

(** The number denoted by the string [x.toFixed(2)]: the sign is set
    aside, then [n / 100] for the integer [n] with [n / 100 - x] closest to
    zero, the larger [n] on a tie; from [10^21] on, [toFixed] prints the
    number itself. *)
Definition toFixed2 (x : R) : R :=
  let s := if Rlt_dec x 0 then -1 else 1 in
  let x := Rabs x in
  if Rle_dec (10 ^ 21) x then s * x
  else s * (IZR (Zfloor (x * 100 + / 2)) / 100).

End JS.

Declare Scope js_scope.
Delimit Scope js_scope with js.
Notation "x <- m ;; k" := (JS.bind m (fun x => k))
  (at level 61, m at next level, right associativity) : js_scope.
Notation "m ;; k" := (JS.bind m (fun _ => k))
  (at level 61, right associativity) : js_scope.

(** ** The WebGL 1.0 context, as far as the two files drive it

    The model follows the WebGL 1.0 interface: an object argument that the
    interface does not mark nullable ([attachShader], [shaderSource],
    [linkProgram], ...) makes the binding raise [TypeError] on [null]; a
    nullable one ([useProgram], [bindBuffer], [delete*], [uniform*]) accepts
    it.  Errors of the GL itself are recorded in [errors], never raised.
    A lost context is outside the model. *)

Module GL.
Import JS.
Local Open Scope Z_scope.
Local Open Scope bool_scope.

Definition GLenum := Z.
Definition handle := nat.

Definition ZERO : GLenum := 0.
Definition ONE : GLenum := 1.
Definition TRIANGLES : GLenum := 4.
Definition LESS : GLenum := 513.
Definition ALWAYS : GLenum := 519.
Definition SRC_ALPHA : GLenum := 770.
Definition ONE_MINUS_SRC_ALPHA : GLenum := 771.
Definition INVALID_ENUM : GLenum := 1280.
Definition INVALID_VALUE : GLenum := 1281.
Definition INVALID_OPERATION : GLenum := 1282.
Definition DEPTH_TEST : GLenum := 2929.
Definition DEPTH_WRITEMASK : GLenum := 2930.
Definition DEPTH_FUNC : GLenum := 2932.
Definition BLEND : GLenum := 3042.
Definition UNSIGNED_SHORT : GLenum := 5123.
Definition FLOAT : GLenum := 5126.
Definition BLEND_DST_RGB : GLenum := 32968.
Definition BLEND_SRC_RGB : GLenum := 32969.
Definition BLEND_DST_ALPHA : GLenum := 32970.
Definition BLEND_SRC_ALPHA : GLenum := 32971.
Definition ARRAY_BUFFER : GLenum := 34962.
Definition ELEMENT_ARRAY_BUFFER : GLenum := 34963.
Definition STATIC_DRAW : GLenum := 35044.
Definition FRAGMENT_SHADER : GLenum := 35632.
Definition VERTEX_SHADER : GLenum := 35633.
Definition COMPILE_STATUS : GLenum := 35713.
Definition LINK_STATUS : GLenum := 35714.
Definition CURRENT_PROGRAM : GLenum := 35725.

(** The two source texts handed to [shaderSource]: the fixed vertex
    program, and the fragment program with what was spliced into it. *)
Inductive source :=
| vertexSource
| fragmentSource (b : Shader.baked).

(** What [getParameter] and [isEnabled] hand back to JavaScript. *)
Inductive value :=
| VNull
| VBool (b : bool)
| VEnum (e : GLenum)
| VProgram (h : handle).

(** JavaScript truthiness: [null], [false] and the number [0] are falsy. *)
Definition truthy (v : value) : bool :=
  match v with
  | VNull => false
  | VBool b => b
  | VEnum e => negb (e =? 0)
  | VProgram _ => true
  end.

(** Conversions of the binding for a [GLenum], a [GLboolean] and a
    [WebGLProgram?] argument. *)
Definition to_enum (v : value) : GLenum :=
  match v with
  | VEnum e => e
  | VBool true => 1
  | _ => 0
  end.
Definition to_program (v : value) : option handle :=
  match v with VProgram h => Some h | _ => None end.

Record shader_obj := Shader_obj {
  sh_type : GLenum;
  sh_source : option source;
  sh_compiled : bool;
  sh_deleted : bool
}.
Record program_obj := Program_obj {
  pr_attached : list handle;
  pr_linked : bool;
  pr_uniforms : list (string * list R);
  pr_deleted : bool
}.
Record buffer_obj := Buffer_obj {
  bf_data : list R;
  bf_deleted : bool
}.

Definition table (A : Type) := list (handle * A).
Fixpoint lookup {A} (h : handle) (t : table A) : option A :=
  match t with
  | [] => None
  | (k, a) :: t' => if Nat.eqb k h then Some a else lookup h t'
  end.
Definition update {A} (h : handle) (a : A) (t : table A) : table A := (h, a) :: t.

(** The implementation behind the context: which sources it compiles and
    which pairs it links. *)
Record driver := Driver {
  compiles : source -> bool;
  links : source -> source -> bool
}.

Record objects := Objects {
  next_name : handle;
  shaders : table shader_obj;
  programs : table program_obj;
  buffers : table buffer_obj
}.

Record bindings := Bindings {
  current_program : option handle;
  array_buffer : option handle;
  element_array_buffer : option handle;
  enabled_attribs : list Z
}.

Record pipeline := Pipeline {
  depth_test : bool;
  depth_func : GLenum;
  depth_mask : bool;
  blend : bool;
  blend_src_rgb : GLenum;
  blend_dst_rgb : GLenum;
  blend_src_alpha : GLenum;
  blend_dst_alpha : GLenum
}.

(** One executed [drawElements]: the program and the pipeline it ran with. *)
Record draw := Draw {
  d_program : handle;
  d_count : Z;
  d_pipeline : pipeline
}.

Record state := State {
  drv : driver;
  objs : objects;
  binds : bindings;
  pipe : pipeline;
  errors : list GLenum;
  draws : list draw
}.

Definition with_objs (o : objects) (s : state) : state :=
  State (drv s) o (binds s) (pipe s) (errors s) (draws s).
Definition with_binds (b : bindings) (s : state) : state :=
  State (drv s) (objs s) b (pipe s) (errors s) (draws s).
Definition with_pipe (p : pipeline) (s : state) : state :=
  State (drv s) (objs s) (binds s) p (errors s) (draws s).
Definition with_error (e : GLenum) (s : state) : state :=
  State (drv s) (objs s) (binds s) (pipe s) (e :: errors s) (draws s).
Definition with_draw (d : draw) (s : state) : state :=
  State (drv s) (objs s) (binds s) (pipe s) (errors s) (d :: draws s).

Definition gl_error {A} (e : GLenum) (a : A) : M state A :=
  fun s => Ok a (with_error e s).

Definition null_argument {A} (method : string) : M state A :=
  throw (TypeError method).

(** *** Shader objects *)

Definition createShader (type : GLenum) : M state (option handle) :=
  fun s =>
    if (type =? VERTEX_SHADER) || (type =? FRAGMENT_SHADER) then
      let o := objs s in
      let h := next_name o in
      Ok (Some h)
         (with_objs (Objects (S h)
                       (update h (Shader_obj type None false false) (shaders o))
                       (programs o) (buffers o)) s)
    else Ok None (with_error INVALID_ENUM s).

Definition set_shader (h : handle) (sh : shader_obj) (s : state) : state :=
  let o := objs s in
  with_objs (Objects (next_name o) (update h sh (shaders o)) (programs o) (buffers o)) s.
Definition set_program (h : handle) (p : program_obj) (s : state) : state :=
  let o := objs s in
  with_objs (Objects (next_name o) (shaders o) (update h p (programs o)) (buffers o)) s.
Definition set_buffer (h : handle) (b : buffer_obj) (s : state) : state :=
  let o := objs s in
  with_objs (Objects (next_name o) (shaders o) (programs o) (update h b (buffers o))) s.

Definition live_shader (h : handle) (s : state) : option shader_obj :=
  match lookup h (shaders (objs s)) with
  | Some sh => if sh_deleted sh then None else Some sh
  | None => None
  end.
Definition live_program (h : handle) (s : state) : option program_obj :=
  match lookup h (programs (objs s)) with
  | Some p => if pr_deleted p then None else Some p
  | None => None
  end.
Definition live_buffer (h : handle) (s : state) : option buffer_obj :=
  match lookup h (buffers (objs s)) with
  | Some b => if bf_deleted b then None else Some b
  | None => None
  end.

Definition shaderSource (shader : option handle) (src : source) : M state unit :=
  match shader with
  | None => null_argument "shaderSource"
  | Some h => fun s =>
      match live_shader h s with
      | Some sh => Ok tt (set_shader h (Shader_obj (sh_type sh) (Some src) (sh_compiled sh) false) s)
      | None => Ok tt (with_error INVALID_OPERATION s)
      end
  end.

Definition compileShader (shader : option handle) : M state unit :=
  match shader with
  | None => null_argument "compileShader"
  | Some h => fun s =>
      match live_shader h s with
      | Some sh =>
          let ok := match sh_source sh with
                    | Some src => compiles (drv s) src
                    | None => false
                    end in
          Ok tt (set_shader h (Shader_obj (sh_type sh) (sh_source sh) ok false) s)
      | None => Ok tt (with_error INVALID_OPERATION s)
      end
  end.

(** [getShaderParameter(shader, COMPILE_STATUS)]. *)
Definition getShaderParameter (shader : option handle) (pname : GLenum) : M state value :=
  match shader with
  | None => null_argument "getShaderParameter"
  | Some h => fun s =>
      match live_shader h s with
      | Some sh =>
          if pname =? COMPILE_STATUS then Ok (VBool (sh_compiled sh)) s
          else Ok VNull (with_error INVALID_ENUM s)
      | None => Ok VNull (with_error INVALID_OPERATION s)
      end
  end.

Definition getShaderInfoLog (shader : option handle) : M state string :=
  match shader with
  | None => null_argument "getShaderInfoLog"
  | Some _ => ret "shader info log"%string
  end.

Definition deleteShader (shader : option handle) : M state unit :=
  match shader with
  | None => ret tt
  | Some h => fun s =>
      match live_shader h s with
      | Some sh => Ok tt (set_shader h (Shader_obj (sh_type sh) (sh_source sh) (sh_compiled sh) true) s)
      | None => Ok tt s
      end
  end.

(** *** Program objects *)

Definition createProgram : M state (option handle) :=
  fun s =>
    let o := objs s in
    let h := next_name o in
    Ok (Some h)
       (with_objs (Objects (S h) (shaders o)
                     (update h (Program_obj [] false [] false) (programs o))
                     (buffers o)) s).

Definition attachShader (program shader : option handle) : M state unit :=
  match program, shader with
  | Some p, Some h => fun s =>
      match live_program p s, live_shader h s with
      | Some po, Some _ =>
          Ok tt (set_program p (Program_obj (pr_attached po ++ [h]) (pr_linked po)
                                  (pr_uniforms po) false) s)
      | _, _ => Ok tt (with_error INVALID_OPERATION s)
      end
  | _, _ => null_argument "attachShader"
  end.

(** The compiled source of the first attached shader of a type. *)
Fixpoint attached_source (type : GLenum) (hs : list handle) (s : state) : option source :=
  match hs with
  | [] => None
  | h :: hs' =>
      match lookup h (shaders (objs s)) with
      | Some sh =>
          if (sh_type sh =? type) then
            (if sh_compiled sh then sh_source sh else None)
          else attached_source type hs' s
      | None => attached_source type hs' s
      end
  end.

(** Linking succeeds when a compiled vertex shader and a compiled fragment
    shader are attached and the implementation links the pair. *)
Definition linkProgram (program : option handle) : M state unit :=
  match program with
  | None => null_argument "linkProgram"
  | Some p => fun s =>
      match live_program p s with
      | Some po =>
          let ok :=
            match attached_source VERTEX_SHADER (pr_attached po) s,
                  attached_source FRAGMENT_SHADER (pr_attached po) s with
            | Some vs, Some fs => links (drv s) vs fs
            | _, _ => false
            end in
          Ok tt (set_program p (Program_obj (pr_attached po) ok (pr_uniforms po) false) s)
      | None => Ok tt (with_error INVALID_OPERATION s)
      end
  end.

(** [getProgramParameter(program, LINK_STATUS)]. *)
Definition getProgramParameter (program : option handle) (pname : GLenum) : M state value :=
  match program with
  | None => null_argument "getProgramParameter"
  | Some p => fun s =>
      match live_program p s with
      | Some po =>
          if pname =? LINK_STATUS then Ok (VBool (pr_linked po)) s
          else Ok VNull (with_error INVALID_ENUM s)
      | None => Ok VNull (with_error INVALID_OPERATION s)
      end
  end.

Definition getProgramInfoLog (program : option handle) : M state string :=
  match program with
  | None => null_argument "getProgramInfoLog"
  | Some _ => ret "program info log"%string
  end.

Definition deleteProgram (program : option handle) : M state unit :=
  match program with
  | None => ret tt
  | Some p => fun s =>
      match live_program p s with
      | Some po => Ok tt (set_program p (Program_obj (pr_attached po) (pr_linked po)
                                           (pr_uniforms po) true) s)
      | None => Ok tt s
      end
  end.

Definition linked (h : handle) (s : state) : bool :=
  match live_program h s with
  | Some po => pr_linked po
  | None => false
  end.

Definition set_current_program (p : option handle) (s : state) : state :=
  let b := binds s in
  with_binds (Bindings p (array_buffer b) (element_array_buffer b) (enabled_attribs b)) s.

(** [useProgram(program)]: [null] unbinds; a program that is not linked is
    refused with [INVALID_OPERATION]. *)
Definition useProgram (program : option handle) : M state unit :=
  fun s =>
    match program with
    | None => Ok tt (set_current_program None s)
    | Some p =>
        if linked p s then Ok tt (set_current_program (Some p) s)
        else Ok tt (with_error INVALID_OPERATION s)
    end.

(** A uniform location: the program and the name it was asked for. *)
Definition location := (handle * string)%type.

(** The active uniforms of a program linked from the two sources: the one
    the vertex [main] reads and the three the fragment [main] reads.  The
    fragment source also declares [u_globe_position] and [u_globe_radius],
    but no statement reads them, so they are not active. *)
Definition active_uniforms : list string :=
  ["u_inv_proj_matrix"; "u_stars_intensity"; "u_globe_center"; "u_camera_angles"]%string.

Definition active_uniform (name : string) : bool :=
  existsb (String.eqb name) active_uniforms.

(** [getUniformLocation]: the location of an active uniform of a linked
    program; [null], without an error, for any other name. *)
Definition getUniformLocation (program : option handle) (name : string)
  : M state (option location) :=
  match program with
  | None => null_argument "getUniformLocation"
  | Some p => fun s =>
      if linked p s then
        Ok (if active_uniform name then Some (p, name) else None) s
      else Ok None (with_error INVALID_OPERATION s)
  end.

(** [uniform1f], [uniform2fv], [uniform3fv] and [uniformMatrix4fv]: the
    value goes to the current program; a [null] location is ignored. *)
Definition uniform (loc : option location) (v : list R) : M state unit :=
  fun s =>
    match loc with
    | None => Ok tt s
    | Some (p, name) =>
        match current_program (binds s), live_program p s with
        | Some c, Some po =>
            if Nat.eqb c p then
              Ok tt (set_program p (Program_obj (pr_attached po) (pr_linked po)
                                      ((name, v) :: pr_uniforms po) false) s)
            else Ok tt (with_error INVALID_OPERATION s)
        | _, _ => Ok tt (with_error INVALID_OPERATION s)
        end
    end.

(** [getAttribLocation]: the vertex program has the one attribute [a_pos]. *)
Definition getAttribLocation (program : option handle) (name : string) : M state Z :=
  match program with
  | None => null_argument "getAttribLocation"
  | Some p => fun s =>
      if linked p s then
        Ok (if String.eqb name "a_pos" then 0 else -1) s
      else Ok (-1) (with_error INVALID_OPERATION s)
  end.

(** *** Buffers and vertex attributes *)

Definition createBuffer : M state (option handle) :=
  fun s =>
    let o := objs s in
    let h := next_name o in
    Ok (Some h)
       (with_objs (Objects (S h) (shaders o) (programs o)
                     (update h (Buffer_obj [] false) (buffers o))) s).

Definition bindBuffer (target : GLenum) (buffer : option handle) : M state unit :=
  fun s =>
    let b := binds s in
    if target =? ARRAY_BUFFER then
      Ok tt (with_binds (Bindings (current_program b) buffer
                           (element_array_buffer b) (enabled_attribs b)) s)
    else if target =? ELEMENT_ARRAY_BUFFER then
      Ok tt (with_binds (Bindings (current_program b) (array_buffer b)
                           buffer (enabled_attribs b)) s)
    else Ok tt (with_error INVALID_ENUM s).

Definition bound_buffer (target : GLenum) (s : state) : option handle :=
  if target =? ARRAY_BUFFER then array_buffer (binds s)
  else if target =? ELEMENT_ARRAY_BUFFER then element_array_buffer (binds s)
  else None.

Definition bufferData (target : GLenum) (data : list R) (usage : GLenum) : M state unit :=
  fun s =>
    match bound_buffer target s with
    | Some h => Ok tt (set_buffer h (Buffer_obj data false) s)
    | None => Ok tt (with_error INVALID_OPERATION s)
    end.

(** A binding point after the buffer [h] is deleted: a binding to [h]
    goes back to [null]. *)
Definition unbind (h : handle) (bound : option handle) : option handle :=
  match bound with
  | Some b => if Nat.eqb b h then None else Some b
  | None => None
  end.

Definition deleteBuffer (buffer : option handle) : M state unit :=
  match buffer with
  | None => ret tt
  | Some h => fun s =>
      match live_buffer h s with
      | Some b =>
          let bd := binds s in
          Ok tt (with_binds (Bindings (current_program bd) (unbind h (array_buffer bd))
                               (unbind h (element_array_buffer bd)) (enabled_attribs bd))
                   (set_buffer h (Buffer_obj (bf_data b) true) s))
      | None => Ok tt s
      end
  end.

Definition set_enabled_attribs (l : list Z) (s : state) : state :=
  let b := binds s in
  with_binds (Bindings (current_program b) (array_buffer b) (element_array_buffer b) l) s.

(** A negative index is out of range once read as a [GLuint]. *)
Definition enableVertexAttribArray (index : Z) : M state unit :=
  fun s =>
    if index <? 0 then Ok tt (with_error INVALID_VALUE s)
    else Ok tt (set_enabled_attribs (index :: enabled_attribs (binds s)) s).

Definition disableVertexAttribArray (index : Z) : M state unit :=
  fun s =>
    if index <? 0 then Ok tt (with_error INVALID_VALUE s)
    else Ok tt (set_enabled_attribs
                  (filter (fun i => negb (i =? index)) (enabled_attribs (binds s))) s).

Definition vertexAttribPointer (index size type : Z) (normalized : bool)
    (stride offset : Z) : M state unit :=
  fun s =>
    if index <? 0 then Ok tt (with_error INVALID_VALUE s)
    else match array_buffer (binds s) with
         | Some _ => Ok tt s
         | None => Ok tt (with_error INVALID_OPERATION s)
         end.

(** *** Capabilities, depth and blending *)

Definition set_depth_test (v : bool) (p : pipeline) : pipeline :=
  Pipeline v (depth_func p) (depth_mask p) (blend p)
    (blend_src_rgb p) (blend_dst_rgb p) (blend_src_alpha p) (blend_dst_alpha p).
Definition set_depth_func (v : GLenum) (p : pipeline) : pipeline :=
  Pipeline (depth_test p) v (depth_mask p) (blend p)
    (blend_src_rgb p) (blend_dst_rgb p) (blend_src_alpha p) (blend_dst_alpha p).
Definition set_depth_mask (v : bool) (p : pipeline) : pipeline :=
  Pipeline (depth_test p) (depth_func p) v (blend p)
    (blend_src_rgb p) (blend_dst_rgb p) (blend_src_alpha p) (blend_dst_alpha p).
Definition set_blend (v : bool) (p : pipeline) : pipeline :=
  Pipeline (depth_test p) (depth_func p) (depth_mask p) v
    (blend_src_rgb p) (blend_dst_rgb p) (blend_src_alpha p) (blend_dst_alpha p).
Definition set_blend_func (src dst : GLenum) (p : pipeline) : pipeline :=
  Pipeline (depth_test p) (depth_func p) (depth_mask p) (blend p) src dst src dst.

(** [enable(cap)] and [disable(cap)]; capabilities other than [DEPTH_TEST]
    and [BLEND] are not part of the modelled state. *)
Definition set_cap (cap : GLenum) (v : bool) : M state unit :=
  fun s =>
    if cap =? DEPTH_TEST then Ok tt (with_pipe (set_depth_test v (pipe s)) s)
    else if cap =? BLEND then Ok tt (with_pipe (set_blend v (pipe s)) s)
    else Ok tt s.
Definition enable (cap : GLenum) : M state unit := set_cap cap true.
Definition disable (cap : GLenum) : M state unit := set_cap cap false.

Definition isEnabled (cap : GLenum) : M state value :=
  fun s =>
    if cap =? DEPTH_TEST then Ok (VBool (depth_test (pipe s))) s
    else if cap =? BLEND then Ok (VBool (blend (pipe s))) s
    else Ok (VBool false) (with_error INVALID_ENUM s).

(** The comparison functions are [NEVER] (512) to [ALWAYS] (519). *)
Definition depthFunc (func : GLenum) : M state unit :=
  fun s =>
    if (512 <=? func) && (func <=? 519)
    then Ok tt (with_pipe (set_depth_func func (pipe s)) s)
    else Ok tt (with_error INVALID_ENUM s).

Definition depthMask (flag : bool) : M state unit :=
  fun s => Ok tt (with_pipe (set_depth_mask flag (pipe s)) s).

(** The blend factors: [ZERO], [ONE], [SRC_COLOR] (768) to
    [SRC_ALPHA_SATURATE] (776, for the source only), and the four constant
    factors (32769 to 32772), of which a colour one and an alpha one may
    not be mixed. *)
Definition constant_color (e : GLenum) : bool := (e =? 32769) || (e =? 32770).
Definition constant_alpha (e : GLenum) : bool := (e =? 32771) || (e =? 32772).
Definition dst_factor (e : GLenum) : bool :=
  (e =? 0) || (e =? 1) || ((768 <=? e) && (e <=? 775)) || ((32769 <=? e) && (e <=? 32772)).
Definition src_factor (e : GLenum) : bool := dst_factor e || (e =? 776).

(** [blendFunc(sfactor, dfactor)] sets the factors of colour and alpha
    alike. *)
Definition blendFunc (sfactor dfactor : GLenum) : M state unit :=
  fun s =>
    if negb (src_factor sfactor && dst_factor dfactor)
    then Ok tt (with_error INVALID_ENUM s)
    else if (constant_color sfactor && constant_alpha dfactor)
            || (constant_alpha sfactor && constant_color dfactor)
    then Ok tt (with_error INVALID_OPERATION s)
    else Ok tt (with_pipe (set_blend_func sfactor dfactor (pipe s)) s).

(** [getParameter(pname)], for the parameters of the modelled state. *)
Definition getParameter (pname : GLenum) : M state value :=
  fun s =>
    if pname =? CURRENT_PROGRAM then
      Ok (match current_program (binds s) with
          | Some h => VProgram h
          | None => VNull
          end) s
    else if pname =? DEPTH_FUNC then Ok (VEnum (depth_func (pipe s))) s
    else if pname =? DEPTH_WRITEMASK then Ok (VBool (depth_mask (pipe s))) s
    else if pname =? DEPTH_TEST then Ok (VBool (depth_test (pipe s))) s
    else if pname =? BLEND then Ok (VBool (blend (pipe s))) s
    else if pname =? BLEND_SRC_RGB then Ok (VEnum (blend_src_rgb (pipe s))) s
    else if pname =? BLEND_DST_RGB then Ok (VEnum (blend_dst_rgb (pipe s))) s
    else if pname =? BLEND_SRC_ALPHA then Ok (VEnum (blend_src_alpha (pipe s))) s
    else if pname =? BLEND_DST_ALPHA then Ok (VEnum (blend_dst_alpha (pipe s))) s
    else Ok VNull (with_error INVALID_ENUM s).

(** *** Drawing

    [drawElements] runs the current program over the bound index buffer;
    without either it only records [INVALID_OPERATION].  The vertex
    attribute pointers and the size of the index data are not part of the
    modelled state: [draws] lists the calls issued with a program and an
    index buffer in place. *)
Definition drawElements (mode count type offset : Z) : M state unit :=
  fun s =>
    match current_program (binds s), element_array_buffer (binds s) with
    | Some p, Some _ => Ok tt (with_draw (Draw p count (pipe s)) s)
    | _, _ => Ok tt (with_error INVALID_OPERATION s)
    end.

(** The context as WebGL creates it. *)
Definition initial_pipeline : pipeline :=
  Pipeline false LESS true false ONE ZERO ONE ZERO.
Definition initial (d : driver) : state :=
  State d (Objects 1%nat [] [] []) (Bindings None None None []) initial_pipeline [] [].

End GL.

(** ** The host: the map, its transform and the page

    What the two files read from MapLibre and from the page.  [glmatrix]
    says whether the page supplies [mat4] and [vec4] (gl-matrix). *)

Module Host.

(** A 4x4 matrix in column-major order, indexed from 0 to 15. *)
Definition mat4 := nat -> R.
Record vec4 := Vec4 { x : R; y : R; z : R; w : R }.

(** gl-matrix's [vec4.transformMat4(out, a, m)]. *)
Definition transformMat4 (a : vec4) (m : mat4) : vec4 :=
  Vec4 (m 0%nat * x a + m 4%nat * y a + m 8%nat * z a + m 12%nat * w a)
       (m 1%nat * x a + m 5%nat * y a + m 9%nat * z a + m 13%nat * w a)
       (m 2%nat * x a + m 6%nat * y a + m 10%nat * z a + m 14%nat * w a)
       (m 3%nat * x a + m 7%nat * y a + m 11%nat * z a + m 15%nat * w a).

Definition to_array (m : mat4) : list R := List.map m (seq 0 16).

Record LngLat := LngLat_ { lng : R; lat : R }.

Record ProjectionData := ProjectionData_ { projectionTransition : R }.

Record Transform := Transform_ {
  projectionData : ProjectionData;
  modelViewProjectionMatrix : mat4;
  inverseProjectionMatrix : mat4;
  worldSize : R;
  center : LngLat;
  pitchInRadians : option R;
  pitch : R;
  bearingInRadians : option R;
  bearing : R;
  rollInRadians : option R
}.

(** [transform.getProjectionData({...})]. *)
Definition getProjectionData (t : Transform) : ProjectionData := projectionData t.

Record world := World {
  gl : GL.state;
  console : list string;
  layers : list string;
  transform : Transform;
  glmatrix : bool;
  repaints : nat
}.

Definition with_gl (g : GL.state) (e : world) : world :=
  World g (console e) (layers e) (transform e) (glmatrix e) (repaints e).
Definition with_console (c : list string) (e : world) : world :=
  World (gl e) c (layers e) (transform e) (glmatrix e) (repaints e).
Definition with_layers (l : list string) (e : world) : world :=
  World (gl e) (console e) l (transform e) (glmatrix e) (repaints e).
Definition with_repaints (n : nat) (e : world) : world :=
  World (gl e) (console e) (layers e) (transform e) (glmatrix e) n.

(** [console.error] and [console.warn]. *)
Definition log (msg : string) (e : world) : world :=
  with_console (msg :: console e) e.

Fixpoint insert_before (id : string) (before : string) (l : list string) : list string :=
  match l with
  | [] => [id]
  | k :: l' => if String.eqb k before then id :: k :: l' else k :: insert_before id before l'
  end.

(** [map.addLayer(layer, beforeId)]: an id already in the style is
    refused (the map fires an error event, it does not throw). *)
Definition addLayer (id : string) (beforeId : option string) (e : world) : world :=
  if existsb (String.eqb id) (layers e) then e
  else match beforeId with
       | Some b => with_layers (insert_before id b (layers e)) e
       | None => with_layers (layers e ++ [id]) e
       end.

Definition removeLayer (id : string) (e : world) : world :=
  with_layers (filter (fun k => negb (String.eqb k id)) (layers e)) e.

Definition triggerRepaint (e : world) : world := with_repaints (S (repaints e)) e.

(** The reference to the map held in a [this.map] field. *)
Inductive Map := the_map.

End Host.

(** What is passed to the constructor and to [createStarsLayer]: each
    property is a number (a string for [id]) or absent. *)
Record Options := Options_ {
  opt_id : option string;
  opt_intensity : option R;
  opt_density : option R
}.

(** The full-screen quad. *)
Definition vertices : list R := [-1; -1; 1; -1; 1; 1; -1; 1].
Definition indices : list R := [0; 1; 2; 0; 2; 3].

(** ** [StarsPlugin] (the control) *)

Module StarsPlugin.
Import JS Host.
Local Open Scope js_scope.
Local Open Scope bool_scope.

Record t := Build {
  intensity : R;
  density : R;
  map : option Map;
  program : option GL.handle;
  vertexBuffer : option GL.handle;
  indexBuffer : option GL.handle;
  vertexShader : option GL.handle;
  fragmentShader : option GL.handle;
  _customLayer : option string
}.

(** The plugin object and the world around it. *)
Record st := St { this : t; env : world }.

Definition gl_ {A} (m : M GL.state A) : M st A :=
  lift (fun s => gl (env s)) (fun g s => St (this s) (with_gl g (env s))) m.
Definition host (f : world -> world) : M st unit :=
  modify (fun s => St (this s) (f (env s))).
Definition assign (f : t -> t) : M st unit :=
  modify (fun s => St (f (this s)) (env s)).

Definition set_map v o := Build (intensity o) (density o) v (program o)
  (vertexBuffer o) (indexBuffer o) (vertexShader o) (fragmentShader o) (_customLayer o).
Definition set_program v o := Build (intensity o) (density o) (map o) v
  (vertexBuffer o) (indexBuffer o) (vertexShader o) (fragmentShader o) (_customLayer o).
Definition set_vertexBuffer v o := Build (intensity o) (density o) (map o) (program o)
  v (indexBuffer o) (vertexShader o) (fragmentShader o) (_customLayer o).
Definition set_indexBuffer v o := Build (intensity o) (density o) (map o) (program o)
  (vertexBuffer o) v (vertexShader o) (fragmentShader o) (_customLayer o).
Definition set_vertexShader v o := Build (intensity o) (density o) (map o) (program o)
  (vertexBuffer o) (indexBuffer o) v (fragmentShader o) (_customLayer o).
Definition set_fragmentShader v o := Build (intensity o) (density o) (map o) (program o)
  (vertexBuffer o) (indexBuffer o) (vertexShader o) v (_customLayer o).
Definition set_customLayer v o := Build (intensity o) (density o) (map o) (program o)
  (vertexBuffer o) (indexBuffer o) (vertexShader o) (fragmentShader o) v.
Definition set_intensity v o := Build v (density o) (map o) (program o)
  (vertexBuffer o) (indexBuffer o) (vertexShader o) (fragmentShader o) (_customLayer o).
Definition set_density v o := Build (intensity o) v (map o) (program o)
  (vertexBuffer o) (indexBuffer o) (vertexShader o) (fragmentShader o) (_customLayer o).

Definition constructor (options : Options) : t :=
  Build (or_else (opt_intensity options) 20.0)
        (or_else (opt_density options) 0.15)
        None None None None None None None.

(** The fragment source of [onAdd], with [(1 - this.density).toFixed(2)]
    spliced in.  The difference is taken over the reals: where it falls on
    a tie of the second decimal, the literal of the floating-point
    difference may be the neighbouring hundredth. *)
Definition fragmentSource (density : R) : Shader.baked :=
  Shader.Baked (toFixed2 (1 - density)) 0.015 0.025.

Definition _createShader (type : GL.GLenum) (source : GL.source)
  : M st (option GL.handle) :=
  shader <- gl_ (GL.createShader type) ;;
  gl_ (GL.shaderSource shader source) ;;
  gl_ (GL.compileShader shader) ;;
  status <- gl_ (GL.getShaderParameter shader GL.COMPILE_STATUS) ;;
  if negb (GL.truthy status) then
    info <- gl_ (GL.getShaderInfoLog shader) ;;
    host (log ("Shader compilation error: " ++ info)) ;;
    gl_ (GL.deleteShader shader) ;;
    ret None
  else ret shader.

Definition _createProgram (vertexShader fragmentShader : option GL.handle)
  : M st (option GL.handle) :=
  program <- gl_ GL.createProgram ;;
  gl_ (GL.attachShader program vertexShader) ;;
  gl_ (GL.attachShader program fragmentShader) ;;
  gl_ (GL.linkProgram program) ;;
  status <- gl_ (GL.getProgramParameter program GL.LINK_STATUS) ;;
  if negb (GL.truthy status) then
    info <- gl_ (GL.getProgramInfoLog program) ;;
    host (log ("Program linking error: " ++ info)) ;;
    gl_ (GL.deleteProgram program) ;;
    ret None
  else ret program.

Definition layer_id : string := "stars-plugin-layer".

Definition onAdd (map : Map) : M st unit :=
  assign (set_map (Some map)) ;;
  vs <- _createShader GL.VERTEX_SHADER GL.vertexSource ;;
  assign (set_vertexShader vs) ;;
  density <- gets (fun s => density (this s)) ;;
  fs <- _createShader GL.FRAGMENT_SHADER (GL.fragmentSource (fragmentSource density)) ;;
  assign (set_fragmentShader fs) ;;
  program <- _createProgram vs fs ;;
  assign (set_program program) ;;
  vb <- gl_ GL.createBuffer ;;
  assign (set_vertexBuffer vb) ;;
  gl_ (GL.bindBuffer GL.ARRAY_BUFFER vb) ;;
  gl_ (GL.bufferData GL.ARRAY_BUFFER vertices GL.STATIC_DRAW) ;;
  ib <- gl_ GL.createBuffer ;;
  assign (set_indexBuffer ib) ;;
  gl_ (GL.bindBuffer GL.ELEMENT_ARRAY_BUFFER ib) ;;
  gl_ (GL.bufferData GL.ELEMENT_ARRAY_BUFFER indices GL.STATIC_DRAW) ;;
  assign (set_customLayer (Some layer_id)) ;;
  layers <- gets (fun s => layers (env s)) ;;
  let firstLayerId := match layers with l :: _ => Some l | [] => None end in
  host (addLayer layer_id firstLayerId) ;;
  ret tt.

Definition _getGlobeRadius (worldSize latitude : R) : R :=
  let circumference := worldSize in
  let radius := circumference / (2 * PI) in
  radius * cos (latitude * PI / 180).

Definition is_null {A} (o : option A) : bool :=
  match o with Some _ => false | None => true end.

(** The view-space origin sent through the two matrices, when gl-matrix
    is there; [(0, 0, 0, 1)] otherwise. *)
Definition globe_vec (glmatrix : bool) (transform : Transform) : vec4 :=
  let vec := Vec4 0 0 0 1 in
  if glmatrix then
    let vec := transformMat4 vec (modelViewProjectionMatrix transform) in
    let vec := Vec4 (x vec / w vec) (y vec / w vec) (z vec / w vec) 1 in
    let vec := transformMat4 vec (inverseProjectionMatrix transform) in
    Vec4 (x vec / w vec) (y vec / w vec) (z vec / w vec) (w vec)
  else vec.

Definition globeCenter (transform : Transform) : list R :=
  [ lng (center transform) * PI / 180.0;
    lat (center transform) * PI / 180.0 ].

Definition cameraAngles (transform : Transform) : list R :=
  [ or_else (pitchInRadians transform) (pitch transform * PI / 180);
    - (or_else (bearingInRadians transform) (bearing transform * PI / 180));
    - (or_else (rollInRadians transform) 0) ].

Definition _render : M st unit :=
  self <- gets this ;;
  if is_null (map self) || is_null (program self) then ret tt else
  transform <- gets (fun s => transform (env s)) ;;
  let projectionData := getProjectionData transform in
  if Req_dec_T (projectionTransition projectionData) 0 then ret tt else
  (* Save GL state *)
  oldProgram <- gl_ (GL.getParameter GL.CURRENT_PROGRAM) ;;
  oldDepthFunc <- gl_ (GL.getParameter GL.DEPTH_FUNC) ;;
  oldDepthMask <- gl_ (GL.getParameter GL.DEPTH_WRITEMASK) ;;
  oldBlendEnabled <- gl_ (GL.isEnabled GL.BLEND) ;;
  oldBlendSrc <- gl_ (GL.getParameter GL.BLEND_SRC_ALPHA) ;;
  oldBlendDst <- gl_ (GL.getParameter GL.BLEND_DST_ALPHA) ;;
  (* Calculate globe position *)
  glmatrix <- gets (fun s => glmatrix (env s)) ;;
  let vec := globe_vec glmatrix transform in
  let globePosition := [x vec; y vec; z vec] in
  let globeRadius := _getGlobeRadius (worldSize transform) (lat (center transform)) in
  let globeCenter := globeCenter transform in
  let cameraAngles := cameraAngles transform in
  (* Use the program *)
  gl_ (GL.useProgram (program self)) ;;
  (* Set uniforms *)
  uInvProjMatrix <- gl_ (GL.getUniformLocation (program self) "u_inv_proj_matrix") ;;
  uGlobePosition <- gl_ (GL.getUniformLocation (program self) "u_globe_position") ;;
  uGlobeRadius <- gl_ (GL.getUniformLocation (program self) "u_globe_radius") ;;
  uStarsIntensity <- gl_ (GL.getUniformLocation (program self) "u_stars_intensity") ;;
  uGlobeCenter <- gl_ (GL.getUniformLocation (program self) "u_globe_center") ;;
  uCameraAngles <- gl_ (GL.getUniformLocation (program self) "u_camera_angles") ;;
  gl_ (GL.uniform uInvProjMatrix (to_array (inverseProjectionMatrix transform))) ;;
  gl_ (GL.uniform uGlobePosition globePosition) ;;
  gl_ (GL.uniform uGlobeRadius [globeRadius]) ;;
  gl_ (GL.uniform uStarsIntensity [intensity self]) ;;
  gl_ (GL.uniform uGlobeCenter globeCenter) ;;
  gl_ (GL.uniform uCameraAngles cameraAngles) ;;
  (* Bind vertex buffer *)
  aPosLocation <- gl_ (GL.getAttribLocation (program self) "a_pos") ;;
  gl_ (GL.bindBuffer GL.ARRAY_BUFFER (vertexBuffer self)) ;;
  gl_ (GL.enableVertexAttribArray aPosLocation) ;;
  gl_ (GL.vertexAttribPointer aPosLocation 2 GL.FLOAT false 0 0) ;;
  (* Draw *)
  gl_ (GL.bindBuffer GL.ELEMENT_ARRAY_BUFFER (indexBuffer self)) ;;
  gl_ (GL.depthFunc GL.ALWAYS) ;;
  gl_ (GL.depthMask false) ;;
  gl_ (GL.enable GL.BLEND) ;;
  gl_ (GL.blendFunc GL.SRC_ALPHA GL.ONE_MINUS_SRC_ALPHA) ;;
  gl_ (GL.drawElements GL.TRIANGLES 6 GL.UNSIGNED_SHORT 0) ;;
  (* Restore state *)
  gl_ (GL.depthFunc (GL.to_enum oldDepthFunc)) ;;
  gl_ (GL.depthMask (GL.truthy oldDepthMask)) ;;
  (if negb (GL.truthy oldBlendEnabled) then gl_ (GL.disable GL.BLEND) else ret tt) ;;
  (if GL.truthy oldBlendSrc && GL.truthy oldBlendDst
   then gl_ (GL.blendFunc (GL.to_enum oldBlendSrc) (GL.to_enum oldBlendDst))
   else ret tt) ;;
  gl_ (GL.disableVertexAttribArray aPosLocation) ;;
  gl_ (GL.bindBuffer GL.ARRAY_BUFFER None) ;;
  gl_ (GL.bindBuffer GL.ELEMENT_ARRAY_BUFFER None) ;;
  (if GL.truthy oldProgram then gl_ (GL.useProgram (GL.to_program oldProgram)) else ret tt).

(** [render] of the custom layer that [onAdd] registers. *)
Definition render : M st unit := _render.

Definition onRemove : M st unit :=
  self <- gets this ;;
  (if negb (is_null (map self)) && negb (is_null (_customLayer self))
   then host (removeLayer layer_id) else ret tt) ;;
  (if negb (is_null (program self)) && negb (is_null (map self)) then
     gl_ (GL.deleteProgram (program self)) ;;
     gl_ (GL.deleteShader (vertexShader self)) ;;
     gl_ (GL.deleteShader (fragmentShader self)) ;;
     gl_ (GL.deleteBuffer (vertexBuffer self)) ;;
     gl_ (GL.deleteBuffer (indexBuffer self))
   else ret tt) ;;
  assign (set_map None) ;;
  assign (set_program None).

Definition setIntensity (intensity : R) : M st unit :=
  assign (set_intensity intensity) ;;
  self <- gets this ;;
  if negb (is_null (map self)) then host triggerRepaint else ret tt.

Definition setDensity (density : R) : M st unit :=
  assign (set_density density) ;;
  host (log "Changing density requires recreating the plugin").

End StarsPlugin.

(** ** [createStarsLayer] (the bare custom layer) *)

Module StarsLayer.
Import JS Host.
Local Open Scope js_scope.
Local Open Scope bool_scope.

(** The layer object, with the two constants its closures capture.  The
    fields [map] to [aPos] do not exist before [onAdd]. *)
Record t := Build {
  intensity : R;
  density : R;
  id : string;
  map : option Map;
  program : option GL.handle;
  vertexBuffer : option GL.handle;
  indexBuffer : option GL.handle;
  aPos : option Z
}.

Record st := St { this : t; env : world }.

Definition gl_ {A} (m : M GL.state A) : M st A :=
  lift (fun s => gl (env s)) (fun g s => St (this s) (with_gl g (env s))) m.
Definition host (f : world -> world) : M st unit :=
  modify (fun s => St (this s) (f (env s))).
Definition assign (f : t -> t) : M st unit :=
  modify (fun s => St (f (this s)) (env s)).

Definition set_map v o := Build (intensity o) (density o) (id o) v (program o)
  (vertexBuffer o) (indexBuffer o) (aPos o).
Definition set_program v o := Build (intensity o) (density o) (id o) (map o) v
  (vertexBuffer o) (indexBuffer o) (aPos o).
Definition set_vertexBuffer v o := Build (intensity o) (density o) (id o) (map o)
  (program o) v (indexBuffer o) (aPos o).
Definition set_indexBuffer v o := Build (intensity o) (density o) (id o) (map o)
  (program o) (vertexBuffer o) v (aPos o).
Definition set_aPos v o := Build (intensity o) (density o) (id o) (map o)
  (program o) (vertexBuffer o) (indexBuffer o) v.

(** [options.id || 'stars']: the empty string is falsy. *)
Definition id_or (a : option string) (b : string) : string :=
  match a with
  | Some s => if String.eqb s "" then b else s
  | None => b
  end.

Definition createStarsLayer (options : Options) : t :=
  let intensity := or_else (opt_intensity options) 20.0 in
  let density := or_else (opt_density options) 0.15 in
  Build intensity density (id_or (opt_id options) "stars") None None None None None.

(** The fragment source of [onAdd], with [(1 - density).toFixed(2)]
    spliced in; the difference is taken over the reals, as in the plugin. *)
Definition fragmentSource (density : R) : Shader.baked :=
  Shader.Baked (toFixed2 (1 - density)) 0.01 0.05.

Definition onAdd (map : Map) : M st unit :=
  assign (set_map (Some map)) ;;
  self <- gets this ;;
  (* Create shaders *)
  vertexShader <- gl_ (GL.createShader GL.VERTEX_SHADER) ;;
  gl_ (GL.shaderSource vertexShader GL.vertexSource) ;;
  gl_ (GL.compileShader vertexShader) ;;
  vstatus <- gl_ (GL.getShaderParameter vertexShader GL.COMPILE_STATUS) ;;
  (if negb (GL.truthy vstatus) then
     info <- gl_ (GL.getShaderInfoLog vertexShader) ;;
     host (log ("Vertex shader compilation error: " ++ info))
   else ret tt) ;;
  fragmentShader <- gl_ (GL.createShader GL.FRAGMENT_SHADER) ;;
  gl_ (GL.shaderSource fragmentShader (GL.fragmentSource (fragmentSource (density self)))) ;;
  gl_ (GL.compileShader fragmentShader) ;;
  fstatus <- gl_ (GL.getShaderParameter fragmentShader GL.COMPILE_STATUS) ;;
  (if negb (GL.truthy fstatus) then
     info <- gl_ (GL.getShaderInfoLog fragmentShader) ;;
     host (log ("Fragment shader compilation error: " ++ info))
   else ret tt) ;;
  (* Create program *)
  program <- gl_ GL.createProgram ;;
  assign (set_program program) ;;
  gl_ (GL.attachShader program vertexShader) ;;
  gl_ (GL.attachShader program fragmentShader) ;;
  gl_ (GL.linkProgram program) ;;
  lstatus <- gl_ (GL.getProgramParameter program GL.LINK_STATUS) ;;
  (if negb (GL.truthy lstatus) then
     info <- gl_ (GL.getProgramInfoLog program) ;;
     host (log ("Program linking error: " ++ info))
   else ret tt) ;;
  (* Create full-screen quad *)
  vb <- gl_ GL.createBuffer ;;
  assign (set_vertexBuffer vb) ;;
  gl_ (GL.bindBuffer GL.ARRAY_BUFFER vb) ;;
  gl_ (GL.bufferData GL.ARRAY_BUFFER vertices GL.STATIC_DRAW) ;;
  ib <- gl_ GL.createBuffer ;;
  assign (set_indexBuffer ib) ;;
  gl_ (GL.bindBuffer GL.ELEMENT_ARRAY_BUFFER ib) ;;
  gl_ (GL.bufferData GL.ELEMENT_ARRAY_BUFFER indices GL.STATIC_DRAW) ;;
  a <- gl_ (GL.getAttribLocation program "a_pos") ;;
  assign (set_aPos (Some a)).

Definition globe_vec (glmatrix : bool) (transform : Transform) : vec4 :=
  let vec := Vec4 0 0 0 1 in
  if glmatrix then
    let vec := transformMat4 vec (modelViewProjectionMatrix transform) in
    let vec := Vec4 (x vec / w vec) (y vec / w vec) (z vec / w vec) 1 in
    let vec := transformMat4 vec (inverseProjectionMatrix transform) in
    Vec4 (x vec / w vec) (y vec / w vec) (z vec / w vec) (w vec)
  else vec.

(** An index that is [undefined] reads as [0]. *)
Definition index_of (a : option Z) : Z :=
  match a with Some i => i | None => 0%Z end.

Definition render : M st unit :=
  self <- gets this ;;
  match map self with
  | None => throw (TypeError "Cannot read properties of undefined (reading 'transform')")
  | Some _ =>
    transform <- gets (fun s => transform (env s)) ;;
    (* Only render in globe projection *)
    let projectionData := getProjectionData transform in
    if Req_dec_T (projectionTransition projectionData) 0 then ret tt else
    gl_ (GL.useProgram (program self)) ;;
    glmatrix <- gets (fun s => glmatrix (env s)) ;;
    let vec := globe_vec glmatrix transform in
    let globePosition := [x vec; y vec; z vec] in
    let circumference := worldSize transform in
    let globeRadius :=
      (circumference / (2 * PI)) * cos (lat (center transform) * PI / 180) in
    let globeCenter :=
      [ lng (center transform) * PI / 180.0;
        lat (center transform) * PI / 180.0 ] in
    let cameraAngles :=
      [ or_else (pitchInRadians transform) (pitch transform * PI / 180);
        - (or_else (bearingInRadians transform) (bearing transform * PI / 180));
        - (or_else (rollInRadians transform) 0) ] in
    (* Set uniforms *)
    l1 <- gl_ (GL.getUniformLocation (program self) "u_inv_proj_matrix") ;;
    gl_ (GL.uniform l1 (to_array (inverseProjectionMatrix transform))) ;;
    l2 <- gl_ (GL.getUniformLocation (program self) "u_globe_position") ;;
    gl_ (GL.uniform l2 globePosition) ;;
    l3 <- gl_ (GL.getUniformLocation (program self) "u_globe_radius") ;;
    gl_ (GL.uniform l3 [globeRadius]) ;;
    l4 <- gl_ (GL.getUniformLocation (program self) "u_stars_intensity") ;;
    gl_ (GL.uniform l4 [intensity self]) ;;
    l5 <- gl_ (GL.getUniformLocation (program self) "u_globe_center") ;;
    gl_ (GL.uniform l5 globeCenter) ;;
    l6 <- gl_ (GL.getUniformLocation (program self) "u_camera_angles") ;;
    gl_ (GL.uniform l6 cameraAngles) ;;
    (* Bind buffers *)
    gl_ (GL.bindBuffer GL.ARRAY_BUFFER (vertexBuffer self)) ;;
    gl_ (GL.enableVertexAttribArray (index_of (aPos self))) ;;
    gl_ (GL.vertexAttribPointer (index_of (aPos self)) 2 GL.FLOAT false 0 0) ;;
    gl_ (GL.bindBuffer GL.ELEMENT_ARRAY_BUFFER (indexBuffer self)) ;;
    (* Render at far plane *)
    gl_ (GL.disable GL.DEPTH_TEST) ;;
    gl_ (GL.drawElements GL.TRIANGLES 6 GL.UNSIGNED_SHORT 0) ;;
    gl_ (GL.enable GL.DEPTH_TEST)
  end.

End StarsLayer.

(** ** The rotations of the coordinate transform, by name

    The five steps as the design names them: a rotation about a coordinate
    axis keeps that coordinate and turns the other two by the angle.  The
    globe-centre steps are the X and Y rotations by the opposite angle. *)

Module Rotation.
Import GLSL.

Definition aboutX (angle : R) (v : vec3) : vec3 :=
  Vec3 (v3x v)
       (v3y v * cos angle - v3z v * sin angle)
       (v3y v * sin angle + v3z v * cos angle).

Definition aboutY (angle : R) (v : vec3) : vec3 :=
  Vec3 (v3x v * cos angle - v3z v * sin angle)
       (v3y v)
       (v3x v * sin angle + v3z v * cos angle).

Definition aboutZ (angle : R) (v : vec3) : vec3 :=
  Vec3 (v3x v * cos angle - v3y v * sin angle)
       (v3x v * sin angle + v3y v * cos angle)
       (v3z v).

Definition byLatitude (lat : R) (v : vec3) : vec3 := aboutX (- lat) v.
Definition byLongitude (lng : R) (v : vec3) : vec3 := aboutY (- lng) v.

(** The pipeline in the order of the design. *)
Definition pipeline (pitch bearing roll centerLat centerLng : R) (ray : vec3) : vec3 :=
  byLongitude centerLng
    (byLatitude centerLat
       (aboutZ roll (aboutY bearing (aboutX pitch ray)))).

Definition norm2 (v : vec3) : R := v3x v * v3x v + v3y v * v3y v + v3z v * v3z v.

End Rotation.

(** ** Directions of given scaled UV coordinates, and the factorial as an integer *)

(** The direction whose scaled UV coordinates are [(sx, sy)]: the inverse of
    the map from [(lng, lat)] to [uv * 200] in [star_field], with the [PI] of
    the shader. *)
Definition lng_of (sx : R) : R := Shader.PI * (2 * (sx / 200) - 1).
Definition lat_of (sy : R) : R := (Shader.PI * 0.5) * (2 * (sy / 200) - 1).

(** [n!] as an integer, to read [INR (fact n)] as a numeral. *)
Fixpoint Zfact (n : nat) : Z :=
  match n with
  | O => 1%Z
  | S m => (Z.of_nat n * Zfact m)%Z
  end.

(** ** The presence rule

    What holds of the locals [f] of "Create star field" for a presence
    threshold [T]: the hash is the stated expression of the grid cell, the
    branch is taken exactly when the hash exceeds [T], and a cell without a
    star has strength 0. *)
Definition presence_rule (T : R) (f : Shader.field) : Prop :=
  Shader.hash (Shader.gridPos f)
  = GLSL.fract (sin (GLSL.dot (Shader.gridPos f) (GLSL.Vec2 12.9898 78.233)) * 43758.5453)
  /\ (Shader.cell f <> None <-> Shader.hash (Shader.gridPos f) > T)
  /\ (~ Shader.hash (Shader.gridPos f) > T -> Shader.stars f = 0).

(** ** Outcomes of a run, and states of the two components *)

(** The run returns, in a state that satisfies [P]. *)
Definition post {S A} (P : S -> Prop) (r : JS.result S A) : Prop :=
  match r with
  | JS.Ok _ s' => P s'
  | JS.Throw _ _ => False
  end.

(** A GL call that returns and executes no draw. *)
Definition gl_quiet {A} (m : JS.M GL.state A) : Prop :=
  forall g, exists a g', m g = JS.Ok a g' /\ GL.draws g' = GL.draws g.

(** A step of the plugin that returns and executes no draw. *)
Definition quiet {A} (m : JS.M StarsPlugin.st A) : Prop :=
  forall s, exists a s',
    m s = JS.Ok a s'
    /\ GL.draws (Host.gl (StarsPlugin.env s')) = GL.draws (Host.gl (StarsPlugin.env s)).

(** The [projectionTransition] that [render] reads in a state. *)
Definition plugin_transition (s : StarsPlugin.st) : R :=
  Host.projectionTransition
    (Host.getProjectionData (Host.transform (StarsPlugin.env s))).
Definition layer_transition (s : StarsLayer.st) : R :=
  Host.projectionTransition
    (Host.getProjectionData (Host.transform (StarsLayer.env s))).

(** Valid resources: the component is attached to a map, its program is a
    linked program of the context and its index buffer exists. *)
Definition plugin_ready (s : StarsPlugin.st) : Prop :=
  StarsPlugin.map (StarsPlugin.this s) <> None
  /\ exists p ib,
      StarsPlugin.program (StarsPlugin.this s) = Some p
      /\ StarsPlugin.indexBuffer (StarsPlugin.this s) = Some ib
      /\ GL.linked p (Host.gl (StarsPlugin.env s)) = true.
Definition layer_ready (s : StarsLayer.st) : Prop :=
  StarsLayer.map (StarsLayer.this s) <> None
  /\ exists p ib,
      StarsLayer.program (StarsLayer.this s) = Some p
      /\ StarsLayer.indexBuffer (StarsLayer.this s) = Some ib
      /\ GL.linked p (Host.gl (StarsLayer.env s)) = true.

(** The pipeline state and the active program of the context. *)
Definition plugin_pipe (s : StarsPlugin.st) : GL.pipeline :=
  GL.pipe (Host.gl (StarsPlugin.env s)).
Definition plugin_program (s : StarsPlugin.st) : option GL.handle :=
  GL.current_program (GL.binds (Host.gl (StarsPlugin.env s))).
Definition layer_pipe (s : StarsLayer.st) : GL.pipeline :=
  GL.pipe (Host.gl (StarsLayer.env s)).
Definition layer_program (s : StarsLayer.st) : option GL.handle :=
  GL.current_program (GL.binds (Host.gl (StarsLayer.env s))).

(** The draws executed so far. *)
Definition plugin_draws (s : StarsPlugin.st) : list GL.draw :=
  GL.draws (Host.gl (StarsPlugin.env s)).
Definition layer_draws (s : StarsLayer.st) : list GL.draw :=
  GL.draws (Host.gl (StarsLayer.env s)).

(** *** A page to run the components on *)

(** Implementations that accept every source, that reject the fragment
    source, and that compile both sources but do not link them. *)
Definition accepting : GL.driver := GL.Driver (fun _ => true) (fun _ _ => true).
Definition rejecting_fragment : GL.driver :=
  GL.Driver (fun src => match src with
                        | GL.vertexSource => true
                        | GL.fragmentSource _ => false
                        end)
            (fun _ _ => true).
Definition not_linking : GL.driver := GL.Driver (fun _ => true) (fun _ _ => false).

Definition identity4 : Host.mat4 :=
  fun i => if Nat.eqb (Nat.modulo i 5) 0 then 1 else 0.

(** A camera over (0, 0) with the given projection transition. *)
Definition camera (transition : R) : Host.Transform :=
  Host.Transform_ (Host.ProjectionData_ transition) identity4 identity4 512
    (Host.LngLat_ 0 0) None 0 None 0 None.

(** A page with a fresh context on the implementation [d], a style of one
    layer and gl-matrix loaded. *)
Definition page (d : GL.driver) (transition : R) : Host.world :=
  Host.World (GL.initial d) [] ["background"%string] (camera transition) true 0.

Definition no_options : Options := Options_ None None None.

(** The plugin before and after [onAdd] on such a page. *)
Definition new_plugin (d : GL.driver) (transition : R) : StarsPlugin.st :=
  StarsPlugin.St (StarsPlugin.constructor no_options) (page d transition).
Definition added_plugin (d : GL.driver) (transition : R) : StarsPlugin.st :=
  JS.state_of (StarsPlugin.onAdd Host.the_map (new_plugin d transition)).

(** The layer object before and after [onAdd]. *)
Definition new_layer (d : GL.driver) (transition : R) : StarsLayer.st :=
  StarsLayer.St (StarsLayer.createStarsLayer no_options) (page d transition).
Definition added_layer (d : GL.driver) (transition : R) : StarsLayer.st :=
  JS.state_of (StarsLayer.onAdd Host.the_map (new_layer d transition)).

(** ** What the options bake, frames of the context, and what is read back *)

(** The fragment source that each file builds from an options object. *)
Definition plugin_baked (options : Options) : Shader.baked :=
  StarsPlugin.fragmentSource (StarsPlugin.density (StarsPlugin.constructor options)).
Definition layer_baked (options : Options) : Shader.baked :=
  StarsLayer.fragmentSource (StarsLayer.density (StarsLayer.createStarsLayer options)).

(** The implementation behind the context compiles the two sources of the
    component and links them. *)
Definition plugin_sources_accepted (s : StarsPlugin.st) : Prop :=
  GL.compiles (GL.drv (Host.gl (StarsPlugin.env s))) GL.vertexSource = true
  /\ GL.compiles (GL.drv (Host.gl (StarsPlugin.env s)))
       (GL.fragmentSource
          (StarsPlugin.fragmentSource (StarsPlugin.density (StarsPlugin.this s)))) = true
  /\ GL.links (GL.drv (Host.gl (StarsPlugin.env s))) GL.vertexSource
       (GL.fragmentSource
          (StarsPlugin.fragmentSource (StarsPlugin.density (StarsPlugin.this s)))) = true.
Definition layer_sources_accepted (s : StarsLayer.st) : Prop :=
  GL.compiles (GL.drv (Host.gl (StarsLayer.env s))) GL.vertexSource = true
  /\ GL.compiles (GL.drv (Host.gl (StarsLayer.env s)))
       (GL.fragmentSource
          (StarsLayer.fragmentSource (StarsLayer.density (StarsLayer.this s)))) = true
  /\ GL.links (GL.drv (Host.gl (StarsLayer.env s))) GL.vertexSource
       (GL.fragmentSource
          (StarsLayer.fragmentSource (StarsLayer.density (StarsLayer.this s)))) = true.

(** The source of the fragment shader that a program was linked from. *)
Definition program_fragment_source (p : GL.handle) (g : GL.state) : option GL.source :=
  match GL.live_program p g with
  | Some po => GL.attached_source GL.FRAGMENT_SHADER (GL.pr_attached po) g
  | None => None
  end.

(** A GL call that returns and leaves the part [f] of the context as it
    was. *)
Definition gl_keeps {X A} (f : GL.state -> X) (m : JS.M GL.state A) : Prop :=
  forall g, exists a g', m g = JS.Ok a g' /\ f g' = f g.

(** A step of the plugin that returns, changes nothing but the GL context,
    and leaves the part [f] of the context as it was. *)
Definition keeps {X A} (f : GL.state -> X) (m : JS.M StarsPlugin.st A) : Prop :=
  forall s, exists a g',
    m s = JS.Ok a (StarsPlugin.St (StarsPlugin.this s)
                     (Host.with_gl g' (StarsPlugin.env s)))
    /\ f g' = f (Host.gl (StarsPlugin.env s)).

(** [l'] is [l], or [l] with one more element in front. *)
Definition at_most_one_more {A} (l' l : list A) : Prop :=
  l' = l \/ exists d, l' = d :: l.

(** The value of a uniform of a program, as [getUniform] reads it back: the
    one uploaded last under that name. *)
Fixpoint latest (name : string) (l : list (string * list R)) : option (list R) :=
  match l with
  | [] => None
  | (k, v) :: l' => if String.eqb k name then Some v else latest name l'
  end.
Definition uniform_value (p : GL.handle) (name : string) (g : GL.state)
  : option (list R) :=
  match GL.live_program p g with
  | Some po => latest name (GL.pr_uniforms po)
  | None => None
  end.

(** The pipeline state that [_render] sets for its draw, given what the
    depth test was. *)
Definition star_pipeline (depth_test : bool) : GL.pipeline :=
  GL.Pipeline depth_test GL.ALWAYS false true
    GL.SRC_ALPHA GL.ONE_MINUS_SRC_ALPHA GL.SRC_ALPHA GL.ONE_MINUS_SRC_ALPHA.

(** The page of the added plugin, once something has drawn there with a
    linked program (the plugin's own) under
    [blendFunc(ONE, ONE_MINUS_SRC_ALPHA)]. *)
Definition drawn_page : StarsPlugin.st :=
  JS.state_of
    ((StarsPlugin.gl_
        (GL.useProgram (StarsPlugin.program (StarsPlugin.this (added_plugin accepting 1)))) ;;
      StarsPlugin.gl_ (GL.blendFunc GL.ONE GL.ONE_MINUS_SRC_ALPHA))%js
       (added_plugin accepting 1)).

(** * Properties *)

(** ** The coordinate transform *)

Section CoordinateTransform.
Import GLSL Shader Rotation.

Lemma cos2_sin2 (a : R) : cos a * cos a + sin a * sin a = 1.
Proof. generalize (sin2_cos2 a); unfold Rsqr; lra. Qed.

(** Each named step is a rotation: it preserves the squared length. *)
Lemma aboutX_norm2 (a : R) (v : vec3) : norm2 (aboutX a v) = norm2 v.
Proof.
  unfold norm2, aboutX; simpl.
  replace (v3x v * v3x v + v3y v * v3y v + v3z v * v3z v)
    with (v3x v * v3x v
          + (v3y v * v3y v + v3z v * v3z v) * (cos a * cos a + sin a * sin a))
    by (rewrite cos2_sin2; ring).
  ring.
Qed.

Lemma aboutY_norm2 (a : R) (v : vec3) : norm2 (aboutY a v) = norm2 v.
Proof.
  unfold norm2, aboutY; simpl.
  replace (v3x v * v3x v + v3y v * v3y v + v3z v * v3z v)
    with (v3y v * v3y v
          + (v3x v * v3x v + v3z v * v3z v) * (cos a * cos a + sin a * sin a))
    by (rewrite cos2_sin2; ring).
  ring.
Qed.

Lemma aboutZ_norm2 (a : R) (v : vec3) : norm2 (aboutZ a v) = norm2 v.
Proof.
  unfold norm2, aboutZ; simpl.
  replace (v3x v * v3x v + v3y v * v3y v + v3z v * v3z v)
    with (v3z v * v3z v
          + (v3x v * v3x v + v3y v * v3y v) * (cos a * cos a + sin a * sin a))
    by (rewrite cos2_sin2; ring).
  ring.
Qed.

Lemma pipeline_norm2 p b r la lo v : norm2 (pipeline p b r la lo v) = norm2 v.
Proof.
  unfold pipeline, byLongitude, byLatitude.
  now rewrite aboutY_norm2, aboutX_norm2, aboutZ_norm2, aboutY_norm2, aboutX_norm2.
Qed.

(** The order matters: a quarter turn about X then about Y is not the
    same map as the two in the other order. *)
Lemma aboutX_aboutY_order :
  aboutY (Rtrigo1.PI / 2) (aboutX (Rtrigo1.PI / 2) (Vec3 0 0 1))
  <> aboutX (Rtrigo1.PI / 2) (aboutY (Rtrigo1.PI / 2) (Vec3 0 0 1)).
Proof.
  intro H. apply (f_equal v3y) in H.
  unfold aboutX, aboutY in H; simpl in H.
  rewrite cos_PI2, sin_PI2 in H. lra.
Qed.

(** The steps of [rotate] in the source are the named pipeline. *)
Lemma rotate_pipeline (ray : vec3) (angles : vec3) (centre : vec2) :
  rotate ray angles centre
  = pipeline (v3x angles) (v3y angles) (v3z angles) (v2y centre) (v2x centre) ray.
Proof.
  unfold rotate, pipeline, byLongitude, byLatitude, aboutX, aboutY, aboutZ; simpl.
  rewrite !cos_neg, !sin_neg.
  f_equal; ring.
Qed.

(** C5: for every view direction, normalised first, [main()] turns the ray
    about X by the pitch, about Y by the bearing, about Z by the roll, then
    by the globe-centre latitude and then by its longitude, in this order,
    and returns [lng = atan(x, z)] and [lat = asin(y)] of the vector so
    rotated. *)
Theorem C5_rotation_order (b : baked) (u : uniforms) (view_direction : vec3) :
  let m := main b u view_direction in
  let r := pipeline (v3x (u_camera_angles u)) (v3y (u_camera_angles u))
             (v3z (u_camera_angles u))
             (v2y (u_globe_center u)) (v2x (u_globe_center u))
             (normalize view_direction) in
  ray_dir m = normalize view_direction
  /\ rotated m = r
  /\ f_lng m = atan2 (v3x r) (v3z r)
  /\ f_lat m = asin (v3y r).
Proof.
  cbv zeta. unfold main; cbn [ray_dir rotated f_lng f_lat].
  rewrite rotate_pipeline. unfold lng, lat. auto.
Qed.

Lemma rotate_identity (ray : vec3) :
  rotate ray (Vec3 0 0 0) (Vec2 0 0) = ray.
Proof.
  unfold rotate; simpl. rewrite cos_0, sin_0.
  destruct ray as [rx ry rz]; simpl. f_equal; ring.
Qed.

(** C6: with pitch, bearing and roll all 0 and the globe centre at
    (0, 0), the rotated vector of [main()] is the input ray unchanged. *)
Theorem C6_rotation_identity (b : baked) (globe_position : vec3)
    (globe_radius intensity : R) (view_direction : vec3) :
  let u := Uniforms globe_position globe_radius intensity (Vec2 0 0) (Vec3 0 0 0) in
  rotated (main b u view_direction) = ray_dir (main b u view_direction)
  /\ rotated (main b u view_direction) = normalize view_direction.
Proof.
  cbv zeta. unfold main; cbn [ray_dir rotated u_camera_angles u_globe_center].
  rewrite rotate_identity. auto.
Qed.

End CoordinateTransform.

(** ** Interval bounds for the sine of a hash argument *)

Section SineBounds.

Lemma INR_fact_Zfact (n : nat) : INR (fact n) = IZR (Zfact n).
Proof.
  induction n as [|n IH].
  - reflexivity.
  - rewrite fact_simpl, mult_INR, IH.
    change (Zfact (S n)) with (Z.of_nat (S n) * Zfact n)%Z.
    now rewrite mult_IZR, <- INR_IZR_INZ.
Qed.

Lemma scale_between (k u v y : R) :
  u <= y <= v -> Rmin (k * u) (k * v) <= k * y <= Rmax (k * u) (k * v).
Proof.
  intros [Hu Hv].
  destruct (Rle_dec 0 k) as [Hk|Hk].
  - assert (k * u <= k * y) by (apply Rmult_le_compat_l; lra).
    assert (k * y <= k * v) by (apply Rmult_le_compat_l; lra).
    split.
    + apply Rle_trans with (k * u); [apply Rmin_l | assumption].
    + apply Rle_trans with (k * v); [assumption | apply Rmax_r].
  - assert (k * v <= k * y) by (apply Rmult_le_compat_neg_l; lra).
    assert (k * y <= k * u) by (apply Rmult_le_compat_neg_l; lra).
    split.
    + apply Rle_trans with (k * v); [apply Rmin_r | assumption].
    + apply Rle_trans with (k * u); [assumption | apply Rmax_l].
Qed.

(** The product of two enclosed numbers lies between the extreme products
    of the end points. *)
Lemma mult_bounds (x y a b c d lo hi : R) :
  a <= x <= b -> c <= y <= d ->
  lo <= a * c -> lo <= a * d -> lo <= b * c -> lo <= b * d ->
  a * c <= hi -> a * d <= hi -> b * c <= hi -> b * d <= hi ->
  lo <= x * y <= hi.
Proof.
  intros Hx Hy L1 L2 L3 L4 U1 U2 U3 U4.
  destruct (scale_between y a b x Hx) as [Hl Hu].
  destruct (scale_between a c d y Hy) as [Hal Hau].
  destruct (scale_between b c d y Hy) as [Hbl Hbu].
  rewrite (Rmult_comm y a), (Rmult_comm y b), (Rmult_comm y x) in *.
  revert Hl Hu Hal Hau Hbl Hbu.
  unfold Rmin, Rmax; repeat destruct Rle_dec; intros; lra.
Qed.

Ltac taylor_numerals H :=
  cbn [sum_f_R0 Nat.mul Nat.add] in H;
  rewrite !INR_fact_Zfact in H;
  cbv [Zfact Z.of_nat Pos.of_succ_nat Pos.succ Z.mul Pos.mul Pos.add] in H.

Ltac by_corners S C lo hi :=
  pose proof (mult_bounds _ _ _ _ _ _ lo hi S C
    ltac:(lra) ltac:(lra) ltac:(lra) ltac:(lra)
    ltac:(lra) ltac:(lra) ltac:(lra) ltac:(lra));
  lra.

(** The eighth of the argument is small enough for the alternating Taylor
    sums of the library. *)
Lemma sin_eighth_bounds :
  0.998599604739 <= sin (12.9898 / 8) <= 0.998599604750.
Proof.
  assert (H := pre_sin_bound (12.9898 / 8) 3 ltac:(lra) ltac:(lra)).
  unfold sin_approx, sin_term in H. taylor_numerals H. lra.
Qed.

Lemma cos_eighth_bounds :
  -0.052903963988 <= cos (12.9898 / 8) <= -0.052903963875.
Proof.
  assert (H := pre_cos_bound (12.9898 / 8) 3 ltac:(lra) ltac:(lra)).
  unfold cos_approx, cos_term in H. taylor_numerals H. lra.
Qed.

(** Three angle doublings bring the bounds up to the argument itself. *)
Lemma sin_12_9898_bounds :
  0.410889383174 <= sin 12.9898 <= 0.410889384123.
Proof.
  pose proof sin_eighth_bounds as S1. pose proof cos_eighth_bounds as C1.
  set (a := 12.9898 / 8) in *.
  assert (S2 : -0.105659755057 <= sin (2 * a) <= -0.105659754829).
  { rewrite sin_2a, Rmult_assoc.
    by_corners S1 C1 (-0.105659755057 / 2) (-0.105659754829 / 2). }
  assert (C2 : -0.994402341214 <= cos (2 * a) <= -0.994402341169).
  { rewrite cos_2a_sin, Rmult_assoc.
    by_corners S1 S1 ((1 + 0.994402341169) / 2) ((1 + 0.994402341214) / 2). }
  assert (S4 : 0.210136615138 <= sin (2 * (2 * a)) <= 0.210136615602).
  { rewrite sin_2a, Rmult_assoc.
    by_corners S2 C2 (0.210136615138 / 2) (0.210136615602 / 2). }
  assert (C4 : 0.977672032322 <= cos (2 * (2 * a)) <= 0.977672032419).
  { rewrite cos_2a_sin, Rmult_assoc.
    by_corners S2 S2 ((1 - 0.977672032419) / 2) ((1 - 0.977672032322) / 2). }
  replace 12.9898 with (2 * (2 * (2 * a))) by (unfold a; lra).
  rewrite sin_2a, Rmult_assoc.
  by_corners S4 C4 (0.410889383174 / 2) (0.410889384123 / 2).
Qed.

End SineBounds.

(** ** The star field *)

Section StarField.
Import GLSL Shader JS.

Lemma fract_bounds (x : R) : 0 <= fract x < 1.
Proof. unfold fract, floor. generalize (Zfloor_bound x). lra. Qed.

Lemma floor_shift (n : Z) (f : R) : 0 <= f < 1 -> floor (IZR n + f) = IZR n.
Proof. intros H. unfold floor. f_equal. apply Zfloor_eq. lra. Qed.

Lemma fract_shift (n : Z) (f : R) : 0 <= f < 1 -> fract (IZR n + f) = f.
Proof. intros H. unfold fract. rewrite floor_shift by assumption. ring. Qed.

Lemma cell_hash_bounds (g k : vec2) : 0 <= cell_hash g k < 1.
Proof. apply fract_bounds. Qed.

Lemma cancel_factor (a x : R) : a <> 0 -> a * x / a = x.
Proof. intros H. field. assumption. Qed.

(** [lng_of] and [lat_of] invert the map to scaled UV coordinates. *)
Lemma scaledUV_direction (sx sy : R) (b : baked) (i : R) :
  scaledUV (star_field b i (lng_of sx) (lat_of sy)) = Vec2 sx sy.
Proof.
  unfold star_field, uv, vscale2, lng_of, lat_of; cbn [scaledUV v2x v2y].
  assert (HPI : PI <> 0) by (unfold PI; lra).
  assert (HPI2 : PI * 0.5 <> 0) by (unfold PI; lra).
  rewrite (cancel_factor PI), (cancel_factor (PI * 0.5)) by assumption.
  f_equal; lra.
Qed.

Lemma gridPos_scaledUV (b : baked) (i lng lat : R) :
  gridPos (star_field b i lng lat) = floor2 (scaledUV (star_field b i lng lat)).
Proof. reflexivity. Qed.

(** The presence hash of the cell (1, 0). *)
Lemma hash_cell_1_0 : 0.9216 < hash (Vec2 1 0) < 0.9218.
Proof.
  unfold hash, cell_hash, dot; cbn [v2x v2y].
  replace (1 * 12.9898 + 0 * 78.233) with 12.9898 by lra.
  pose proof sin_12_9898_bounds as HS.
  assert (HF : floor (sin 12.9898 * 43758.5453) = 17979).
  { unfold floor. f_equal. apply Zfloor_eq. lra. }
  unfold fract. rewrite HF. lra.
Qed.

(** [toFixed(2)] below [10^21]: the hundredths nearest to the number. *)
Lemma toFixed2_hundredths (x : R) (n : Z) :
  0 <= x -> x < 10 ^ 21 -> IZR n <= x * 100 + / 2 < IZR n + 1 ->
  toFixed2 x = IZR n / 100.
Proof.
  intros H0 H21 Hn. unfold toFixed2.
  destruct (Rlt_dec x 0) as [Hneg|_]; [lra|].
  rewrite (Rabs_pos_eq x H0).
  destruct (Rle_dec (10 ^ 21) x) as [Hbig|_]; [lra|].
  rewrite (Zfloor_eq n _ Hn). lra.
Qed.

Lemma toFixed2_unit_interval (x : R) (n : Z) :
  0 <= x <= 1 -> IZR n <= x * 100 + / 2 < IZR n + 1 -> toFixed2 x = IZR n / 100.
Proof.
  intros Hx Hn. apply toFixed2_hundredths; lra.
Qed.

(** On [0, 1], [toFixed(2)] moves a number by at most half a hundredth. *)
Lemma toFixed2_rounds (x : R) :
  0 <= x <= 1 ->
  (exists n : Z, toFixed2 x = IZR n / 100) /\ -0.005 < toFixed2 x - x <= 0.005.
Proof.
  intros Hx.
  pose proof (Zfloor_bound (x * 100 + / 2)) as Hn.
  rewrite (toFixed2_unit_interval x _ Hx Hn).
  split; [eexists; reflexivity | lra].
Qed.

Lemma toFixed2_default : toFixed2 (1 - 0.15) = 0.85.
Proof. rewrite (toFixed2_unit_interval _ 85%Z); lra. Qed.

(** The branch of the presence test. *)
Lemma star_present_iff (b : baked) (i lng lat : R) :
  cell (star_field b i lng lat) <> None
  <-> hash (gridPos (star_field b i lng lat)) > threshold b.
Proof.
  unfold star_field; cbn [cell gridPos].
  destruct (Rlt_dec _ _) as [H|H]; split; intro K;
    try discriminate; try congruence; try assumption.
  unfold Rgt in K. contradiction.
Qed.

Lemma star_absent_zero (b : baked) (i lng lat : R) :
  cell (star_field b i lng lat) = None -> stars (star_field b i lng lat) = 0.
Proof.
  unfold star_field; cbn [cell stars].
  destruct (Rlt_dec _ _); [discriminate|]. intros _. ring.
Qed.

Lemma star_present_branch (b : baked) (i lng lat : R) (s : star) :
  cell (star_field b i lng lat) = Some s ->
  s = star_branch b (scaledUV (star_field b i lng lat))
        (gridPos (star_field b i lng lat)) lat
  /\ stars (star_field b i lng lat) = branch_stars s * i.
Proof.
  unfold star_field; cbn [cell stars scaledUV gridPos].
  destruct (Rlt_dec _ _); [|discriminate].
  intros H; injection H as <-. split; reflexivity.
Qed.

Lemma star_field_cell (b : baked) (i lng lat : R) :
  cell (star_field b i lng lat)
  = if Rlt_dec (threshold b) (hash (gridPos (star_field b i lng lat)))
    then Some (star_branch b (scaledUV (star_field b i lng lat))
                 (gridPos (star_field b i lng lat)) lat)
    else None.
Proof. reflexivity. Qed.

Lemma presence_rule_baked (b : baked) (i lng lat : R) :
  presence_rule (threshold b) (star_field b i lng lat).
Proof.
  split; [reflexivity|]. split.
  - apply star_present_iff.
  - intros H. apply star_absent_zero.
    destruct (cell (star_field b i lng lat)) eqn:E; [|reflexivity].
    exfalso. apply H. apply star_present_iff. rewrite E. discriminate.
Qed.

Lemma or_else_zero (b : R) : or_else (Some 0) b = b.
Proof. unfold or_else. destruct (Req_dec_T 0 0); [reflexivity | contradiction]. Qed.

Lemma or_else_nonzero (x b : R) : x <> 0 -> or_else (Some x) b = x.
Proof. intros H. unfold or_else. destruct (Req_dec_T x 0); [contradiction | reflexivity]. Qed.

Lemma gridPos_direction (b : baked) (i : R) (gx gy : Z) (fx fy : R) :
  0 <= fx < 1 -> 0 <= fy < 1 ->
  gridPos (star_field b i (lng_of (IZR gx + fx)) (lat_of (IZR gy + fy)))
  = Vec2 (IZR gx) (IZR gy).
Proof.
  intros Hx Hy. rewrite gridPos_scaledUV, scaledUV_direction.
  unfold floor2; cbn [v2x v2y]. now rewrite !floor_shift.
Qed.

(** *** Strength *)

Lemma smoothstep_saturates (e x : R) : 0 < e -> e <= x -> smoothstep 0 e x = 1.
Proof.
  intros He Hx. unfold smoothstep, clamp, min, max.
  assert (H1 : 1 <= (x - 0) / (e - 0)).
  { apply Rmult_le_reg_r with e; [assumption|].
    unfold Rdiv. rewrite Rminus_0_r, Rminus_0_r, Rmult_assoc, Rinv_l by lra. lra. }
  rewrite Rmax_left by lra. rewrite Rmin_right by lra. ring.
Qed.

Lemma smoothstep_origin (e : R) : smoothstep 0 e 0 = 0.
Proof.
  unfold smoothstep, clamp, min, max.
  replace ((0 - 0) / (e - 0)) with 0 by (unfold Rdiv; ring).
  rewrite Rmax_left by lra. rewrite Rmin_left by lra. ring.
Qed.

Lemma pow_nonneg (x y : R) : 0 <= pow x y.
Proof.
  unfold pow. destruct (Rlt_dec 0 x); [|lra].
  unfold Rpower. left. apply exp_pos.
Qed.

Lemma pow_zero (y : R) : pow 0 y = 0.
Proof. unfold pow. destruct (Rlt_dec 0 0); [lra | reflexivity]. Qed.

Lemma pow_one (y : R) : pow 1 y = 1.
Proof.
  unfold pow. destruct (Rlt_dec 0 1); [|lra].
  unfold Rpower. now rewrite ln_1, Rmult_0_r, exp_0.
Qed.

(** On non-negative bases [pow(x, 4.0)] is the fourth power. *)
Lemma pow_four (x : R) : 0 <= x -> pow x 4 = x * x * x * x.
Proof.
  intros [H|<-].
  - unfold pow. destruct (Rlt_dec 0 x); [|contradiction].
    replace 4 with (INR 4) by (simpl; lra). rewrite Rpower_pow by assumption. simpl. ring.
  - rewrite pow_zero. ring.
Qed.

Lemma starSize_positive (b : baked) (g : vec2) :
  0 < sizeBase b -> 0 <= sizeRange b -> 0 < sizeBase b + sizeRange b * sizeHash g.
Proof.
  intros H1 H2. pose proof (cell_hash_bounds g (Vec2 415.2 371.9)) as [H3 _].
  fold (sizeHash g) in H3.
  assert (0 <= sizeRange b * sizeHash g) by (apply Rmult_le_pos; assumption).
  lra.
Qed.

(** C4: in a cell that holds a star, the strength computed in the branch is
    never negative, and neither is the strength after the multiplication by
    a non-negative intensity; from [dist = starSize] on [smoothstep]
    saturates and the strength is 0; at [dist = 0] the strength is
    [(0.5 + 0.5 * sizeHash) * intensity].  For every baked source whose
    star-size constants are positive, as in both files. *)
Theorem C4_strength_bounds (b : baked) (i lng lat : R) (s : star) :
  0 < sizeBase b -> 0 <= sizeRange b ->
  cell (star_field b i lng lat) = Some s ->
  0 <= branch_stars s
  /\ (0 <= i -> 0 <= stars (star_field b i lng lat))
  /\ (starSize s <= dist s -> stars (star_field b i lng lat) = 0)
  /\ (dist s = 0 ->
      stars (star_field b i lng lat)
      = (0.5 + 0.5 * sizeHash (gridPos (star_field b i lng lat))) * i).
Proof.
  intros Hb Hr Hc.
  destruct (star_present_branch b i lng lat s Hc) as [Hs Hst].
  set (f := star_field b i lng lat) in *.
  pose proof (cell_hash_bounds (gridPos f) (Vec2 415.2 371.9)) as [Hh _].
  fold (sizeHash (gridPos f)) in Hh.
  pose proof (starSize_positive b (gridPos f) Hb Hr) as Hsz.
  assert (Hbr : branch_stars s
                = pow (1 - smoothstep 0 (starSize s) (dist s)) 4
                  * (0.5 + 0.5 * sizeHash (gridPos f))).
  { rewrite Hs. reflexivity. }
  assert (Hsize : starSize s = sizeBase b + sizeRange b * sizeHash (gridPos f)).
  { rewrite Hs. reflexivity. }
  assert (Hpos : 0 <= branch_stars s).
  { rewrite Hbr. apply Rmult_le_pos; [apply pow_nonneg | lra]. }
  split; [exact Hpos|]. split; [|split].
  - intros Hi. rewrite Hst. apply Rmult_le_pos; assumption.
  - intros Hd. rewrite Hst, Hbr.
    rewrite smoothstep_saturates; [| rewrite Hsize; exact Hsz | exact Hd].
    replace (1 - 1) with 0 by ring. rewrite pow_zero. ring.
  - intros Hd. rewrite Hst, Hbr, Hd, smoothstep_origin.
    replace (1 - 0) with 1 by ring. rewrite pow_one. ring.
Qed.

(** The two files satisfy the size hypotheses of C4. *)
Lemma variants_size_constants (density : R) :
  (0 < sizeBase (StarsPlugin.fragmentSource density)
   /\ 0 <= sizeRange (StarsPlugin.fragmentSource density))
  /\ (0 < sizeBase (StarsLayer.fragmentSource density)
      /\ 0 <= sizeRange (StarsLayer.fragmentSource density)).
Proof. cbn [StarsPlugin.fragmentSource StarsLayer.fragmentSource sizeBase sizeRange]. lra. Qed.

(** At the centre of the star of the cell (1, 0), for the default density:
    the star is there, [dist] is 0, and C4 gives its strength. *)
Lemma C4_witness_star_centre :
  let b := StarsPlugin.fragmentSource 0.15 in
  let g := Vec2 1 0 in
  let f := star_field b 20 (lng_of (1 + hashX g)) (lat_of (0 + hashY g)) in
  gridPos f = g
  /\ 0 <= stars f
  /\ stars f = (0.5 + 0.5 * sizeHash g) * 20.
Proof.
  cbv zeta.
  set (b := StarsPlugin.fragmentSource 0.15).
  set (g := Vec2 1 0).
  set (f := star_field b 20 (lng_of (1 + hashX g)) (lat_of (0 + hashY g))).
  pose proof (cell_hash_bounds g (Vec2 127.1 311.7)) as HX. fold (hashX g) in HX.
  pose proof (cell_hash_bounds g (Vec2 269.5 183.3)) as HY. fold (hashY g) in HY.
  assert (G : gridPos f = g).
  { unfold f. exact (gridPos_direction b 20 1 0 (hashX g) (hashY g) HX HY). }
  assert (U : scaledUV f = Vec2 (1 + hashX g) (0 + hashY g)).
  { unfold f. apply scaledUV_direction. }
  set (s := star_branch b (scaledUV f) (gridPos f) (lat_of (0 + hashY g))).
  assert (C : cell f = Some s).
  { unfold f at 1. rewrite star_field_cell. fold f. fold s.
    destruct (Rlt_dec (threshold b) (hash (gridPos f))) as [_|N]; [reflexivity|].
    exfalso. apply N. rewrite G. unfold b, StarsPlugin.fragmentSource; cbn [threshold].
    rewrite toFixed2_default. pose proof hash_cell_1_0. unfold g. lra. }
  assert (D : dist s = 0).
  { unfold s, star_branch; cbn [dist]. rewrite U, G.
    unfold length2, vdiv2, vsub2, fract2; cbn [v2x v2y].
    change 1 with (IZR 1) at 1. change 0 with (IZR 0) at 1.
    rewrite !fract_shift by assumption.
    replace (hashX g - hashX g) with 0 by ring.
    replace (hashY g - hashY g) with 0 by ring.
    unfold Rdiv. rewrite !Rmult_0_l, Rplus_0_l, sqrt_0. ring. }
  destruct (C4_strength_bounds b 20 (lng_of (1 + hashX g)) (lat_of (0 + hashY g)) s
              ltac:(unfold b; cbn [StarsPlugin.fragmentSource sizeBase]; lra)
              ltac:(unfold b; cbn [StarsPlugin.fragmentSource sizeRange]; lra)
              C) as (_ & Hnn & _ & Hc).
  fold f in Hnn, Hc. rewrite G in Hc.
  split; [exact G|]. split; [apply Hnn; lra | apply Hc; exact D].
Defined.

(** *** Determinism *)

(** C7: two evaluations of [main()] of one program, whatever the uniforms
    and the view direction of each (two pixels, two frames), that fall in
    the same grid cell compute the same presence hash and the same presence
    test, and, where the cell holds a star, the same offset
    [(hashX, hashY)], the same size and the same brightness: each is a
    function of [gridPos] and of constants of the source only. *)
Theorem C7_hash_determinism (b : baked) (u1 u2 : uniforms) (v1 v2 : vec3) :
  gridPos (f_field (main b u1 v1)) = gridPos (f_field (main b u2 v2)) ->
  hash (gridPos (f_field (main b u1 v1))) = hash (gridPos (f_field (main b u2 v2)))
  /\ (cell (f_field (main b u1 v1)) <> None <-> cell (f_field (main b u2 v2)) <> None)
  /\ (forall s1 s2 : star,
        cell (f_field (main b u1 v1)) = Some s1 ->
        cell (f_field (main b u2 v2)) = Some s2 ->
        randomOffset s1 = randomOffset s2
        /\ randomOffset s1 = Vec2 (hashX (gridPos (f_field (main b u1 v1))))
                                  (hashY (gridPos (f_field (main b u1 v1))))
        /\ starSize s1 = starSize s2
        /\ brightness s1 = brightness s2
        /\ brightness s1 = 0.5 + 0.5 * sizeHash (gridPos (f_field (main b u1 v1)))).
Proof.
  intros G. unfold main in *; cbn [f_field] in *.
  split; [now rewrite G|]. split.
  - rewrite !star_present_iff. now rewrite G.
  - intros s1 s2 H1 H2.
    apply star_present_branch in H1, H2.
    destruct H1 as [-> _], H2 as [-> _].
    rewrite G. repeat split.
Qed.

Lemma rotate_full_turn (ray : vec3) (centre : vec2) :
  rotate ray (Vec3 (2 * Rtrigo1.PI) 0 0) centre = rotate ray (Vec3 0 0 0) centre.
Proof. unfold rotate; cbn [v3x v3y v3z]. now rewrite cos_2PI, sin_2PI, cos_0, sin_0. Qed.

(** Two frames with the camera a full turn apart and another intensity see
    the same cell, hence the same hashes. *)
Lemma C7_witness_two_frames :
  let b := StarsPlugin.fragmentSource 0.15 in
  let u1 := Uniforms (Vec3 0 0 0) 1 20 (Vec2 0 0) (Vec3 0 0 0) in
  let u2 := Uniforms (Vec3 0 0 5) 2 5 (Vec2 0 0) (Vec3 (2 * Rtrigo1.PI) 0 0) in
  let v := Vec3 0 0 1 in
  gridPos (f_field (main b u1 v)) = gridPos (f_field (main b u2 v))
  /\ hash (gridPos (f_field (main b u1 v))) = hash (gridPos (f_field (main b u2 v)))
  /\ (cell (f_field (main b u1 v)) <> None <-> cell (f_field (main b u2 v)) <> None).
Proof.
  cbv zeta.
  assert (G : gridPos (f_field (main (StarsPlugin.fragmentSource 0.15)
                (Uniforms (Vec3 0 0 0) 1 20 (Vec2 0 0) (Vec3 0 0 0)) (Vec3 0 0 1)))
              = gridPos (f_field (main (StarsPlugin.fragmentSource 0.15)
                (Uniforms (Vec3 0 0 5) 2 5 (Vec2 0 0) (Vec3 (2 * Rtrigo1.PI) 0 0)) (Vec3 0 0 1)))).
  { unfold main; cbn [f_field u_camera_angles u_globe_center u_stars_intensity].
    rewrite rotate_full_turn. reflexivity. }
  split; [exact G|].
  destruct (C7_hash_determinism _ _ _ _ _ G) as (H1 & H2 & _).
  split; assumption.
Defined.

(** *** Defaults and the baked literal *)

(** C10: a density or an intensity of 0 in the options is replaced by the
    default (0.15, 20.0), in the constructor of the plugin and in
    [createStarsLayer]; the literal baked into either fragment source is
    [(1 - density).toFixed(2)], which for a density in [0, 1] is a number of
    hundredths within 0.005 of [1 - density]; and two densities less than
    0.005 apart (0.15 and 0.151) give the same fragment source. *)
Theorem C10_defaults_and_rounding :
  (forall id intensity,
      StarsPlugin.density (StarsPlugin.constructor (Options_ id intensity (Some 0))) = 0.15
      /\ StarsLayer.density (StarsLayer.createStarsLayer (Options_ id intensity (Some 0))) = 0.15)
  /\ (forall id density,
      StarsPlugin.intensity (StarsPlugin.constructor (Options_ id (Some 0) density)) = 20.0
      /\ StarsLayer.intensity (StarsLayer.createStarsLayer (Options_ id (Some 0) density)) = 20.0)
  /\ (forall density,
      threshold (StarsPlugin.fragmentSource density) = toFixed2 (1 - density)
      /\ threshold (StarsLayer.fragmentSource density) = toFixed2 (1 - density))
  /\ (forall density, 0 <= density <= 1 ->
      (exists n : Z, toFixed2 (1 - density) = IZR n / 100)
      /\ -0.005 < toFixed2 (1 - density) - (1 - density) <= 0.005)
  /\ (0.15 <> 0.151 /\ Rabs (0.15 - 0.151) < 0.005
      /\ StarsPlugin.fragmentSource 0.15 = StarsPlugin.fragmentSource 0.151
      /\ StarsLayer.fragmentSource 0.15 = StarsLayer.fragmentSource 0.151).
Proof.
  split; [|split; [|split; [|split]]].
  - intros id intensity.
    cbn [StarsPlugin.constructor StarsPlugin.density StarsLayer.createStarsLayer
         StarsLayer.density opt_density].
    rewrite or_else_zero. split; reflexivity.
  - intros id density.
    cbn [StarsPlugin.constructor StarsPlugin.intensity StarsLayer.createStarsLayer
         StarsLayer.intensity opt_intensity].
    rewrite or_else_zero. split; reflexivity.
  - intros density. split; reflexivity.
  - intros density H. apply toFixed2_rounds. lra.
  - assert (E : toFixed2 (1 - 0.151) = toFixed2 (1 - 0.15)).
    { rewrite toFixed2_default. rewrite (toFixed2_unit_interval _ 85%Z); lra. }
    split; [lra|]. split.
    + unfold Rabs. destruct (Rcase_abs _); lra.
    + unfold StarsPlugin.fragmentSource, StarsLayer.fragmentSource.
      rewrite E. split; reflexivity.
Qed.

(** For the default density the baked literal is [0.85], 85 hundredths. *)
Lemma C10_witness_default_density :
  (exists n : Z, toFixed2 (1 - 0.15) = IZR n / 100)
  /\ -0.005 < toFixed2 (1 - 0.15) - (1 - 0.15) <= 0.005.
Proof.
  destruct C10_defaults_and_rounding as (_ & _ & _ & H & _).
  apply (H 0.15). lra.
Defined.

End StarField.

(** ** Running the components

    Symbolic execution of the monadic code: [step] runs the first statement
    of a sequence on an explicit state, and stops where a branch is not
    decided by what is known. *)

Lemma lookup_update_same {A} (h : GL.handle) (a : A) (t : GL.table A) :
  GL.lookup h (GL.update h a t) = Some a.
Proof. unfold GL.update; cbn [GL.lookup]. now rewrite Nat.eqb_refl. Qed.

Lemma post_returns {S A} (P : S -> Prop) (r : JS.result S A) :
  post P r -> exists a s', r = JS.Ok a s' /\ P s'.
Proof. destruct r; cbn; [eauto | tauto]. Qed.

Ltac norm x :=
  let y := eval cbv beta iota zeta delta
    [JS.bind JS.ret JS.gets JS.modify JS.lift JS.throw
     StarsPlugin.gl_ StarsPlugin.host StarsPlugin.assign
     StarsLayer.gl_ StarsLayer.host StarsLayer.assign
     Host.with_gl Host.with_console Host.with_layers Host.with_repaints
     Host.log Host.addLayer Host.removeLayer Host.triggerRepaint
     GL.with_objs GL.with_binds GL.with_pipe GL.with_error GL.with_draw
     GL.set_current_program GL.set_program GL.set_shader GL.set_buffer
     GL.set_enabled_attribs
     GL.set_depth_test GL.set_depth_func GL.set_depth_mask GL.set_blend
     GL.set_blend_func
     GL.getParameter GL.isEnabled GL.useProgram GL.getUniformLocation GL.uniform
     GL.active_uniform GL.active_uniforms
     GL.getAttribLocation GL.bindBuffer GL.enableVertexAttribArray
     GL.disableVertexAttribArray
     GL.vertexAttribPointer GL.depthFunc GL.depthMask GL.enable GL.disable GL.set_cap
     GL.blendFunc GL.drawElements GL.linked GL.live_program GL.live_shader
     GL.live_buffer GL.null_argument GL.gl_error
     GL.createShader GL.shaderSource GL.compileShader GL.getShaderParameter
     GL.getShaderInfoLog
     GL.deleteShader GL.createProgram GL.attachShader GL.linkProgram
     GL.getProgramParameter
     GL.getProgramInfoLog GL.deleteProgram GL.createBuffer GL.bufferData
     GL.deleteBuffer GL.bound_buffer GL.unbind
     StarsPlugin._createShader StarsPlugin._createProgram
     StarsPlugin.set_map StarsPlugin.set_program StarsPlugin.set_vertexBuffer
     StarsPlugin.set_indexBuffer StarsPlugin.set_vertexShader
     StarsPlugin.set_fragmentShader
     StarsPlugin.set_customLayer StarsPlugin.set_intensity StarsPlugin.set_density
     StarsLayer.set_map StarsLayer.set_program StarsLayer.set_vertexBuffer
     StarsLayer.set_indexBuffer StarsLayer.set_aPos
     StarsPlugin.this StarsPlugin.env StarsLayer.this StarsLayer.env
     Host.gl Host.console Host.layers Host.transform Host.glmatrix Host.repaints
     GL.drv GL.objs GL.binds GL.pipe GL.errors GL.draws
     GL.next_name GL.shaders GL.programs GL.buffers
     GL.current_program GL.array_buffer GL.element_array_buffer GL.enabled_attribs
     GL.pr_attached GL.pr_linked GL.pr_uniforms GL.pr_deleted
     GL.sh_type GL.sh_source GL.sh_compiled GL.sh_deleted GL.bf_data GL.bf_deleted]
    in x in
  let y := eval cbn in y in
  change x with y.

Lemma bind_returns {S A B} (m : JS.M S A) (k : A -> JS.M S B) (s s1 : S) (a : A) :
  m s = JS.Ok a s1 -> JS.bind m k s = k a s1.
Proof. intros E. unfold JS.bind. now rewrite E. Qed.

Lemma bind_throws {S A B} (m : JS.M S A) (k : A -> JS.M S B) (s s1 : S) (e : JS.exn) :
  m s = JS.Throw e s1 -> JS.bind m k s = JS.Throw e s1.
Proof. intros E. unfold JS.bind. now rewrite E. Qed.

(** The outcome of [m s] as an equation [E], computed with the rewrites
    [rw] for what the state leaves open. *)
Ltac run_eq m s rw E :=
  eassert (E : m s = _);
  [ rw;
    match goal with |- ?x = _ => norm x end;
    repeat progress (rewrite ?Nat.eqb_refl, ?lookup_update_same; rw;
                     match goal with |- ?x = _ => norm x end);
    reflexivity
  | ].

(** Runs the first statement of the sequence under way. *)
Ltac step_with rw :=
  lazymatch goal with
  | |- context [JS.bind ?m ?k ?s] =>
      let E := fresh "E" in
      run_eq m s rw E;
      lazymatch type of E with
      | _ = JS.Ok ?a ?s1 => rewrite (bind_returns m k s s1 a E)
      | _ = JS.Throw ?e ?s1 => rewrite (bind_throws m k s s1 e E)
      end;
      clear E; cbv beta
  end.

Ltac step := step_with idtac.

(** Runs the last statement. *)
Ltac last_with rw :=
  lazymatch goal with
  | |- post _ (?m ?s) =>
      let E := fresh "E" in
      run_eq m s rw E;
      lazymatch type of E with
      | _ = JS.Ok ?a ?s1 => rewrite E
      | _ = JS.Throw ?e ?s1 => rewrite E
      end;
      clear E; cbv beta; cbn [post]
  end.

(** The state after [onAdd] on a page, computed: [H] is the equation
    [onAdd the_map s0 = Ok tt _], and the goal is rewritten with it. *)
Ltac run_onAdd H :=
  match goal with
  | |- context [JS.state_of (StarsPlugin.onAdd Host.the_map ?s0)] =>
      eassert (H : StarsPlugin.onAdd Host.the_map s0 = JS.Ok tt _);
      [ unfold new_plugin, page, StarsPlugin.constructor, StarsPlugin.onAdd, GL.initial;
        repeat step; reflexivity
      | rewrite H; cbn [JS.state_of] ]
  | |- context [JS.state_of (StarsLayer.onAdd Host.the_map ?s0)] =>
      eassert (H : StarsLayer.onAdd Host.the_map s0 = JS.Ok tt _);
      [ unfold new_layer, page, StarsLayer.createStarsLayer, StarsLayer.onAdd, GL.initial;
        repeat step;
        match goal with |- ?m ?s = _ => norm (m s) end;
        reflexivity
      | rewrite H; cbn [JS.state_of] ]
  end.

(** ** The plugin: guard, gate, draw and failures *)

Section PluginLifecycle.
Import JS Host StarsPlugin.

(** The guard at the head of [_render]. *)
Lemma _render_guard (s : st) :
  map (this s) = None \/ program (this s) = None -> _render s = Ok tt s.
Proof.
  intros H. unfold _render, bind, gets.
  destruct H as [H|H]; rewrite H; cbn [is_null orb]; [reflexivity|].
  rewrite orb_true_r. reflexivity.
Qed.

Ltac gl_quiet_tac :=
  intros g; cbv beta iota delta
    [GL.depthFunc GL.depthMask GL.set_cap GL.enable GL.disable GL.blendFunc
     GL.disableVertexAttribArray GL.bindBuffer GL.useProgram
     GL.deleteProgram GL.deleteShader GL.deleteBuffer ret];
  repeat match goal with
         | |- context [if ?c then _ else _] => destruct c
         | |- context [match ?o with Some _ => _ | None => _ end] => destruct o
         end;
  eexists; eexists; (split; [reflexivity | reflexivity]).

Lemma depthFunc_quiet f : gl_quiet (GL.depthFunc f).
Proof. gl_quiet_tac. Qed.
Lemma depthMask_quiet b : gl_quiet (GL.depthMask b).
Proof. gl_quiet_tac. Qed.
Lemma disable_quiet c : gl_quiet (GL.disable c).
Proof. gl_quiet_tac. Qed.
Lemma blendFunc_quiet a b : gl_quiet (GL.blendFunc a b).
Proof. gl_quiet_tac. Qed.
Lemma disableVertexAttribArray_quiet i : gl_quiet (GL.disableVertexAttribArray i).
Proof. gl_quiet_tac. Qed.
Lemma bindBuffer_quiet t b : gl_quiet (GL.bindBuffer t b).
Proof. gl_quiet_tac. Qed.
Lemma useProgram_quiet p : gl_quiet (GL.useProgram p).
Proof. gl_quiet_tac. Qed.
Lemma deleteProgram_quiet p : gl_quiet (GL.deleteProgram p).
Proof. gl_quiet_tac. Qed.
Lemma deleteShader_quiet p : gl_quiet (GL.deleteShader p).
Proof. gl_quiet_tac. Qed.
Lemma deleteBuffer_quiet p : gl_quiet (GL.deleteBuffer p).
Proof. gl_quiet_tac. Qed.

Lemma quiet_ret {A} (a : A) : quiet (ret a).
Proof. intros s. exists a, s. split; reflexivity. Qed.

Lemma quiet_bind {A B} (m : M st A) (k : A -> M st B) :
  quiet m -> (forall a, quiet (k a)) -> quiet (bind m k).
Proof.
  intros Hm Hk s. destruct (Hm s) as (a & s1 & E1 & D1).
  destruct (Hk a s1) as (b & s2 & E2 & D2).
  exists b, s2. unfold bind. rewrite E1. split; [assumption | congruence].
Qed.

Lemma quiet_if {A} (c : bool) (m1 m2 : M st A) :
  quiet m1 -> quiet m2 -> quiet (if c then m1 else m2).
Proof. destruct c; auto. Qed.

Lemma quiet_gl {A} (m : M GL.state A) : gl_quiet m -> quiet (gl_ m).
Proof.
  intros H s. destruct (H (gl (env s))) as (a & g' & E & D).
  exists a, (St (this s) (with_gl g' (env s))).
  unfold gl_, lift. rewrite E. split; [reflexivity | exact D].
Qed.

Lemma quiet_removeLayer (id : string) : quiet (host (removeLayer id)).
Proof. intros s. eexists; eexists. split; reflexivity. Qed.

Lemma quiet_post {A} (m : M st A) (s : st) (P : st -> Prop) :
  quiet m ->
  (forall s', plugin_draws s' = plugin_draws s -> P s') ->
  post P (m s).
Proof.
  intros H HP. destruct (H s) as (a & s' & E & D). rewrite E. cbn. auto.
Qed.

Ltac quiet_tac :=
  repeat lazymatch goal with
    | |- quiet (bind _ _) => apply quiet_bind; [|intros ?]
    | |- quiet (if _ then _ else _) => apply quiet_if
    | |- quiet (ret _) => apply quiet_ret
    | |- quiet (host (removeLayer _)) => apply quiet_removeLayer
    | |- quiet (gl_ (GL.depthFunc _)) => apply quiet_gl, depthFunc_quiet
    | |- quiet (gl_ (GL.depthMask _)) => apply quiet_gl, depthMask_quiet
    | |- quiet (gl_ (GL.disable _)) => apply quiet_gl, disable_quiet
    | |- quiet (gl_ (GL.blendFunc _ _)) => apply quiet_gl, blendFunc_quiet
    | |- quiet (gl_ (GL.disableVertexAttribArray _)) =>
        apply quiet_gl, disableVertexAttribArray_quiet
    | |- quiet (gl_ (GL.bindBuffer _ _)) => apply quiet_gl, bindBuffer_quiet
    | |- quiet (gl_ (GL.useProgram _)) => apply quiet_gl, useProgram_quiet
    | |- quiet (gl_ (GL.deleteProgram _)) => apply quiet_gl, deleteProgram_quiet
    | |- quiet (gl_ (GL.deleteShader _)) => apply quiet_gl, deleteShader_quiet
    | |- quiet (gl_ (GL.deleteBuffer _)) => apply quiet_gl, deleteBuffer_quiet
    end.

(** [onRemove] returns, with the references to the map and to the program
    cleared. *)
Lemma onRemove_clears (s : st) :
  post (fun s' => map (this s') = None /\ program (this s') = None
                  /\ plugin_draws s' = plugin_draws s) (onRemove s).
Proof.
  unfold onRemove.
  rewrite (bind_returns (gets this) _ s s (this s) eq_refl).
  match goal with
  | |- post _ (bind ?m ?k s) =>
      assert (Q : quiet m) by quiet_tac;
      destruct (Q s) as (a1 & s1 & E1 & D1);
      rewrite (bind_returns m k s s1 a1 E1)
  end.
  match goal with
  | |- post _ (bind ?m ?k s1) =>
      assert (Q2 : quiet m) by quiet_tac;
      destruct (Q2 s1) as (a2 & s2 & E2 & D2);
      rewrite (bind_returns m k s1 s2 a2 E2)
  end.
  cbn. unfold plugin_draws. repeat split. cbn [env]. now rewrite D2, D1.
Qed.

(** C8: calling render on a plugin that is not yet attached (as the
    constructor leaves it) or detached (after [onRemove], from any state)
    returns without an error and leaves the whole state, GL context
    included, as it was: nothing is drawn.  [onRemove] itself always
    returns.  The guard is the null test of [this.map] and [this.program].
    The layer object of [createStarsLayer] has no such guard and no
    [onRemove]: as long as [onAdd] has not run ([this.map] is undefined) its
    [render] throws a [TypeError]; the state, GL context included, is as it
    was. *)
Theorem C8_render_noop_when_detached :
  (forall (options : Options) (e : world),
      _render (St (constructor options) e) = Ok tt (St (constructor options) e))
  /\ (forall s : st,
      returned (onRemove s)
      /\ _render (state_of (onRemove s)) = Ok tt (state_of (onRemove s)))
  /\ (forall s : st,
      map (this s) = None \/ program (this s) = None -> render s = Ok tt s)
  /\ (forall options : Options,
      StarsLayer.map (StarsLayer.createStarsLayer options) = None)
  /\ (forall l : StarsLayer.st,
      StarsLayer.map (StarsLayer.this l) = None ->
      exists msg : string, StarsLayer.render l = Throw (TypeError msg) l).
Proof.
  split; [|split; [|split; [|split]]].
  - intros options e. apply _render_guard. left. reflexivity.
  - intros s. pose proof (onRemove_clears s) as H.
    destruct (onRemove s) as [a s'|e s']; cbn in H; [|contradiction].
    cbn [returned state_of]. split; [exact I|].
    apply _render_guard. left. apply H.
  - intros s H. apply _render_guard. exact H.
  - reflexivity.
  - intros l H. eexists. unfold StarsLayer.render, bind, gets. rewrite H. reflexivity.
Qed.

(** A plugin that was added, then removed, then asked to render; a plugin
    and a layer object asked to render before they were added. *)
Lemma C8_witness_removed :
  _render (state_of (onRemove (added_plugin accepting 1)))
  = Ok tt (state_of (onRemove (added_plugin accepting 1)))
  /\ render (new_plugin accepting 1) = Ok tt (new_plugin accepting 1)
  /\ exists msg : string,
      StarsLayer.render (new_layer accepting 1) = Throw (TypeError msg) (new_layer accepting 1).
Proof.
  destruct C8_render_noop_when_detached as (_ & H2 & H3 & _ & H5).
  split; [|split].
  - apply H2.
  - apply H3. left. reflexivity.
  - apply H5. reflexivity.
Defined.

(** The layer object made by [createStarsLayer] with the default options,
    asked to render on the page before [onAdd]: it is not yet attached, and
    the call does not return. *)
Lemma C8_counterexample_layer_before_onAdd :
  StarsLayer.map (StarsLayer.this (new_layer accepting 1)) = None
  /\ StarsLayer.program (StarsLayer.this (new_layer accepting 1)) = None
  /\ ~ returned (StarsLayer.render (new_layer accepting 1))
  /\ StarsLayer.render (new_layer accepting 1)
     = Throw (TypeError "Cannot read properties of undefined (reading 'transform')")
         (new_layer accepting 1).
Proof.
  split; [reflexivity|]. split; [reflexivity|].
  split; [intros H; exact H | reflexivity].
Qed.

(** *** The draw *)

Lemma ready_program (s : st) :
  plugin_ready s ->
  exists m p ib att unis,
    map (this s) = Some m /\ program (this s) = Some p
    /\ indexBuffer (this s) = Some ib
    /\ GL.lookup p (GL.programs (GL.objs (gl (env s))))
       = Some (GL.Program_obj att true unis false).
Proof.
  intros [Hm (p & ib & Hp & Hib & Hl)].
  destruct (map (this s)) as [m|] eqn:Em; [|contradiction].
  unfold GL.linked, GL.live_program in Hl.
  destruct (GL.lookup p _) as [[att lk unis del]|] eqn:El; [|discriminate].
  cbn in Hl. destruct del; [discriminate|]. cbn in Hl. subst lk.
  exists m, p, ib, att, unis. auto.
Qed.

Lemma _render_draws_once (s : st) :
  plugin_ready s -> plugin_transition s <> 0 ->
  post (fun s' => exists d, plugin_draws s' = d :: plugin_draws s) (_render s).
Proof.
  intros Hr Hpt.
  destruct (ready_program s Hr) as (m & p & ib & att & unis & Hm & Hp & Hib & Hl).
  destruct s as [[i d m0 p0 vb ib0 vs fs cl]
                   [[drv [next shaders programs buffers] [cp ab eb attrs] pipe errors draws]
                      console layers tr glm rep]].
  cbn in Hm, Hp, Hib, Hl. subst m0 p0 ib0.
  unfold plugin_transition, getProjectionData in Hpt; cbn in Hpt.
  unfold plugin_draws; cbn [env gl GL.draws].
  unfold _render.
  step. cbn [this map program is_null orb].
  step. unfold getProjectionData.
  destruct (Req_dec_T _ _) as [E|_]; [contradiction|].
  destruct vb; repeat step_with ltac:(rewrite ?Hl);
    (apply quiet_post; [quiet_tac | unfold plugin_draws; cbn; intros s' ->; eauto]).
Qed.

Lemma _render_gate_closed (s : st) : plugin_transition s = 0 -> _render s = Ok tt s.
Proof.
  intros H. unfold _render, bind, gets.
  destruct (is_null (map (this s)) || is_null (program (this s))); [reflexivity|].
  unfold plugin_transition in H.
  destruct (Req_dec_T _ _) as [_|N]; [reflexivity | contradiction].
Qed.

(** The gate of [_render]. *)
Lemma plugin_gate :
  (forall s : st, plugin_transition s = 0 -> _render s = Ok tt s)
  /\ (forall s : st, plugin_ready s -> plugin_transition s > 0 ->
      exists s' d, _render s = Ok tt s' /\ plugin_draws s' = d :: plugin_draws s).
Proof.
  split.
  - exact _render_gate_closed.
  - intros s Hr Hpt.
    assert (Hne : plugin_transition s <> 0) by lra.
    destruct (post_returns _ _ (_render_draws_once s Hr Hne)) as ([] & s' & E & d & D).
    exists s', d. split; assumption.
Qed.

(** *** [onAdd] on a page *)

Lemma added_plugin_ready (t : R) : plugin_ready (added_plugin accepting t).
Proof.
  unfold added_plugin. run_onAdd H.
  split; [discriminate|]. exists 3%nat, 5%nat. repeat split.
Qed.

(** [_render] on the plugin just added, on a fresh context: the depth
    function, the depth mask and the blend flag come back; the blend
    factors and the active program do not. *)
Lemma plugin_render_leaves_state :
  exists s' : st,
    _render (added_plugin accepting 1) = Ok tt s'
    /\ plugin_program (added_plugin accepting 1) = None
    /\ plugin_program s' = Some 3%nat
    /\ GL.blend_src_alpha (plugin_pipe (added_plugin accepting 1)) = GL.ONE
    /\ GL.blend_dst_alpha (plugin_pipe (added_plugin accepting 1)) = GL.ZERO
    /\ GL.blend_src_alpha (plugin_pipe s') = GL.SRC_ALPHA
    /\ GL.blend_dst_alpha (plugin_pipe s') = GL.ONE_MINUS_SRC_ALPHA
    /\ GL.depth_func (plugin_pipe s') = GL.depth_func (plugin_pipe (added_plugin accepting 1))
    /\ GL.depth_mask (plugin_pipe s') = GL.depth_mask (plugin_pipe (added_plugin accepting 1))
    /\ GL.blend (plugin_pipe s') = GL.blend (plugin_pipe (added_plugin accepting 1)).
Proof.
  unfold added_plugin. run_onAdd H. clear H.
  eexists. split.
  - unfold _render. step. cbn [this map program is_null orb].
    step. unfold getProjectionData, camera; cbn [projectionData projectionTransition].
    destruct (Req_dec_T 1 0) as [E|_]; [lra|].
    repeat step.
    match goal with |- ?m ?s = _ => norm (m s) end.
    reflexivity.
  - cbv [plugin_program plugin_pipe]. cbn. repeat split.
Qed.

(** *** Failures at attach time *)

(** C9, where the code departs from it.  The implementation rejects the
    fragment source at attach time: [_createShader] logs the diagnostic,
    deletes the shader and returns [null], so [this.fragmentShader] is
    [null]; [_createProgram] then passes that [null] to
    [gl.attachShader], whose shader argument is not nullable, and the
    [TypeError] leaves [onAdd]: an exception reaches the host. *)
Theorem C9_compile_failure_raises (options : Options) (d : GL.driver) (t : R) :
  GL.compiles d GL.vertexSource = true ->
  GL.compiles d (GL.fragmentSource (fragmentSource (density (constructor options)))) = false ->
  exists s' : st,
    onAdd the_map (St (constructor options) (page d t))
    = Throw (TypeError "attachShader") s'
    /\ fragmentShader (this s') = None
    /\ program (this s') = None
    /\ console (env s') = ["Shader compilation error: shader info log"%string].
Proof.
  intros Hv Hf. eexists. split.
  - unfold page, constructor, onAdd, GL.initial in *. cbn [density] in Hf.
    repeat step_with ltac:(rewrite ?Hv, ?Hf).
    reflexivity.
  - cbn. repeat split.
Qed.

(** The plugin with the default options on an implementation that rejects
    every fragment source. *)
Lemma C9_witness_rejected_fragment :
  exists s' : st,
    onAdd the_map (new_plugin rejecting_fragment 1)
    = Throw (TypeError "attachShader") s'
    /\ fragmentShader (this s') = None
    /\ program (this s') = None
    /\ console (env s') = ["Shader compilation error: shader info log"%string].
Proof.
  exact (C9_compile_failure_raises no_options rejecting_fragment 1 eq_refl eq_refl).
Defined.

(** A pair that the implementation does not link: [_createProgram] logs and
    returns [null], [onAdd] returns, and [_render] is a no-op from then on,
    whatever the page does. *)
Lemma onAdd_link_failure (options : Options) (d : GL.driver) (t : R) :
  GL.compiles d GL.vertexSource = true ->
  GL.compiles d (GL.fragmentSource (fragmentSource (density (constructor options)))) = true ->
  GL.links d GL.vertexSource
    (GL.fragmentSource (fragmentSource (density (constructor options)))) = false ->
  exists s' : st,
    onAdd the_map (St (constructor options) (page d t)) = Ok tt s'
    /\ program (this s') = None
    /\ console (env s') = ["Program linking error: program info log"%string]
    /\ forall e : world, _render (St (this s') e) = Ok tt (St (this s') e).
Proof.
  intros Hv Hf Hl. eexists. split.
  - unfold page, constructor, onAdd, GL.initial in *. cbn [density] in Hf, Hl.
    repeat step_with ltac:(rewrite ?Hv, ?Hf, ?Hl).
    reflexivity.
  - split; [reflexivity|]. split; [reflexivity|].
    intros e. apply _render_guard. right. reflexivity.
Qed.

End PluginLifecycle.

Section LayerRender.
Import JS Host StarsLayer.

Lemma layer_ready_program (s : st) :
  layer_ready s ->
  exists m p ib att unis,
    map (this s) = Some m /\ program (this s) = Some p
    /\ indexBuffer (this s) = Some ib
    /\ GL.lookup p (GL.programs (GL.objs (gl (env s))))
       = Some (GL.Program_obj att true unis false).
Proof.
  intros [Hm (p & ib & Hp & Hib & Hl)].
  destruct (map (this s)) as [m|] eqn:Em; [|contradiction].
  unfold GL.linked, GL.live_program in Hl.
  destruct (GL.lookup p _) as [[att lk unis del]|] eqn:El; [|discriminate].
  cbn in Hl. destruct del; [discriminate|]. cbn in Hl. subst lk.
  exists m, p, ib, att, unis. auto.
Qed.

Lemma render_gate_closed (s : st) :
  map (this s) <> None -> layer_transition s = 0 -> render s = Ok tt s.
Proof.
  intros Hm H. unfold render, bind, gets.
  destruct (map (this s)); [|contradiction].
  unfold layer_transition in H.
  destruct (Req_dec_T _ _) as [_|N]; [reflexivity | contradiction].
Qed.

Lemma render_draws_once (s : st) :
  layer_ready s -> layer_transition s <> 0 ->
  post (fun s' => exists d, layer_draws s' = d :: layer_draws s) (render s).
Proof.
  intros Hr Hpt.
  destruct (layer_ready_program s Hr) as (m & p & ib & att & unis & Hm & Hp & Hib & Hl).
  destruct s as [[i d id m0 p0 vb ib0 ap]
                   [[drv [next shaders programs buffers] [cp ab eb attrs] pipe errors draws]
                      console layers tr glm rep]].
  cbn in Hm, Hp, Hib, Hl. subst m0 p0 ib0.
  unfold layer_transition, getProjectionData in Hpt; cbn in Hpt.
  unfold layer_draws; cbn [env gl GL.draws].
  unfold render.
  step. cbn [this map].
  step. unfold getProjectionData.
  destruct (Req_dec_T _ _) as [E|_]; [contradiction|].
  destruct vb; destruct ap as [[|z|z]|]; cbn [index_of];
    repeat step_with ltac:(rewrite ?Hl);
    last_with idtac; eexists; reflexivity.
Qed.

Lemma added_layer_ready (t : R) : layer_ready (added_layer accepting t).
Proof.
  unfold added_layer. run_onAdd H.
  split; [discriminate|]. exists 3%nat, 5%nat. repeat split.
Qed.

End LayerRender.

(** ** What the restore of the plugin achieves *)

Section Restore.
Import JS Host StarsPlugin.

Lemma gl_depthFunc_valid (f : GL.GLenum) (th : t) (g : GL.state) c l tr gm r :
  ((512 <=? f)%Z && (f <=? 519)%Z)%bool = true ->
  gl_ (GL.depthFunc f) (St th (World g c l tr gm r))
  = Ok tt (St th (World (GL.with_pipe (GL.set_depth_func f (GL.pipe g)) g) c l tr gm r)).
Proof. intros H. unfold gl_, lift, GL.depthFunc. cbn [env gl this]. rewrite H. reflexivity. Qed.

Lemma gl_blendFunc_valid (sf df : GL.GLenum) (th : t) (g : GL.state) c l tr gm r :
  (GL.src_factor sf && GL.dst_factor df)%bool = true ->
  ((GL.constant_color sf && GL.constant_alpha df)
   || (GL.constant_alpha sf && GL.constant_color df))%bool = false ->
  gl_ (GL.blendFunc sf df) (St th (World g c l tr gm r))
  = Ok tt (St th (World (GL.with_pipe (GL.set_blend_func sf df (GL.pipe g)) g) c l tr gm r)).
Proof.
  intros H1 H2. unfold gl_, lift, GL.blendFunc. cbn [env gl this].
  rewrite H1, H2. reflexivity.
Qed.

(** X12: what the restore of [_render] does achieve.  When the gate is
    open and the resources are valid, a linked program was active, the
    depth function is a valid one, and the blend factors were set by a
    valid [blendFunc] with neither factor [ZERO], then [_render] returns
    and the pipeline state and the active program after it are those
    before it. *)
Lemma _render_restores (s : st) (q : GL.handle) :
  plugin_ready s -> plugin_transition s <> 0 ->
  plugin_program s = Some q -> GL.linked q (gl (env s)) = true ->
  ((512 <=? GL.depth_func (plugin_pipe s))%Z && (GL.depth_func (plugin_pipe s) <=? 519)%Z)%bool = true ->
  GL.blend_src_rgb (plugin_pipe s) = GL.blend_src_alpha (plugin_pipe s) ->
  GL.blend_dst_rgb (plugin_pipe s) = GL.blend_dst_alpha (plugin_pipe s) ->
  GL.blend_src_alpha (plugin_pipe s) <> GL.ZERO ->
  GL.blend_dst_alpha (plugin_pipe s) <> GL.ZERO ->
  (GL.src_factor (GL.blend_src_alpha (plugin_pipe s))
   && GL.dst_factor (GL.blend_dst_alpha (plugin_pipe s)))%bool = true ->
  ((GL.constant_color (GL.blend_src_alpha (plugin_pipe s))
    && GL.constant_alpha (GL.blend_dst_alpha (plugin_pipe s)))
   || (GL.constant_alpha (GL.blend_src_alpha (plugin_pipe s))
       && GL.constant_color (GL.blend_dst_alpha (plugin_pipe s))))%bool = false ->
  post (fun s' => plugin_pipe s' = plugin_pipe s /\ plugin_program s' = plugin_program s)
       (_render s).
Proof.
  intros Hr Hpt Hq Hlq Hdf Hsr Hdr Hsa Hda Hf Hc.
  destruct (ready_program s Hr) as (m & p & ib & att & unis & Hm & Hp & Hib & Hl).
  destruct s as [[i d m0 p0 vb ib0 vs fs cl]
                   [[drv [next shaders programs buffers] [cp ab eb attrs]
                       [dt df dm bl sr dr sa da] errors draws]
                      console layers tr glm rep]].
  unfold plugin_pipe, plugin_program in *.
  cbn [env gl this GL.pipe GL.binds GL.current_program GL.objs GL.programs
       map program indexBuffer
       GL.depth_func GL.blend_src_rgb GL.blend_dst_rgb GL.blend_src_alpha GL.blend_dst_alpha] in *.
  subst m0 p0 ib0 cp sr dr.
  unfold plugin_transition, getProjectionData in Hpt; cbn in Hpt.
  assert (Tsa : GL.truthy (GL.VEnum sa) = true).
  { cbn [GL.truthy]. destruct (Z.eqb_spec sa 0); [contradiction | reflexivity]. }
  assert (Tda : GL.truthy (GL.VEnum da) = true).
  { cbn [GL.truthy]. destruct (Z.eqb_spec da 0); [contradiction | reflexivity]. }
  assert (Hlq' : exists attq unisq, GL.lookup q programs = Some (GL.Program_obj attq true unisq false)).
  { unfold GL.linked, GL.live_program in Hlq. cbn in Hlq.
    destruct (GL.lookup q programs) as [[attq lk unisq del]|]; [|discriminate].
    cbn in Hlq. destruct del; [discriminate|]. cbn in Hlq. subst lk. eauto. }
  destruct Hlq' as (attq & unisq & Hq).
  unfold _render.
  step. cbn [this map program is_null orb].
  step. unfold getProjectionData.
  destruct (Req_dec_T _ _) as [E|_]; [contradiction|].
  cbn [GL.to_enum].
  destruct (Nat.eqb_spec p q) as [<-|Hpq].
  - destruct vb, bl;
      repeat step_with ltac:(rewrite ?Hl, ?Tsa, ?Tda; cbn [andb negb];
                             rewrite ?gl_depthFunc_valid by exact Hdf;
                             rewrite ?gl_blendFunc_valid by assumption);
      last_with ltac:(rewrite ?Hl); split; reflexivity.
  - assert (Eqb : Nat.eqb p q = false) by (apply Nat.eqb_neq; exact Hpq).
    destruct vb, bl;
      repeat step_with ltac:(rewrite ?Hl, ?Tsa, ?Tda; cbn [andb negb];
                             rewrite ?gl_depthFunc_valid by exact Hdf;
                             rewrite ?gl_blendFunc_valid by assumption);
      last_with ltac:(rewrite ?Eqb, ?Hq); split; reflexivity.
Qed.
End Restore.

Section LayerWithoutGuard.
Import JS Host StarsLayer.

(** The layer object of [createStarsLayer] has no guard: [render] before
    [onAdd] reads [this.map.transform] of an undefined [this.map]. *)
Lemma layer_render_before_onAdd (options : Options) (e : world) :
  exists msg : string,
    render (St (createStarsLayer options) e)
    = Throw (TypeError msg) (St (createStarsLayer options) e).
Proof. eexists. reflexivity. Qed.

(** On an implementation that does not link, [onAdd] of the layer logs and
    keeps the program; [render] then runs through: it records GL errors,
    draws nothing and leaves the depth test enabled. *)
Lemma layer_link_failure_keeps_program :
  program (this (added_layer not_linking 1)) = Some 3%nat
  /\ console (env (added_layer not_linking 1))
     = ["Program linking error: program info log"%string]
  /\ exists l' : st,
      render (added_layer not_linking 1) = Ok tt l'
      /\ layer_draws l' = []
      /\ GL.errors (gl (env l')) <> []
      /\ GL.depth_test (layer_pipe l') = true.
Proof.
  unfold added_layer. run_onAdd H. clear H.
  split; [reflexivity|]. split; [reflexivity|].
  eexists. split.
  - unfold render. step. cbn [this map].
    step. unfold getProjectionData, camera; cbn [projectionData projectionTransition].
    destruct (Req_dec_T 1 0) as [E|_]; [lra|].
    repeat step.
    match goal with |- ?m ?s = _ => norm (m s) end.
    reflexivity.
  - cbv [layer_draws layer_pipe]. cbn. repeat split. discriminate.
Qed.

End LayerWithoutGuard.

(** ** The render guard and the gate, in both files *)

Section RenderClaims.
Import JS Host.

Lemma layer_render_leaves_state :
  exists l' : StarsLayer.st,
    StarsLayer.render (added_layer accepting 1) = Ok tt l'
    /\ layer_program (added_layer accepting 1) = None
    /\ layer_program l' = Some 3%nat
    /\ GL.depth_test (layer_pipe (added_layer accepting 1)) = false
    /\ GL.depth_test (layer_pipe l') = true.
Proof.
  unfold added_layer. run_onAdd H. clear H.
  eexists. split.
  - unfold StarsLayer.render. step. cbn [StarsLayer.this StarsLayer.map].
    step. unfold getProjectionData, camera; cbn [projectionData projectionTransition].
    destruct (Req_dec_T 1 0) as [E|_]; [lra|].
    repeat step.
    match goal with |- ?m ?s = _ => norm (m s) end.
    reflexivity.
  - cbv [layer_program layer_pipe]. cbn. repeat split.
Qed.

(** C1, where the code departs from it.  The plugin is added to a page with
    a fresh WebGL context (no active program, blend factors [ONE] and
    [ZERO]) and [render] runs with [projectionTransition = 1].  [render]
    returns; the depth function, the depth mask and the blend flag are as
    before; the blend factors are left at [SRC_ALPHA] and
    [ONE_MINUS_SRC_ALPHA] and the plugin's program is left active, because
    the restore tests [oldBlendSrc && oldBlendDst] and [oldProgram] are
    false for [ZERO] and for [null].  The layer of [createStarsLayer] takes
    no snapshot: its program stays active and the depth test is left
    enabled. *)
Theorem C1_state_not_restored :
  (exists s' : StarsPlugin.st,
      StarsPlugin._render (added_plugin accepting 1) = Ok tt s'
      /\ plugin_program (added_plugin accepting 1) = None
      /\ plugin_program s' = Some 3%nat
      /\ GL.blend_src_alpha (plugin_pipe (added_plugin accepting 1)) = GL.ONE
      /\ GL.blend_dst_alpha (plugin_pipe (added_plugin accepting 1)) = GL.ZERO
      /\ GL.blend_src_alpha (plugin_pipe s') = GL.SRC_ALPHA
      /\ GL.blend_dst_alpha (plugin_pipe s') = GL.ONE_MINUS_SRC_ALPHA
      /\ GL.depth_func (plugin_pipe s')
         = GL.depth_func (plugin_pipe (added_plugin accepting 1))
      /\ GL.depth_mask (plugin_pipe s')
         = GL.depth_mask (plugin_pipe (added_plugin accepting 1))
      /\ GL.blend (plugin_pipe s') = GL.blend (plugin_pipe (added_plugin accepting 1)))
  /\ (exists l' : StarsLayer.st,
      StarsLayer.render (added_layer accepting 1) = Ok tt l'
      /\ layer_program (added_layer accepting 1) = None
      /\ layer_program l' = Some 3%nat
      /\ GL.depth_test (layer_pipe (added_layer accepting 1)) = false
      /\ GL.depth_test (layer_pipe l') = true).
Proof. split; [exact plugin_render_leaves_state | exact layer_render_leaves_state]. Qed.

(** C2: in either file, when [projectionTransition] is exactly 0, [render]
    returns and leaves the whole state, GL context included, as it was (no
    draw call); when it is greater than 0 and the resources are valid,
    [render] returns and the context has executed exactly one more draw
    than before. *)
Theorem C2_render_gate :
  (forall s : StarsPlugin.st,
      plugin_transition s = 0 -> StarsPlugin._render s = Ok tt s)
  /\ (forall s : StarsPlugin.st,
      plugin_ready s -> plugin_transition s > 0 ->
      exists s' d, StarsPlugin._render s = Ok tt s'
                   /\ plugin_draws s' = d :: plugin_draws s)
  /\ (forall s : StarsLayer.st,
      StarsLayer.map (StarsLayer.this s) <> None -> layer_transition s = 0 ->
      StarsLayer.render s = Ok tt s)
  /\ (forall s : StarsLayer.st,
      layer_ready s -> layer_transition s > 0 ->
      exists s' d, StarsLayer.render s = Ok tt s'
                   /\ layer_draws s' = d :: layer_draws s).
Proof.
  destruct plugin_gate as [P0 P1].
  split; [exact P0|]. split; [exact P1|]. split.
  - exact render_gate_closed.
  - intros s Hr Hpt.
    assert (Hne : layer_transition s <> 0) by lra.
    destruct (post_returns _ _ (render_draws_once s Hr Hne)) as ([] & s' & E & d & D).
    exists s', d. split; assumption.
Qed.

(** The plugin and the layer just added, with the gate open and with the
    gate closed. *)
Lemma C2_witness_added :
  (exists s' d, StarsPlugin._render (added_plugin accepting 1) = Ok tt s'
                /\ plugin_draws s' = d :: plugin_draws (added_plugin accepting 1))
  /\ StarsPlugin._render (added_plugin accepting 0) = Ok tt (added_plugin accepting 0)
  /\ (exists s' d, StarsLayer.render (added_layer accepting 1) = Ok tt s'
                   /\ layer_draws s' = d :: layer_draws (added_layer accepting 1)).
Proof.
  destruct C2_render_gate as (P0 & P1 & L0 & L1).
  assert (T1 : plugin_transition (added_plugin accepting 1) = 1).
  { unfold added_plugin. run_onAdd H. reflexivity. }
  assert (T0 : plugin_transition (added_plugin accepting 0) = 0).
  { unfold added_plugin. run_onAdd H. reflexivity. }
  assert (T2 : layer_transition (added_layer accepting 1) = 1).
  { unfold added_layer. run_onAdd H. reflexivity. }
  split; [|split].
  - apply P1; [apply added_plugin_ready | rewrite T1; lra].
  - apply P0. exact T0.
  - apply L1; [apply added_layer_ready | rewrite T2; lra].
Defined.

End RenderClaims.
(** ** The ray on the unit sphere *)

Section ShaderGeometry.
Import GLSL Shader Rotation.

Lemma length3_positive (v : vec3) : v <> Vec3 0 0 0 -> 0 < length3 v.
Proof.
  intros H. unfold length3. apply sqrt_lt_R0.
  destruct v as [a b c]; cbn [v3x v3y v3z].
  destruct (Req_dec a 0) as [->|Ha]; [|nra].
  destruct (Req_dec b 0) as [->|Hb]; [|nra].
  destruct (Req_dec c 0) as [->|Hc]; [|nra].
  contradiction H; reflexivity.
Qed.

Lemma normalize_unit (v : vec3) : 0 < length3 v -> norm2 (normalize v) = 1.
Proof.
  intros H. unfold norm2, normalize; cbn [v3x v3y v3z].
  set (l := length3 v) in *.
  assert (Hq : l * l = v3x v * v3x v + v3y v * v3y v + v3z v * v3z v).
  { unfold l, length3. apply sqrt_sqrt.
    pose proof (Rle_0_sqr (v3x v)). pose proof (Rle_0_sqr (v3y v)).
    pose proof (Rle_0_sqr (v3z v)). unfold Rsqr in *. lra. }
  assert (Hl : l <> 0) by lra.
  replace (v3x v / l * (v3x v / l) + v3y v / l * (v3y v / l) + v3z v / l * (v3z v / l))
    with ((v3x v * v3x v + v3y v * v3y v + v3z v * v3z v) / (l * l))
    by (field; assumption).
  rewrite <- Hq. field. assumption.
Qed.

(** X1: for every view direction other than the zero vector, the vector
    that [main()] has rotated is a unit vector, whatever the five angles;
    so its [y] lies in [-1, 1], the domain of [asin], and [lat] is the
    latitude of the rotated ray: its sine is that [y], and it lies between
    [-PI/2] and [PI/2]. *)
Theorem X1_rotated_ray_is_unit (b : baked) (u : uniforms) (view_direction : vec3) :
  view_direction <> Vec3 0 0 0 ->
  norm2 (rotated (main b u view_direction)) = 1
  /\ -1 <= v3y (rotated (main b u view_direction)) <= 1
  /\ sin (f_lat (main b u view_direction)) = v3y (rotated (main b u view_direction))
  /\ - (Rtrigo1.PI / 2) <= f_lat (main b u view_direction) <= Rtrigo1.PI / 2.
Proof.
  intros Hv. unfold main; cbn [rotated f_lat].
  rewrite rotate_pipeline.
  set (r := pipeline _ _ _ _ _ _).
  assert (N : norm2 r = 1).
  { unfold r. rewrite pipeline_norm2. apply normalize_unit, length3_positive, Hv. }
  assert (Y : -1 <= v3y r <= 1).
  { unfold norm2 in N.
    pose proof (Rle_0_sqr (v3x r)). pose proof (Rle_0_sqr (v3z r)). unfold Rsqr in *.
    split; nra. }
  split; [exact N|]. split; [exact Y|]. split.
  - unfold lat. apply sin_asin. exact Y.
  - unfold lat. apply asin_bound.
Qed.

(** A ray along the view axis, of length 2, under a tilted camera. *)
Lemma X1_witness_tilted_camera :
  let m := main (StarsPlugin.fragmentSource 0.15)
             (Uniforms (Vec3 0 0 0) 1 20 (Vec2 1 0.5) (Vec3 0.3 2 0)) (Vec3 0 0 2) in
  norm2 (rotated m) = 1
  /\ -1 <= v3y (rotated m) <= 1
  /\ sin (f_lat m) = v3y (rotated m)
  /\ - (Rtrigo1.PI / 2) <= f_lat m <= Rtrigo1.PI / 2.
Proof.
  cbv zeta. apply X1_rotated_ray_is_unit.
  intros H. apply (f_equal v3z) in H. cbn in H. lra.
Defined.

End ShaderGeometry.

(** ** The shape of a star *)

Section StarShape.
Import GLSL Shader JS.

Lemma clamp_unit (x : R) : 0 <= clamp x 0 1 <= 1.
Proof.
  unfold clamp, min, max, Rmin, Rmax.
  repeat destruct Rle_dec; lra.
Qed.

Lemma clamp_monotone (x y : R) : x <= y -> clamp x 0 1 <= clamp y 0 1.
Proof.
  intros H. unfold clamp, min, max, Rmin, Rmax.
  repeat destruct Rle_dec; lra.
Qed.

Lemma hermite_unit (t : R) : 0 <= t <= 1 -> 0 <= t * t * (3 - 2 * t) <= 1.
Proof.
  intros H. split.
  - apply Rmult_le_pos; [nra | lra].
  - assert (E : 1 - t * t * (3 - 2 * t) = (1 - t) * (1 - t) * (1 + 2 * t)) by ring.
    assert (0 <= (1 - t) * (1 - t) * (1 + 2 * t)).
    { apply Rmult_le_pos; [nra | lra]. }
    lra.
Qed.

Lemma hermite_monotone (t1 t2 : R) :
  0 <= t1 -> t1 <= t2 -> t2 <= 1 -> t1 * t1 * (3 - 2 * t1) <= t2 * t2 * (3 - 2 * t2).
Proof.
  intros H0 H H1.
  assert (E : t2 * t2 * (3 - 2 * t2) - t1 * t1 * (3 - 2 * t1)
              = (t2 - t1) * (3 * (t1 + t2) - 2 * (t1 * t1 + t1 * t2 + t2 * t2))) by ring.
  assert (0 <= 3 * (t1 + t2) - 2 * (t1 * t1 + t1 * t2 + t2 * t2)) by nra.
  assert (0 <= (t2 - t1) * (3 * (t1 + t2) - 2 * (t1 * t1 + t1 * t2 + t2 * t2))).
  { apply Rmult_le_pos; lra. }
  lra.
Qed.

Lemma smoothstep_unit (e0 e1 x : R) : 0 <= smoothstep e0 e1 x <= 1.
Proof. unfold smoothstep. apply hermite_unit, clamp_unit. Qed.

Lemma smoothstep_monotone (e x y : R) :
  0 < e -> x <= y -> smoothstep 0 e x <= smoothstep 0 e y.
Proof.
  intros He H. unfold smoothstep.
  pose proof (clamp_unit ((x - 0) / (e - 0))) as [A _].
  pose proof (clamp_unit ((y - 0) / (e - 0))) as [_ B].
  apply hermite_monotone; try assumption.
  apply clamp_monotone. unfold Rdiv.
  apply Rmult_le_compat_r; [|lra].
  left. apply Rinv_0_lt_compat. lra.
Qed.

Lemma pow_four_monotone (x y : R) : 0 <= x -> x <= y -> pow x 4 <= pow y 4.
Proof.
  intros Hx H. rewrite !pow_four by lra.
  assert (x * x <= y * y) by nra.
  assert (0 <= x * x) by nra.
  nra.
Qed.

Lemma pow_four_unit (x : R) : 0 <= x <= 1 -> 0 <= pow x 4 <= 1.
Proof.
  intros H. split; [apply pow_nonneg|].
  rewrite pow_four by lra.
  assert (x * x <= 1) by nra. assert (0 <= x * x) by nra. nra.
Qed.

Lemma brightness_range (g : vec2) : 0.5 <= 0.5 + 0.5 * sizeHash g < 1.
Proof.
  pose proof (cell_hash_bounds g (Vec2 415.2 371.9)) as H. fold (sizeHash g) in H. lra.
Qed.

(** The strength of the branch, from its locals. *)
Lemma branch_stars_eq (b : baked) (uv g : vec2) (lat : R) :
  branch_stars (star_branch b uv g lat)
  = pow (1 - smoothstep 0 (starSize (star_branch b uv g lat))
                 (dist (star_branch b uv g lat))) 4
    * (0.5 + 0.5 * sizeHash g).
Proof. reflexivity. Qed.

Lemma branch_stars_unit (b : baked) (uv g : vec2) (lat : R) :
  0 <= branch_stars (star_branch b uv g lat) <= 0.5 + 0.5 * sizeHash g.
Proof.
  rewrite branch_stars_eq.
  set (ss := smoothstep _ _ _).
  pose proof (smoothstep_unit 0 (starSize (star_branch b uv g lat))
                (dist (star_branch b uv g lat))) as S.
  fold ss in S.
  pose proof (pow_four_unit (1 - ss) ltac:(lra)) as P.
  pose proof (brightness_range g) as B.
  split.
  - apply Rmult_le_pos; lra.
  - assert (pow (1 - ss) 4 * (0.5 + 0.5 * sizeHash g) <= 1 * (0.5 + 0.5 * sizeHash g)).
    { apply Rmult_le_compat_r; lra. }
    lra.
Qed.

Lemma stars_range (b : baked) (i lng lat : R) :
  0 <= i -> 0 <= stars (star_field b i lng lat) <= i.
Proof.
  intros Hi.
  destruct (cell (star_field b i lng lat)) as [s|] eqn:C.
  - destruct (star_present_branch b i lng lat s C) as [E St].
    rewrite St, E.
    pose proof (branch_stars_unit b (scaledUV (star_field b i lng lat))
                  (gridPos (star_field b i lng lat)) lat) as [A B].
    pose proof (brightness_range (gridPos (star_field b i lng lat))) as Br.
    split; [apply Rmult_le_pos; assumption|].
    assert (branch_stars (star_branch b (scaledUV (star_field b i lng lat))
                            (gridPos (star_field b i lng lat)) lat) * i <= 1 * i)
      by (apply Rmult_le_compat_r; lra).
    lra.
  - rewrite (star_absent_zero b i lng lat C). lra.
Qed.

(** X2: for a non-negative intensity, the colour that [main()] writes is a
    grey (red, green and blue are equal) with alpha 1, and each channel
    lies between 0 and the intensity: with or without a star, in every
    direction and for every baked source. *)
Theorem X2_fragment_colour_range (b : baked) (u : uniforms) (view_direction : vec3) :
  0 <= u_stars_intensity u ->
  v4x (gl_FragColor (main b u view_direction)) = v4y (gl_FragColor (main b u view_direction))
  /\ v4y (gl_FragColor (main b u view_direction)) = v4z (gl_FragColor (main b u view_direction))
  /\ v4w (gl_FragColor (main b u view_direction)) = 1
  /\ 0 <= v4x (gl_FragColor (main b u view_direction)) <= u_stars_intensity u.
Proof.
  intros Hi. unfold main; cbn [gl_FragColor v4x v4y v4z v4w v3x v3y v3z].
  split; [reflexivity|]. split; [reflexivity|]. split; [reflexivity|].
  rewrite Rmult_1_l. apply stars_range. exact Hi.
Qed.

(** The default intensity, looking down the view axis. *)
Lemma X2_witness_default_intensity :
  let c := gl_FragColor (main (StarsPlugin.fragmentSource 0.15)
                           (Uniforms (Vec3 0 0 0) 1 20 (Vec2 0 0) (Vec3 0 0 0))
                           (Vec3 0 0 1)) in
  v4x c = v4y c /\ v4y c = v4z c /\ v4w c = 1 /\ 0 <= v4x c <= 20.
Proof.
  cbv zeta.
  apply (X2_fragment_colour_range (StarsPlugin.fragmentSource 0.15)
           (Uniforms (Vec3 0 0 0) 1 20 (Vec2 0 0) (Vec3 0 0 0)) (Vec3 0 0 1)).
  cbn [u_stars_intensity]. lra.
Defined.

Lemma component_le_length (a c : R) : Rabs a <= sqrt (a * a + c * c).
Proof.
  rewrite <- (sqrt_Rsqr_abs a). apply sqrt_le_1_alt.
  unfold Rsqr. pose proof (Rle_0_sqr c) as H. unfold Rsqr in H. lra.
Qed.

Lemma aspectCorrection_range (lat : R) : 0.3 <= max 0.3 (cos lat) <= 1.
Proof.
  pose proof (COS_bound lat) as [_ H].
  unfold max, Rmax. destruct Rle_dec; lra.
Qed.

Lemma dist_nonneg (b : baked) (uv g : vec2) (lat : R) :
  0 <= dist (star_branch b uv g lat).
Proof.
  unfold star_branch; cbn [dist]. unfold length2.
  apply Rmult_le_pos; [apply sqrt_pos | lra].
Qed.

Lemma lit_branch (b : baked) (uv g : vec2) (lat : R) :
  0 < sizeBase b -> 0 <= sizeRange b ->
  branch_stars (star_branch b uv g lat) <> 0 ->
  dist (star_branch b uv g lat) < starSize (star_branch b uv g lat).
Proof.
  intros Hb Hr H.
  destruct (Rlt_dec (dist (star_branch b uv g lat)) (starSize (star_branch b uv g lat)))
    as [L|N]; [exact L|].
  exfalso. apply H.
  assert (Hd : starSize (star_branch b uv g lat) <= dist (star_branch b uv g lat)) by lra.
  rewrite branch_stars_eq.
  rewrite smoothstep_saturates; [| apply starSize_positive; assumption | exact Hd].
  replace (1 - 1) with 0 by ring. rewrite pow_zero. ring.
Qed.

(** X3: a fragment that a star lights (strength other than 0) lies inside
    the star: its distance [dist] from the star's centre is below
    [starSize]; the aspect correction lies in [0.3, 1], so the division by
    it is defined and never shrinks [delta.x]; hence the fragment is within
    [starSize * aspectCorrection] of the centre [hashX] along x and within
    half of [starSize] of [hashY] along y, in cell coordinates. *)
Theorem X3_lit_fragment_within_star (b : baked) (i lng lat : R) :
  0 < sizeBase b -> 0 <= sizeRange b ->
  stars (star_field b i lng lat) <> 0 ->
  exists s : star,
    cell (star_field b i lng lat) = Some s
    /\ dist s < starSize s
    /\ 0.3 <= aspectCorrection s <= 1
    /\ Rabs (v2x (localPos s) - hashX (gridPos (star_field b i lng lat)))
       < starSize s * aspectCorrection s
    /\ 2 * Rabs (v2y (localPos s) - hashY (gridPos (star_field b i lng lat)))
       < starSize s.
Proof.
  intros Hb Hr Hs.
  destruct (cell (star_field b i lng lat)) as [s|] eqn:C;
    [| exfalso; apply Hs; apply star_absent_zero; exact C].
  destruct (star_present_branch b i lng lat s C) as [E St].
  set (f := star_field b i lng lat) in *.
  assert (Hbr : branch_stars s <> 0).
  { intros Z. apply Hs. rewrite St, Z. ring. }
  assert (D : dist s < starSize s).
  { rewrite E in Hbr |- *. apply lit_branch; assumption. }
  pose proof (aspectCorrection_range lat) as A.
  exists s. split; [reflexivity|]. split; [exact D|].
  assert (EA : aspectCorrection s = max 0.3 (cos lat)) by (rewrite E; reflexivity).
  assert (ED : dist s
               = sqrt ((v2x (localPos s) - hashX (gridPos f)) / 200 / aspectCorrection s
                       * ((v2x (localPos s) - hashX (gridPos f)) / 200 / aspectCorrection s)
                       + (v2y (localPos s) - hashY (gridPos f)) / 200 * 2
                         * ((v2y (localPos s) - hashY (gridPos f)) / 200 * 2)) * 200).
  { rewrite E. reflexivity. }
  rewrite EA. split; [exact A|].
  rewrite EA in ED.
  set (dx := v2x (localPos s) - hashX (gridPos f)) in *.
  set (dy := v2y (localPos s) - hashY (gridPos f)) in *.
  set (asp := max 0.3 (cos lat)) in *.
  pose proof (component_le_length (dx / 200 / asp) (dy / 200 * 2)) as X.
  pose proof (component_le_length (dy / 200 * 2) (dx / 200 / asp)) as Y.
  rewrite (Rplus_comm (dy / 200 * 2 * (dy / 200 * 2))) in Y.
  assert (AX : Rabs (dx / 200 / asp) = Rabs dx / (200 * asp)).
  { unfold Rdiv. rewrite !Rabs_mult, !Rabs_inv.
    rewrite (Rabs_pos_eq 200) by lra. rewrite (Rabs_pos_eq asp) by lra.
    field. lra. }
  assert (AY : Rabs (dy / 200 * 2) = Rabs dy / 100).
  { unfold Rdiv. rewrite !Rabs_mult, Rabs_inv.
    rewrite (Rabs_pos_eq 200) by lra. rewrite (Rabs_pos_eq 2) by lra. field. }
  rewrite AX in X. rewrite AY in Y.
  set (len := sqrt _) in *.
  split.
  - assert (Rabs dx <= len * 200 * asp).
    { apply Rmult_le_reg_r with (/ (200 * asp)).
      - apply Rinv_0_lt_compat. nra.
      - replace (len * 200 * asp * / (200 * asp)) with len by (field; lra).
        exact X. }
    nra.
  - lra.
Qed.

(** The direction of the centre of the star of a cell, and what is computed
    there. *)
Lemma star_centre (b : baked) (i : R) (gx gy : Z) :
  threshold b < hash (Vec2 (IZR gx) (IZR gy)) ->
  exists s : star,
    gridPos (star_field b i (lng_of (IZR gx + hashX (Vec2 (IZR gx) (IZR gy))))
                            (lat_of (IZR gy + hashY (Vec2 (IZR gx) (IZR gy)))))
    = Vec2 (IZR gx) (IZR gy)
    /\ cell (star_field b i (lng_of (IZR gx + hashX (Vec2 (IZR gx) (IZR gy))))
                            (lat_of (IZR gy + hashY (Vec2 (IZR gx) (IZR gy)))))
       = Some s
    /\ dist s = 0
    /\ stars (star_field b i (lng_of (IZR gx + hashX (Vec2 (IZR gx) (IZR gy))))
                             (lat_of (IZR gy + hashY (Vec2 (IZR gx) (IZR gy)))))
       = (0.5 + 0.5 * sizeHash (Vec2 (IZR gx) (IZR gy))) * i.
Proof.
  intros Hh.
  set (g := Vec2 (IZR gx) (IZR gy)) in *.
  set (f := star_field b i (lng_of (IZR gx + hashX g)) (lat_of (IZR gy + hashY g))).
  pose proof (cell_hash_bounds g (Vec2 127.1 311.7)) as HX. fold (hashX g) in HX.
  pose proof (cell_hash_bounds g (Vec2 269.5 183.3)) as HY. fold (hashY g) in HY.
  assert (G : gridPos f = g).
  { unfold f. exact (gridPos_direction b i gx gy (hashX g) (hashY g) HX HY). }
  assert (U : scaledUV f = Vec2 (IZR gx + hashX g) (IZR gy + hashY g)).
  { unfold f. apply scaledUV_direction. }
  set (s := star_branch b (scaledUV f) (gridPos f) (lat_of (IZR gy + hashY g))).
  assert (C : cell f = Some s).
  { unfold f at 1. rewrite star_field_cell. fold f. fold s.
    destruct (Rlt_dec (threshold b) (hash (gridPos f))) as [_|N]; [reflexivity|].
    exfalso. apply N. rewrite G. exact Hh. }
  assert (D : dist s = 0).
  { unfold s, star_branch; cbn [dist]. rewrite U, G.
    unfold length2, vdiv2, vsub2, fract2; cbn [v2x v2y].
    rewrite !fract_shift by assumption.
    replace (hashX g - hashX g) with 0 by ring.
    replace (hashY g - hashY g) with 0 by ring.
    unfold Rdiv. rewrite !Rmult_0_l, Rplus_0_l, sqrt_0. ring. }
  exists s. split; [exact G|]. split; [exact C|]. split; [exact D|].
  destruct (star_present_branch b i _ _ s C) as [_ St]. fold f in St.
  rewrite St. unfold s at 1. rewrite branch_stars_eq. fold s.
  rewrite D, smoothstep_origin, G.
  replace (1 - 0) with 1 by ring. rewrite pow_one. ring.
Qed.

(** With the default density, the cell (1, 0) passes the presence test. *)
Lemma default_threshold_passed : threshold (plugin_baked no_options) < hash (Vec2 1 0).
Proof.
  unfold plugin_baked, no_options, StarsPlugin.constructor, StarsPlugin.fragmentSource;
    cbn [StarsPlugin.density opt_density or_else threshold].
  rewrite toFixed2_default. pose proof hash_cell_1_0. lra.
Qed.

(** The fragment at the centre of the star of the cell (1, 0), for the
    default options: it is lit, so it lies inside the star. *)
Lemma X3_witness_star_centre :
  let g := Vec2 1 0 in
  let f := star_field (plugin_baked no_options) 20
             (lng_of (1 + hashX g)) (lat_of (0 + hashY g)) in
  exists s : star,
    cell f = Some s
    /\ dist s < starSize s
    /\ 0.3 <= aspectCorrection s <= 1
    /\ Rabs (v2x (localPos s) - hashX (gridPos f)) < starSize s * aspectCorrection s
    /\ 2 * Rabs (v2y (localPos s) - hashY (gridPos f)) < starSize s.
Proof.
  cbv zeta.
  destruct (star_centre (plugin_baked no_options) 20 1 0 default_threshold_passed)
    as (s0 & _ & _ & _ & St).
  apply X3_lit_fragment_within_star.
  - cbn [plugin_baked StarsPlugin.fragmentSource sizeBase]. lra.
  - cbn [plugin_baked StarsPlugin.fragmentSource sizeRange]. lra.
  - rewrite St. pose proof (brightness_range (Vec2 1 0)). lra.
Defined.

(** X4: within one cell, a fragment farther from the centre of the star is
    never brighter: for two directions of the same grid cell that hold the
    star, [dist1 <= dist2] gives [stars2 <= stars1], for a non-negative
    intensity. *)
Theorem X4_strength_falls_with_distance (b : baked) (i lng1 lat1 lng2 lat2 : R)
    (s1 s2 : star) :
  0 < sizeBase b -> 0 <= sizeRange b -> 0 <= i ->
  cell (star_field b i lng1 lat1) = Some s1 ->
  cell (star_field b i lng2 lat2) = Some s2 ->
  gridPos (star_field b i lng1 lat1) = gridPos (star_field b i lng2 lat2) ->
  dist s1 <= dist s2 ->
  stars (star_field b i lng2 lat2) <= stars (star_field b i lng1 lat1).
Proof.
  intros Hb Hr Hi C1 C2 G D.
  destruct (star_present_branch b i lng1 lat1 s1 C1) as [E1 St1].
  destruct (star_present_branch b i lng2 lat2 s2 C2) as [E2 St2].
  rewrite St1, St2. apply Rmult_le_compat_r; [exact Hi|].
  set (g := gridPos (star_field b i lng1 lat1)) in *.
  assert (B1 : branch_stars s1
               = pow (1 - smoothstep 0 (sizeBase b + sizeRange b * sizeHash g) (dist s1)) 4
                 * (0.5 + 0.5 * sizeHash g)).
  { rewrite E1. reflexivity. }
  assert (B2 : branch_stars s2
               = pow (1 - smoothstep 0 (sizeBase b + sizeRange b * sizeHash g) (dist s2)) 4
                 * (0.5 + 0.5 * sizeHash g)).
  { rewrite E2, <- G. reflexivity. }
  rewrite B1, B2.
  pose proof (brightness_range g) as Br.
  pose proof (starSize_positive b g Hb Hr) as Hsz.
  pose proof (smoothstep_monotone _ _ _ Hsz D) as M.
  pose proof (smoothstep_unit 0 (sizeBase b + sizeRange b * sizeHash g) (dist s2)) as U2.
  apply Rmult_le_compat_r; [lra|].
  apply pow_four_monotone; lra.
Qed.

(** In the cell (1, 0), the fragment in the middle of the cell is not
    brighter than the one at the centre of the star. *)
Lemma X4_witness_centre_brightest :
  let g := Vec2 1 0 in
  stars (star_field (plugin_baked no_options) 20 (lng_of (1 + 0.5)) (lat_of (0 + 0.5)))
  <= stars (star_field (plugin_baked no_options) 20
              (lng_of (1 + hashX g)) (lat_of (0 + hashY g))).
Proof.
  cbv zeta.
  destruct (star_centre (plugin_baked no_options) 20 1 0 default_threshold_passed)
    as (s1 & G1 & C1 & D1 & _).
  assert (G2 : gridPos (star_field (plugin_baked no_options) 20
                          (lng_of (1 + 0.5)) (lat_of (0 + 0.5))) = Vec2 1 0).
  { apply (gridPos_direction (plugin_baked no_options) 20 1 0); lra. }
  assert (C2 : cell (star_field (plugin_baked no_options) 20
                       (lng_of (1 + 0.5)) (lat_of (0 + 0.5)))
               = Some (star_branch (plugin_baked no_options)
                         (scaledUV (star_field (plugin_baked no_options) 20
                                      (lng_of (1 + 0.5)) (lat_of (0 + 0.5))))
                         (gridPos (star_field (plugin_baked no_options) 20
                                     (lng_of (1 + 0.5)) (lat_of (0 + 0.5))))
                         (lat_of (0 + 0.5)))).
  { rewrite star_field_cell.
    destruct (Rlt_dec _ _) as [_|N]; [reflexivity|].
    exfalso. apply N. rewrite G2. exact default_threshold_passed. }
  apply (X4_strength_falls_with_distance (plugin_baked no_options) 20 _ _ _ _ s1 _
           ltac:(cbn [plugin_baked StarsPlugin.fragmentSource sizeBase]; lra)
           ltac:(cbn [plugin_baked StarsPlugin.fragmentSource sizeRange]; lra)
           ltac:(lra) C1 C2).
  - rewrite G1, G2. reflexivity.
  - rewrite D1. apply dist_nonneg.
Defined.

Lemma star_parameters_baked (b : baked) (i lng lat : R) (s : star) :
  0 <= sizeRange b ->
  cell (star_field b i lng lat) = Some s ->
  (0 <= v2x (randomOffset s) < 1 /\ 0 <= v2y (randomOffset s) < 1)
  /\ sizeBase b <= starSize s <= sizeBase b + sizeRange b
  /\ 0.5 <= brightness s < 1.
Proof.
  intros Hr C.
  destruct (star_present_branch b i lng lat s C) as [E _].
  set (g := gridPos (star_field b i lng lat)) in *.
  pose proof (cell_hash_bounds g (Vec2 127.1 311.7)) as HX. fold (hashX g) in HX.
  pose proof (cell_hash_bounds g (Vec2 269.5 183.3)) as HY. fold (hashY g) in HY.
  pose proof (cell_hash_bounds g (Vec2 415.2 371.9)) as HS. fold (sizeHash g) in HS.
  assert (EO : randomOffset s = Vec2 (hashX g) (hashY g)) by (rewrite E; reflexivity).
  assert (ES : starSize s = sizeBase b + sizeRange b * sizeHash g) by (rewrite E; reflexivity).
  assert (EB : brightness s = 0.5 + 0.5 * sizeHash g) by (rewrite E; reflexivity).
  rewrite EO, ES, EB; cbn [v2x v2y].
  split; [split; assumption|]. split; [nra | lra].
Qed.

(** X24: the parameters of a star.  In a cell that holds a star, the
    centre [(hashX, hashY)] lies in the cell (both in [0, 1)), the
    brightness lies in [0.5, 1), and the size lies between 0.015 and 0.04
    in the plugin and between 0.01 and 0.06 in the bare layer, for every
    options object. *)
Theorem X24_star_parameters (options : Options) (i lng lat : R) :
  (forall s : star,
      cell (star_field (plugin_baked options) i lng lat) = Some s ->
      (0 <= v2x (randomOffset s) < 1 /\ 0 <= v2y (randomOffset s) < 1)
      /\ 0.015 <= starSize s <= 0.04
      /\ 0.5 <= brightness s < 1)
  /\ (forall s : star,
      cell (star_field (layer_baked options) i lng lat) = Some s ->
      (0 <= v2x (randomOffset s) < 1 /\ 0 <= v2y (randomOffset s) < 1)
      /\ 0.01 <= starSize s <= 0.06
      /\ 0.5 <= brightness s < 1).
Proof.
  split; intros s C.
  - destruct (star_parameters_baked (plugin_baked options) i lng lat s
                ltac:(cbn [plugin_baked StarsPlugin.fragmentSource sizeRange]; lra) C)
      as (O & S & B).
    cbn [plugin_baked StarsPlugin.fragmentSource sizeBase sizeRange] in S.
    split; [exact O|]. split; [lra | exact B].
  - destruct (star_parameters_baked (layer_baked options) i lng lat s
                ltac:(cbn [layer_baked StarsLayer.fragmentSource sizeRange]; lra) C)
      as (O & S & B).
    cbn [layer_baked StarsLayer.fragmentSource sizeBase sizeRange] in S.
    split; [exact O|]. split; [lra | exact B].
Qed.

End StarShape.

(** ** The density and the presence threshold *)

Section Density.
Import GLSL Shader JS.

Lemma Zfloor_below (x : R) (n : Z) : x < IZR n + 1 -> (Zfloor x <= n)%Z.
Proof.
  intros H. pose proof (Zfloor_bound x) as [A _].
  assert (L : IZR (Zfloor x) < IZR (n + 1)) by (rewrite plus_IZR; lra).
  apply lt_IZR in L. lia.
Qed.

Lemma Zfloor_monotone (x y : R) : x <= y -> (Zfloor x <= Zfloor y)%Z.
Proof.
  intros H. apply Zfloor_below. pose proof (Zfloor_bound y) as [_ B]. lra.
Qed.

Lemma Zfloor_above (x : R) (n : Z) : IZR n <= x -> (n <= Zfloor x)%Z.
Proof.
  intros H. pose proof (Zfloor_bound x) as [_ B].
  assert (L : IZR n < IZR (Zfloor x + 1)) by (rewrite plus_IZR; lra).
  apply lt_IZR in L. lia.
Qed.

(** What [toFixed(2)] denotes for a non-negative number, and for a negative
    one. *)
Lemma toFixed2_nonneg (x : R) :
  0 <= x ->
  toFixed2 x = if Rle_dec (10 ^ 21) x then x else IZR (Zfloor (x * 100 + / 2)) / 100.
Proof.
  intros H. unfold toFixed2.
  destruct (Rlt_dec x 0); [lra|]. rewrite (Rabs_pos_eq x H).
  destruct (Rle_dec _ _); lra.
Qed.

Lemma toFixed2_negative (x : R) :
  x < 0 ->
  toFixed2 x
  = - (if Rle_dec (10 ^ 21) (- x) then - x else IZR (Zfloor (- x * 100 + / 2)) / 100).
Proof.
  intros H. unfold toFixed2.
  destruct (Rlt_dec x 0); [|lra]. rewrite (Rabs_left x H).
  destruct (Rle_dec _ _); lra.
Qed.

Lemma magnitude_monotone (x y : R) :
  0 <= x -> x <= y ->
  0 <= (if Rle_dec (10 ^ 21) x then x else IZR (Zfloor (x * 100 + / 2)) / 100)
    <= (if Rle_dec (10 ^ 21) y then y else IZR (Zfloor (y * 100 + / 2)) / 100).
Proof.
  intros H0 H.
  assert (P : 0 <= IZR (Zfloor (x * 100 + / 2))).
  { apply IZR_le, Zfloor_above. lra. }
  destruct (Rle_dec (10 ^ 21) x) as [Bx|Sx], (Rle_dec (10 ^ 21) y) as [By|Sy];
    try lra.
  - split; [lra|].
    assert (L : (Zfloor (x * 100 + / 2) <= 10 ^ 23)%Z).
    { apply Zfloor_below.
      replace (IZR (10 ^ 23)) with (10 ^ 21 * 100) by (simpl; lra). lra. }
    apply IZR_le in L.
    replace (IZR (10 ^ 23)) with (10 ^ 21 * 100) in L by (simpl; lra). lra.
  - split; [lra|].
    assert (L : (Zfloor (x * 100 + / 2) <= Zfloor (y * 100 + / 2))%Z)
      by (apply Zfloor_monotone; lra).
    apply IZR_le in L. lra.
Qed.

(** [toFixed(2)] never reverses the order of two numbers. *)
Lemma toFixed2_monotone (x y : R) : x <= y -> toFixed2 x <= toFixed2 y.
Proof.
  intros H.
  destruct (Rlt_dec x 0) as [Nx|Px], (Rlt_dec y 0) as [Ny|Py].
  - rewrite (toFixed2_negative x Nx), (toFixed2_negative y Ny).
    pose proof (magnitude_monotone (- y) (- x) ltac:(lra) ltac:(lra)). lra.
  - rewrite (toFixed2_negative x Nx), (toFixed2_nonneg y ltac:(lra)).
    pose proof (magnitude_monotone (- x) (- x) ltac:(lra) ltac:(lra)).
    pose proof (magnitude_monotone y y ltac:(lra) ltac:(lra)). lra.
  - lra.
  - rewrite (toFixed2_nonneg x ltac:(lra)), (toFixed2_nonneg y ltac:(lra)).
    pose proof (magnitude_monotone x y ltac:(lra) ltac:(lra)). lra.
Qed.

(** The density that either file keeps for a density given in the options
    and other than 0. *)
Lemma given_density (options : Options) (d : R) :
  opt_density options = Some d -> d <> 0 ->
  threshold (plugin_baked options) = toFixed2 (1 - d)
  /\ threshold (layer_baked options) = toFixed2 (1 - d).
Proof.
  intros H Hd.
  unfold plugin_baked, layer_baked, StarsPlugin.constructor, StarsLayer.createStarsLayer,
    StarsPlugin.fragmentSource, StarsLayer.fragmentSource;
    cbn [StarsPlugin.density StarsLayer.density threshold].
  rewrite H, (or_else_nonzero d 0.15 Hd). split; reflexivity.
Qed.

Lemma kept_density_bound (options : Options) (d1 d2 : R) :
  opt_density options = Some d2 -> d1 <> 0 -> d1 <= d2 ->
  threshold (plugin_baked options) <= toFixed2 (1 - d1)
  /\ threshold (layer_baked options) <= toFixed2 (1 - d1).
Proof.
  intros H H1 Hle.
  destruct (Req_dec_T d2 0) as [Z|NZ].
  - unfold plugin_baked, layer_baked, StarsPlugin.constructor, StarsLayer.createStarsLayer,
      StarsPlugin.fragmentSource, StarsLayer.fragmentSource;
      cbn [StarsPlugin.density StarsLayer.density threshold].
    rewrite H, Z, or_else_zero.
    pose proof (toFixed2_monotone (1 - 0.15) (1 - d1) ltac:(lra)). lra.
  - destruct (given_density options d2 H NZ) as [-> ->].
    pose proof (toFixed2_monotone (1 - d2) (1 - d1) ltac:(lra)). lra.
Qed.

Lemma present_above (b1 b2 : baked) (i lng lat : R) :
  threshold b2 <= threshold b1 ->
  cell (star_field b1 i lng lat) <> None -> cell (star_field b2 i lng lat) <> None.
Proof.
  intros H C. apply star_present_iff. apply star_present_iff in C.
  unfold star_field in *; cbn [gridPos] in *. lra.
Qed.

(** X5: raising the density never removes a star.  For two options objects
    whose densities are [d1 <= d2], with [d1] other than 0 (a 0 is read as
    the default), every direction whose cell holds a star under the first
    holds one under the second, in both files: the baked literal
    [(1 - density).toFixed(2)] does not grow with the density. *)
Theorem X5_denser_keeps_stars (o1 o2 : Options) (d1 d2 i lng lat : R) :
  opt_density o1 = Some d1 -> opt_density o2 = Some d2 -> d1 <> 0 -> d1 <= d2 ->
  (cell (star_field (plugin_baked o1) i lng lat) <> None ->
   cell (star_field (plugin_baked o2) i lng lat) <> None)
  /\ (cell (star_field (layer_baked o1) i lng lat) <> None ->
      cell (star_field (layer_baked o2) i lng lat) <> None).
Proof.
  intros H1 H2 Hd Hle.
  destruct (given_density o1 d1 H1 Hd) as [P1 L1].
  destruct (kept_density_bound o2 d1 d2 H2 Hd Hle) as [P2 L2].
  split; apply present_above; [rewrite P1 | rewrite L1]; assumption.
Qed.

(** The star of the cell (1, 0), there at the density 0.15, is there at the
    density 0.5. *)
Lemma X5_witness_half_density :
  gridPos (star_field (plugin_baked (Options_ None None (Some 0.5))) 20
             (lng_of (1 + 0.5)) (lat_of (0 + 0.5))) = GLSL.Vec2 1 0
  /\ cell (star_field (plugin_baked (Options_ None None (Some 0.5))) 20
             (lng_of (1 + 0.5)) (lat_of (0 + 0.5))) <> None.
Proof.
  split; [apply (gridPos_direction _ 20 1 0); lra|].
  destruct (X5_denser_keeps_stars (Options_ None None (Some 0.15))
              (Options_ None None (Some 0.5)) 0.15 0.5 20
              (lng_of (1 + 0.5)) (lat_of (0 + 0.5))
              eq_refl eq_refl ltac:(lra) ltac:(lra)) as [P _].
  apply P. apply star_present_iff.
  rewrite (gridPos_direction _ 20 1 0) by lra.
  destruct (given_density (Options_ None None (Some 0.15)) 0.15 eq_refl ltac:(lra)) as [-> _].
  rewrite toFixed2_default. pose proof hash_cell_1_0. unfold Rgt. lra.
Defined.

Lemma never_present (b : baked) (i lng lat : R) :
  1 <= threshold b ->
  cell (star_field b i lng lat) = None /\ stars (star_field b i lng lat) = 0.
Proof.
  intros H.
  assert (N : cell (star_field b i lng lat) = None).
  { destruct (cell (star_field b i lng lat)) eqn:C; [|reflexivity].
    exfalso.
    assert (P : cell (star_field b i lng lat) <> None) by (rewrite C; discriminate).
    apply star_present_iff in P.
    pose proof (cell_hash_bounds (gridPos (star_field b i lng lat)) (Vec2 12.9898 78.233)) as K.
    fold (hash (gridPos (star_field b i lng lat))) in K. lra. }
  split; [exact N | apply star_absent_zero, N].
Qed.

(** X6: a density of at most 0.004 and other than 0 (a negative one
    included) gives a sky without stars.  [(1 - density).toFixed(2)] is then
    at least [1.00], which no hash exceeds: in every direction the cell
    holds no star and the strength is 0, in both files. *)
Theorem X6_tiny_density_no_stars (options : Options) (d i lng lat : R) :
  opt_density options = Some d -> d <> 0 -> d <= 0.004 ->
  (cell (star_field (plugin_baked options) i lng lat) = None
   /\ stars (star_field (plugin_baked options) i lng lat) = 0)
  /\ (cell (star_field (layer_baked options) i lng lat) = None
      /\ stars (star_field (layer_baked options) i lng lat) = 0).
Proof.
  intros H Hd Hs.
  assert (T : 1 <= toFixed2 (1 - d)).
  { rewrite toFixed2_nonneg by lra.
    destruct (Rle_dec _ _) as [B|S]; [lra|].
    assert (L : (100 <= Zfloor ((1 - d) * 100 + / 2))%Z) by (apply Zfloor_above; lra).
    apply IZR_le in L. lra. }
  destruct (given_density options d H Hd) as [P L].
  split; apply never_present; [rewrite P | rewrite L]; exact T.
Qed.

(** The density 0.004, looking at the cell (1, 0). *)
Lemma X6_witness_sparse :
  (cell (star_field (plugin_baked (Options_ None None (Some 0.004))) 20
           (lng_of (1 + 0.5)) (lat_of (0 + 0.5))) = None
   /\ stars (star_field (plugin_baked (Options_ None None (Some 0.004))) 20
               (lng_of (1 + 0.5)) (lat_of (0 + 0.5))) = 0)
  /\ (cell (star_field (layer_baked (Options_ None None (Some 0.004))) 20
              (lng_of (1 + 0.5)) (lat_of (0 + 0.5))) = None
      /\ stars (star_field (layer_baked (Options_ None None (Some 0.004))) 20
                  (lng_of (1 + 0.5)) (lat_of (0 + 0.5))) = 0).
Proof.
  apply (X6_tiny_density_no_stars (Options_ None None (Some 0.004)) 0.004);
    [reflexivity | lra | lra].
Defined.

(** X7: a density of 1.01 or more puts a star in every cell.
    [(1 - density).toFixed(2)] is then negative, and every hash exceeds
    it: in every direction the cell holds a star, in both files. *)
Theorem X7_density_over_one_all_stars (options : Options) (d i lng lat : R) :
  opt_density options = Some d -> 1.01 <= d ->
  cell (star_field (plugin_baked options) i lng lat) <> None
  /\ cell (star_field (layer_baked options) i lng lat) <> None.
Proof.
  intros H Hd.
  assert (T : toFixed2 (1 - d) < 0).
  { rewrite toFixed2_negative by lra.
    destruct (Rle_dec _ _) as [B|S]; [lra|].
    assert (L : (1 <= Zfloor (- (1 - d) * 100 + / 2))%Z) by (apply Zfloor_above; lra).
    apply IZR_le in L. lra. }
  destruct (given_density options d H ltac:(lra)) as [P L].
  assert (N : forall b, threshold b = toFixed2 (1 - d) ->
                cell (star_field b i lng lat) <> None).
  { intros b Hb. apply star_present_iff.
    pose proof (cell_hash_bounds (gridPos (star_field b i lng lat)) (Vec2 12.9898 78.233)) as K.
    fold (hash (gridPos (star_field b i lng lat))) in K. lra. }
  split; apply N; assumption.
Qed.

(** The density 1.5, looking at the cell (1, 0). *)
Lemma X7_witness_crowded :
  cell (star_field (plugin_baked (Options_ None None (Some 1.5))) 20
          (lng_of (1 + 0.5)) (lat_of (0 + 0.5))) <> None
  /\ cell (star_field (layer_baked (Options_ None None (Some 1.5))) 20
             (lng_of (1 + 0.5)) (lat_of (0 + 0.5))) <> None.
Proof.
  apply (X7_density_over_one_all_stars (Options_ None None (Some 1.5)) 1.5);
    [reflexivity | lra].
Defined.

End Density.

(** ** Frames of [_render]

    Which part of the context a step leaves alone, composed along the
    sequence of [_render]. *)

Lemma eqb_succ_self (n : nat) :
  match n with 0%nat => false | S m' => Nat.eqb n m' end = false.
Proof. change (Nat.eqb (S n) n = false). apply Nat.eqb_neq. lia. Qed.

Lemma eqb_self_succ (n : nat) : Nat.eqb n (S n) = false.
Proof. apply Nat.eqb_neq. lia. Qed.

(** Two names that [create*] handed out one after the other differ. *)
Ltac fresh_names := rewrite ?eqb_succ_self, ?eqb_self_succ.

(** Runs the statement that is left, to the end. *)
Ltac finish_run rw :=
  match goal with
  | |- ?m ?s = _ => let E := fresh "E" in run_eq m s rw E; exact E
  end.

Section Frames.
Import JS Host StarsPlugin.

Ltac gl_keeps_tac :=
  intros ?g; cbv beta iota delta
    [GL.getParameter GL.isEnabled GL.useProgram GL.getUniformLocation GL.uniform
     GL.getAttribLocation GL.bindBuffer GL.enableVertexAttribArray
     GL.disableVertexAttribArray GL.vertexAttribPointer
     GL.depthFunc GL.depthMask GL.set_cap GL.enable GL.disable GL.blendFunc
     GL.deleteProgram GL.deleteShader GL.deleteBuffer ret];
  repeat match goal with
         | |- context [if ?c then _ else _] => destruct c
         | |- context [match ?o with Some _ => _ | None => _ end] => destruct o
         | |- context [match ?o with (_, _) => _ end] => destruct o
         end;
  eexists; eexists; (split; [reflexivity | reflexivity]).

Lemma only_gl (s : st) : St (this s) (with_gl (gl (env s)) (env s)) = s.
Proof. destruct s as [th [g c l tr gm r]]. reflexivity. Qed.

Lemma keeps_ret {X A} (f : GL.state -> X) (a : A) : keeps f (ret a).
Proof. intros s. exists a, (gl (env s)). rewrite only_gl. split; reflexivity. Qed.

Lemma keeps_gets {X A} (f : GL.state -> X) (p : st -> A) : keeps f (gets p).
Proof. intros s. exists (p s), (gl (env s)). rewrite only_gl. split; reflexivity. Qed.

Lemma keeps_bind {X A B} (f : GL.state -> X) (m : M st A) (k : A -> M st B) :
  keeps f m -> (forall a, keeps f (k a)) -> keeps f (bind m k).
Proof.
  intros Hm Hk s. destruct (Hm s) as (a & g1 & E1 & D1).
  destruct (Hk a (St (this s) (with_gl g1 (env s)))) as (b & g2 & E2 & D2).
  exists b, g2. unfold bind. rewrite E1, E2. cbn in D2 |- *.
  split; [reflexivity | congruence].
Qed.

Lemma keeps_if {X A} (f : GL.state -> X) (c : bool) (m1 m2 : M st A) :
  keeps f m1 -> keeps f m2 -> keeps f (if c then m1 else m2).
Proof. destruct c; auto. Qed.

Lemma keeps_gl {X A} (f : GL.state -> X) (m : M GL.state A) :
  gl_keeps f m -> keeps f (gl_ m).
Proof.
  intros H s. destruct (H (gl (env s))) as (a & g' & E & D).
  exists a, g'. unfold gl_, lift. rewrite E. split; [reflexivity | exact D].
Qed.

Lemma keeps_post {X A} (f : GL.state -> X) (m : M st A) (s : st) (P : st -> Prop) :
  keeps f m ->
  (forall g', f g' = f (gl (env s)) -> P (St (this s) (with_gl g' (env s)))) ->
  post P (m s).
Proof.
  intros H HP. destruct (H s) as (a & g' & E & D). rewrite E. cbn. auto.
Qed.

Lemma keeps_then {X A B} (f : GL.state -> X) (m : M st A) (k : A -> M st B)
    (s : st) (P : st -> Prop) :
  keeps f m ->
  (forall a g', f g' = f (gl (env s)) ->
                post P (k a (St (this s) (with_gl g' (env s))))) ->
  post P (bind m k s).
Proof.
  intros H HP. destruct (H s) as (a & g' & E & D).
  unfold bind. rewrite E. auto.
Qed.

Ltac keeps_tac :=
  repeat lazymatch goal with
    | |- keeps _ (bind _ _) => apply keeps_bind; [|intros ?]
    | |- keeps _ (if _ then _ else _) => apply keeps_if
    | |- keeps _ (ret _) => apply keeps_ret
    | |- keeps _ (gets _) => apply keeps_gets
    | |- keeps _ (gl_ _) => apply keeps_gl; gl_keeps_tac
    end.

Lemma drawElements_once (mode count type offset : Z) (g : GL.state) :
  exists g', GL.drawElements mode count type offset g = Ok tt g'
             /\ at_most_one_more (GL.draws g') (GL.draws g).
Proof.
  unfold GL.drawElements.
  destruct (GL.current_program (GL.binds g)), (GL.element_array_buffer (GL.binds g));
    eexists; (split; [reflexivity|]); cbn; unfold at_most_one_more; eauto.
Qed.

Lemma gl_drawElements_once (mode count type offset : Z) (s : st) :
  exists g', gl_ (GL.drawElements mode count type offset) s
             = Ok tt (St (this s) (with_gl g' (env s)))
             /\ at_most_one_more (GL.draws g') (plugin_draws s).
Proof.
  destruct (drawElements_once mode count type offset (gl (env s))) as (g' & E & D).
  exists g'. unfold gl_, lift. rewrite E. split; [reflexivity | exact D].
Qed.

(** X8: [_render] never throws, on a map whose transform has the members
    it reads.  In every state of the plugin, of the context and of the page
    (attached or not, program linked or not, buffers there or not) it
    returns; it changes nothing but the GL context (the fields of the
    plugin, the console, the style and the repaint requests are as
    before); and it executes at most one draw. *)
Theorem X8_render_never_throws (s : st) :
  exists g' : GL.state,
    _render s = Ok tt (St (this s) (with_gl g' (env s)))
    /\ at_most_one_more (GL.draws g') (plugin_draws s).
Proof.
  destruct (map (this s)) as [m|] eqn:Em;
    [| exists (gl (env s)); rewrite only_gl;
       split; [apply _render_guard; left; exact Em | left; reflexivity]].
  destruct (program (this s)) as [p|] eqn:Ep;
    [| exists (gl (env s)); rewrite only_gl;
       split; [apply _render_guard; right; exact Ep | left; reflexivity]].
  unfold _render.
  rewrite (bind_returns (gets this) _ s s (this s) eq_refl).
  rewrite Em, Ep. cbn [is_null orb].
  rewrite (bind_returns (gets (fun s0 => transform (env s0))) _ s s (transform (env s)) eq_refl).
  cbv zeta.
  destruct (Req_dec_T _ _) as [_|_];
    [exists (gl (env s)); rewrite only_gl; split; [reflexivity | left; reflexivity]|].
  destruct s as [th [g c l tr gm r]].
  cbn [this env gl with_gl console layers transform glmatrix repaints] in *.
  unfold plugin_draws; cbn [env gl].
  match goal with
  | |- exists g', ?M _ = _ /\ _ =>
      assert (H : forall g0, GL.draws g0 = GL.draws g ->
                    post (fun s' => exists g', s' = St th (World g' c l tr gm r)
                                    /\ at_most_one_more (GL.draws g') (GL.draws g))
                         (M (St th (World g0 c l tr gm r))))
  end.
  { intros g0 Inv.
    repeat (apply (keeps_then GL.draws);
              [ first [ apply keeps_gets | apply keeps_gl; gl_keeps_tac ]
              | let D := fresh "D" in
                intros ? ? D;
                cbn [this env gl with_gl console layers transform glmatrix repaints] in D |- *;
                pose proof (eq_trans D Inv) as D'; clear D Inv; rename D' into Inv ]).
    match goal with
    | |- post _ (bind (gl_ (GL.drawElements ?a ?b ?c ?d)) ?k ?s1) =>
        destruct (gl_drawElements_once a b c d s1) as (gd & E2 & D2);
        rewrite (bind_returns _ k s1 _ tt E2)
    end.
    unfold plugin_draws in D2.
    cbn [this env gl with_gl console layers transform glmatrix repaints] in D2 |- *.
    apply (keeps_post GL.draws); [keeps_tac|].
    intros gf D'.
    cbn [this env gl with_gl console layers transform glmatrix repaints] in D' |- *.
    exists gf. split; [reflexivity|]. rewrite D'. rewrite Inv in D2. exact D2. }
  specialize (H g eq_refl).
  destruct (post_returns _ _ H) as ([] & s' & E & g' & -> & D).
  exists g'. split; assumption.
Qed.

(** What a drawing [_render] leaves behind: the draw, the uniforms and the
    bindings. *)
Lemma _render_effects (s : st) (p : GL.handle) :
  plugin_ready s -> plugin_transition s <> 0 -> program (this s) = Some p ->
  post (fun s' =>
          plugin_draws s'
          = GL.Draw p 6 (star_pipeline (GL.depth_test (plugin_pipe s))) :: plugin_draws s
          /\ (uniform_value p "u_inv_proj_matrix" (gl (env s'))
              = Some (to_array (inverseProjectionMatrix (transform (env s))))
              /\ uniform_value p "u_stars_intensity" (gl (env s'))
                 = Some [intensity (this s)]
              /\ uniform_value p "u_globe_center" (gl (env s'))
                 = Some (globeCenter (transform (env s)))
              /\ uniform_value p "u_camera_angles" (gl (env s'))
                 = Some (cameraAngles (transform (env s)))
              /\ uniform_value p "u_globe_position" (gl (env s'))
                 = uniform_value p "u_globe_position" (gl (env s))
              /\ uniform_value p "u_globe_radius" (gl (env s'))
                 = uniform_value p "u_globe_radius" (gl (env s)))
          /\ (GL.array_buffer (GL.binds (gl (env s'))) = None
              /\ GL.element_array_buffer (GL.binds (gl (env s'))) = None
              /\ ~ In 0%Z (GL.enabled_attribs (GL.binds (gl (env s'))))))
       (_render s).
Proof.
  intros Hr Hpt Hp0.
  destruct (ready_program s Hr) as (m & p' & ib & att & unis & Hm & Hp & Hib & Hl).
  rewrite Hp0 in Hp. injection Hp as <-.
  destruct s as [[i d m0 p0 vb ib0 vs fs cl]
                   [[drv [next shaders programs buffers] [cp ab eb attrs] pipe errors draws]
                      console layers tr glm rep]].
  cbn in Hm, Hp0, Hib, Hl. subst m0 p0 ib0.
  unfold plugin_transition, getProjectionData in Hpt; cbn in Hpt.
  unfold plugin_draws, plugin_pipe; cbn [env gl this GL.draws GL.pipe transform glmatrix intensity].
  unfold _render.
  step. cbn [this map program is_null orb].
  step. unfold getProjectionData.
  destruct (Req_dec_T _ _) as [E|_]; [contradiction|].
  destruct vb; repeat step_with ltac:(rewrite ?Hl).
  all: match goal with
       | |- post ?P (?M (St ?th (World ?g1 ?c ?l ?t ?gm ?r))) =>
           cut (forall g0,
                   (GL.draws g0, GL.objs g0, GL.binds g0)
                   = (GL.draws g1, GL.objs g1, GL.binds g1) ->
                   post P (M (St th (World g0 c l t gm r))));
           [ intros Hcut; exact (Hcut g1 eq_refl) | intros g0 Inv ]
       end.
  all: repeat (apply (keeps_then (fun g => (GL.draws g, GL.objs g, GL.binds g)));
              [ solve [keeps_tac]
              | let F := fresh "F" in
                intros ? ? F; unfold with_gl in F |- *;
                cbn [this env gl Host.console Host.layers transform glmatrix repaints]
                  in F |- *;
                pose proof (eq_trans F Inv) as F'; clear F Inv; rename F' into Inv ]).
  all: match goal with
       | |- post _ (_ (St _ (World ?ga _ _ _ _ _))) =>
           destruct ga as [drv' o' b' pp' e' dr']
       end.
  all: cbn in Inv; injection Inv as -> -> ->.
  all: repeat step.
  all: (apply (keeps_post (fun g => (GL.draws g, GL.objs g,
                                     GL.array_buffer (GL.binds g),
                                     GL.element_array_buffer (GL.binds g),
                                     GL.enabled_attribs (GL.binds g))));
        [ keeps_tac | ]).
  all: intros gf F; unfold with_gl; cbn in F.
  all: destruct gf as [drvf obf bf ppf ef drf]; cbn in F |- *.
  all: injection F as -> -> Fa Fb Fc.
  all: rewrite Fa, Fb, Fc.
  all: unfold uniform_value, GL.live_program; cbn.
  all: rewrite Nat.eqb_refl; cbn.
  all: unfold to_array; cbn.
  all: repeat split; try reflexivity.
  all: try (rewrite Hl; reflexivity).
  all: intros K; apply filter_In in K; destruct K as [_ K]; discriminate.
Qed.

(** The plugin with the default options, just added to the page. *)
Lemma added_plugin_state (t : R) :
  program (this (added_plugin accepting t)) = Some 3%nat
  /\ plugin_transition (added_plugin accepting t) = t
  /\ plugin_draws (added_plugin accepting t) = []
  /\ intensity (this (added_plugin accepting t)) = 20.0.
Proof.
  unfold added_plugin. run_onAdd H. clear H.
  repeat split.
Qed.

(** X9: when the gate is open and the resources are valid, the one draw of
    [_render] runs the plugin's own program over 6 indices, with the depth
    function [ALWAYS], depth writes off, blending on and the blend function
    [(SRC_ALPHA, ONE_MINUS_SRC_ALPHA)], whatever the pipeline state was
    before the call; the depth test itself is left as the map had it. *)
Theorem X9_render_draw_state (s : st) (p : GL.handle) :
  plugin_ready s -> plugin_transition s > 0 -> program (this s) = Some p ->
  exists s' : st,
    _render s = Ok tt s'
    /\ plugin_draws s'
       = GL.Draw p 6 (star_pipeline (GL.depth_test (plugin_pipe s))) :: plugin_draws s.
Proof.
  intros Hr Hpt Hp.
  assert (Hne : plugin_transition s <> 0) by lra.
  destruct (post_returns _ _ (_render_effects s p Hr Hne Hp)) as ([] & s' & E & D & _).
  exists s'. split; [exact E | exact D].
Qed.

(** The first frame of the plugin just added, on the globe. *)
Lemma X9_witness_first_frame :
  exists s' : st,
    _render (added_plugin accepting 1) = Ok tt s'
    /\ plugin_draws s'
       = GL.Draw 3%nat 6
           (star_pipeline (GL.depth_test (plugin_pipe (added_plugin accepting 1))))
         :: plugin_draws (added_plugin accepting 1).
Proof.
  destruct (added_plugin_state 1) as (Hp & Ht & _).
  apply X9_render_draw_state; [apply added_plugin_ready | rewrite Ht; lra | exact Hp].
Defined.

(** X10: a drawing [_render] uploads the four uniforms that the shaders
    read, from the transform and the intensity as they are at that call:
    the inverse projection matrix, [this.intensity], the globe centre in
    radians and the camera angles; after the call these are the values of
    the program's uniforms.  The two other uploads reach no uniform:
    [u_globe_position] and [u_globe_radius] are declared but never read by
    the fragment [main], so they are not active, their locations are
    [null], and the globe position and [_getGlobeRadius(worldSize,
    center.lat)] that [_render] computes for them are dropped. *)
Theorem X10_render_uploads_uniforms (s : st) (p : GL.handle) :
  plugin_ready s -> plugin_transition s > 0 -> program (this s) = Some p ->
  exists s' : st,
    _render s = Ok tt s'
    /\ uniform_value p "u_inv_proj_matrix" (gl (env s'))
       = Some (to_array (inverseProjectionMatrix (transform (env s))))
    /\ uniform_value p "u_stars_intensity" (gl (env s')) = Some [intensity (this s)]
    /\ uniform_value p "u_globe_center" (gl (env s'))
       = Some (globeCenter (transform (env s)))
    /\ uniform_value p "u_camera_angles" (gl (env s'))
       = Some (cameraAngles (transform (env s)))
    /\ uniform_value p "u_globe_position" (gl (env s'))
       = uniform_value p "u_globe_position" (gl (env s))
    /\ uniform_value p "u_globe_radius" (gl (env s'))
       = uniform_value p "u_globe_radius" (gl (env s)).
Proof.
  intros Hr Hpt Hp.
  assert (Hne : plugin_transition s <> 0) by lra.
  destruct (post_returns _ _ (_render_effects s p Hr Hne Hp)) as ([] & s' & E & _ & U & _).
  exists s'. split; [exact E | exact U].
Qed.

(** The first frame of the plugin just added: the four active uniforms are
    set, the two others have no value before the frame and none after. *)
Lemma X10_witness_first_frame :
  uniform_value 3%nat "u_globe_position" (gl (env (added_plugin accepting 1))) = None
  /\ uniform_value 3%nat "u_globe_radius" (gl (env (added_plugin accepting 1))) = None
  /\ exists s' : st,
    _render (added_plugin accepting 1) = Ok tt s'
    /\ uniform_value 3%nat "u_inv_proj_matrix" (gl (env s'))
       = Some (to_array (inverseProjectionMatrix (transform (env (added_plugin accepting 1)))))
    /\ uniform_value 3%nat "u_stars_intensity" (gl (env s'))
       = Some [intensity (this (added_plugin accepting 1))]
    /\ uniform_value 3%nat "u_globe_center" (gl (env s'))
       = Some (globeCenter (transform (env (added_plugin accepting 1))))
    /\ uniform_value 3%nat "u_camera_angles" (gl (env s'))
       = Some (cameraAngles (transform (env (added_plugin accepting 1))))
    /\ uniform_value 3%nat "u_globe_position" (gl (env s'))
       = uniform_value 3%nat "u_globe_position" (gl (env (added_plugin accepting 1)))
    /\ uniform_value 3%nat "u_globe_radius" (gl (env s'))
       = uniform_value 3%nat "u_globe_radius" (gl (env (added_plugin accepting 1))).
Proof.
  split; [unfold added_plugin; run_onAdd H; reflexivity|].
  split; [unfold added_plugin; run_onAdd H; reflexivity|].
  destruct (added_plugin_state 1) as (Hp & Ht & _).
  apply X10_render_uploads_uniforms; [apply added_plugin_ready | rewrite Ht; lra | exact Hp].
Defined.

(** X11: a drawing [_render] does not put the buffer bindings back: after
    the call [ARRAY_BUFFER] and [ELEMENT_ARRAY_BUFFER] are bound to null
    and the vertex attribute 0 is disabled, whatever the map had bound or
    enabled before. *)
Theorem X11_render_unbinds_buffers (s : st) :
  plugin_ready s -> plugin_transition s > 0 ->
  exists s' : st,
    _render s = Ok tt s'
    /\ GL.array_buffer (GL.binds (gl (env s'))) = None
    /\ GL.element_array_buffer (GL.binds (gl (env s'))) = None
    /\ ~ In 0%Z (GL.enabled_attribs (GL.binds (gl (env s')))).
Proof.
  intros Hr Hpt.
  assert (Hne : plugin_transition s <> 0) by lra.
  destruct (ready_program s Hr) as (m & p & ib & att & unis & Hm & Hp & Hib & Hl).
  destruct (post_returns _ _ (_render_effects s p Hr Hne Hp)) as ([] & s' & E & _ & _ & B).
  exists s'. split; [exact E | exact B].
Qed.

(** The plugin just added: [onAdd] had left its two buffers bound. *)
Lemma X11_witness_first_frame :
  GL.array_buffer (GL.binds (gl (env (added_plugin accepting 1)))) = Some 4%nat
  /\ exists s' : st,
      _render (added_plugin accepting 1) = Ok tt s'
      /\ GL.array_buffer (GL.binds (gl (env s'))) = None
      /\ GL.element_array_buffer (GL.binds (gl (env s'))) = None
      /\ ~ In 0%Z (GL.enabled_attribs (GL.binds (gl (env s')))).
Proof.
  split.
  - unfold added_plugin. run_onAdd H. reflexivity.
  - destruct (added_plugin_state 1) as (_ & Ht & _).
    apply X11_render_unbinds_buffers; [apply added_plugin_ready | rewrite Ht; lra].
Defined.

(** X17: [setIntensity] on an attached plugin stores the value and asks the
    map for one repaint; the next drawing [_render] uploads that value as
    [u_stars_intensity].  On a plugin that is not attached it stores the
    value and asks for nothing. *)
Theorem X17_setIntensity_applies (v : R) :
  (forall (s : st) (p : GL.handle),
      plugin_ready s -> plugin_transition s > 0 -> program (this s) = Some p ->
      exists s1 s2 : st,
        setIntensity v s = Ok tt s1
        /\ repaints (env s1) = S (repaints (env s))
        /\ _render s1 = Ok tt s2
        /\ uniform_value p "u_stars_intensity" (gl (env s2)) = Some [v])
  /\ (forall s : st,
      map (this s) = None ->
      exists s1 : st,
        setIntensity v s = Ok tt s1
        /\ intensity (this s1) = v /\ env s1 = env s).
Proof.
  split.
  - intros s p Hr Hpt Hp.
    assert (Hne : plugin_transition s <> 0) by lra.
    destruct Hr as [Hm Hr].
    destruct s as [[i d m0 p0 vb ib0 vs fs cl] [g c l tr gm r]].
    cbn [this map program] in Hm, Hp.
    destruct m0 as [m|]; [|contradiction].
    assert (E1 : setIntensity v (St (Build i d (Some m) p0 vb ib0 vs fs cl) (World g c l tr gm r))
                 = Ok tt (St (Build v d (Some m) p0 vb ib0 vs fs cl) (World g c l tr gm (S r)))).
    { unfold setIntensity. repeat step.
      match goal with |- ?m ?s = _ => norm (m s) end. reflexivity. }
    set (s1 := St (Build v d (Some m) p0 vb ib0 vs fs cl) (World g c l tr gm (S r))) in *.
    assert (Hr1 : plugin_ready s1) by (split; [discriminate | exact Hr]).
    destruct (post_returns _ _ (_render_effects s1 p Hr1 Hne Hp))
      as ([] & s2 & E2 & _ & (_ & U & _) & _).
    exists s1, s2. split; [exact E1|]. split; [reflexivity|]. split; [exact E2 | exact U].
  - intros s Hm.
    destruct s as [[i d m0 p0 vb ib0 vs fs cl] e].
    cbn [this map] in Hm. subst m0.
    eexists. split.
    + unfold setIntensity. repeat step.
      match goal with |- ?m ?s = _ => norm (m s) end. reflexivity.
    + split; reflexivity.
Qed.

(** The plugin just added is told the intensity 5, then draws. *)
Lemma X17_witness_dimmed :
  exists s1 s2 : st,
    setIntensity 5 (added_plugin accepting 1) = Ok tt s1
    /\ repaints (env s1) = S (repaints (env (added_plugin accepting 1)))
    /\ _render s1 = Ok tt s2
    /\ uniform_value 3%nat "u_stars_intensity" (gl (env s2)) = Some [5].
Proof.
  destruct (added_plugin_state 1) as (Hp & Ht & _).
  destruct (X17_setIntensity_applies 5) as [H _].
  apply H; [apply added_plugin_ready | rewrite Ht; lra | exact Hp].
Defined.

End Frames.

(** ** Attaching and detaching the plugin, in any state of the context *)

Section Attach.
Import JS Host StarsPlugin.

Lemma existsb_absent (id : string) (l : list string) :
  ~ In id l -> existsb (String.eqb id) l = false.
Proof.
  intros H. induction l as [|k l IH]; [reflexivity|].
  cbn. destruct (String.eqb_spec id k) as [->|N].
  - exfalso. apply H. left. reflexivity.
  - apply IH. intros K. apply H. right. exact K.
Qed.

(** [addLayer(layer, firstLayerId)] puts the layer in front of the style. *)
Lemma addLayer_in_front (id : string) (e : world) :
  ~ In id (layers e) ->
  addLayer id (match layers e with l :: _ => Some l | [] => None end) e
  = with_layers (id :: layers e) e.
Proof.
  intros H. unfold addLayer. rewrite (existsb_absent _ _ H).
  destruct (layers e) as [|l ls]; [reflexivity|].
  cbn [insert_before]. now rewrite String.eqb_refl.
Qed.

Lemma removeLayer_added (id : string) (l : list string) :
  ~ In id l -> filter (fun k => negb (String.eqb k id)) (id :: l) = l.
Proof.
  intros H. cbn. rewrite String.eqb_refl. cbn.
  induction l as [|k l IH]; [reflexivity|].
  cbn. destruct (String.eqb_spec k id) as [->|N].
  - exfalso. apply H. left. reflexivity.
  - cbn. f_equal. apply IH. intros K. apply H. right. exact K.
Qed.

Lemma host_addLayer_in_front (id : string) (th : t) (g : GL.state)
    (c ls : list string) (tr : Transform) (gm : bool) (r : nat) :
  ~ In id ls ->
  host (addLayer id (match ls with l :: _ => Some l | [] => None end))
       (St th (World g c ls tr gm r))
  = Ok tt (St th (World g c (id :: ls) tr gm r)).
Proof.
  intros H. unfold host, modify. cbn [env this].
  pose proof (addLayer_in_front id (World g c ls tr gm r) H) as E.
  cbn [layers] in E. rewrite E. reflexivity.
Qed.

Lemma host_removeLayer_added (id : string) (th : t) (g : GL.state)
    (c ls : list string) (tr : Transform) (gm : bool) (r : nat) :
  ~ In id ls ->
  host (removeLayer id) (St th (World g c (id :: ls) tr gm r))
  = Ok tt (St th (World g c ls tr gm r)).
Proof.
  intros H. unfold host, modify, removeLayer, with_layers. cbn [env this layers].
  rewrite removeLayer_added by exact H. reflexivity.
Qed.

(** Runs [onAdd] on a state given by its fields, with what the
    implementation does to the two sources ([Hv], [Hf], [Hl]) and a style
    that does not hold the layer yet ([Hid]). *)
Ltac run_plugin_onAdd Hv Hf Hl Hid :=
  unfold onAdd;
  repeat step_with ltac:(rewrite ?Hv, ?Hf, ?Hl,
                           ?(host_addLayer_in_front _ _ _ _ _ _ _ _ Hid);
                         fresh_names);
  reflexivity.

Ltac run_plugin_onRemove Hid :=
  unfold onRemove;
  repeat step_with ltac:(rewrite ?(host_removeLayer_added _ _ _ _ _ _ _ _ Hid);
                         fresh_names);
  match goal with |- ?m ?s = _ => norm (m s) end;
  reflexivity.

Ltac open_state s :=
  destruct s as [[i d m0 p0 vb0 ib0 vs0 fs0 cl0]
                   [[drv [next shaders programs buffers] [cp ab eb attrs] pipe errors draws]
                      console layers tr glm rep]];
  cbn [GL.drv gl env this density Host.layers] in *.


Lemma new_plugin_accepted (t : R) :
  plugin_sources_accepted (new_plugin accepting t)
  /\ ~ In layer_id (layers (env (new_plugin accepting t))).
Proof.
  split; [repeat split|].
  cbn. intros [H|[]]. discriminate H.
Qed.


(** X14: [onRemove] after a successful [onAdd] releases what [onAdd] made:
    the program, the two shaders and the two buffers are deleted, the layer
    is out of the style, whose layers are those before [onAdd], and the
    references to the map and to the program are null. *)
Theorem X14_onRemove_releases (s : st) :
  plugin_sources_accepted s -> ~ In layer_id (layers (env s)) ->
  exists (s1 s2 : st) (p vs fs vb ib : GL.handle),
    onAdd the_map s = Ok tt s1
    /\ onRemove s1 = Ok tt s2
    /\ (program (this s1) = Some p /\ vertexShader (this s1) = Some vs
        /\ fragmentShader (this s1) = Some fs /\ vertexBuffer (this s1) = Some vb
        /\ indexBuffer (this s1) = Some ib)
    /\ (GL.live_program p (gl (env s2)) = None
        /\ GL.live_shader vs (gl (env s2)) = None
        /\ GL.live_shader fs (gl (env s2)) = None
        /\ GL.live_buffer vb (gl (env s2)) = None
        /\ GL.live_buffer ib (gl (env s2)) = None)
    /\ layers (env s2) = layers (env s)
    /\ map (this s2) = None /\ program (this s2) = None.
Proof.
  intros (Hv & Hf & Hl) Hid. open_state s.
  do 7 eexists. split; [run_plugin_onAdd Hv Hf Hl Hid|].
  split; [run_plugin_onRemove Hid|].
  split; [repeat split|].
  split.
  { unfold GL.live_program, GL.live_shader, GL.live_buffer. cbn.
    fresh_names. rewrite !Nat.eqb_refl. cbn. repeat split. }
  repeat split.
Qed.

Lemma X14_witness_page :
  exists (s1 s2 : st) (p vs fs vb ib : GL.handle),
    onAdd the_map (new_plugin accepting 1) = Ok tt s1
    /\ onRemove s1 = Ok tt s2
    /\ (program (this s1) = Some p /\ vertexShader (this s1) = Some vs
        /\ fragmentShader (this s1) = Some fs /\ vertexBuffer (this s1) = Some vb
        /\ indexBuffer (this s1) = Some ib)
    /\ (GL.live_program p (gl (env s2)) = None
        /\ GL.live_shader vs (gl (env s2)) = None
        /\ GL.live_shader fs (gl (env s2)) = None
        /\ GL.live_buffer vb (gl (env s2)) = None
        /\ GL.live_buffer ib (gl (env s2)) = None)
    /\ layers (env s2) = layers (env (new_plugin accepting 1))
    /\ map (this s2) = None /\ program (this s2) = None.
Proof.
  destruct (new_plugin_accepted 1) as [Ha Hid].
  exact (X14_onRemove_releases (new_plugin accepting 1) Ha Hid).
Defined.

(** X15: when the two sources compile but do not link, [onAdd] still
    returns, logs the link error, leaves [this.program] null, and adds the
    layer; [onRemove] then takes the layer out but deletes nothing, because
    all five deletes are under [if (this.program && this.map)]: the two
    shaders and the two buffers that [onAdd] created stay alive in the
    context. *)
Theorem X15_onRemove_after_link_failure (s : st) :
  GL.compiles (GL.drv (gl (env s))) GL.vertexSource = true ->
  GL.compiles (GL.drv (gl (env s)))
    (GL.fragmentSource (fragmentSource (density (this s)))) = true ->
  GL.links (GL.drv (gl (env s))) GL.vertexSource
    (GL.fragmentSource (fragmentSource (density (this s)))) = false ->
  ~ In layer_id (layers (env s)) ->
  exists (s1 s2 : st) (vs fs vb ib : GL.handle),
    onAdd the_map s = Ok tt s1
    /\ onRemove s1 = Ok tt s2
    /\ (program (this s1) = None /\ vertexShader (this s1) = Some vs
        /\ fragmentShader (this s1) = Some fs /\ vertexBuffer (this s1) = Some vb
        /\ indexBuffer (this s1) = Some ib)
    /\ console (env s1) = "Program linking error: program info log"%string :: console (env s)
    /\ layers (env s1) = layer_id :: layers (env s)
    /\ layers (env s2) = layers (env s)
    /\ GL.objs (gl (env s2)) = GL.objs (gl (env s1))
    /\ (GL.live_shader vs (gl (env s2)) <> None
        /\ GL.live_shader fs (gl (env s2)) <> None
        /\ GL.live_buffer vb (gl (env s2)) <> None
        /\ GL.live_buffer ib (gl (env s2)) <> None).
Proof.
  intros Hv Hf Hl Hid. open_state s.
  do 6 eexists. split; [run_plugin_onAdd Hv Hf Hl Hid|].
  split; [run_plugin_onRemove Hid|].
  split; [repeat split|].
  split; [reflexivity|]. split; [reflexivity|]. split; [reflexivity|].
  split; [reflexivity|].
  unfold GL.live_shader, GL.live_buffer. cbn.
  fresh_names. rewrite !Nat.eqb_refl. cbn. repeat split; discriminate.
Qed.

(** The plugin with the default options, on an implementation that does not
    link. *)
Lemma X15_witness_not_linking :
  exists (s1 s2 : st) (vs fs vb ib : GL.handle),
    onAdd the_map (new_plugin not_linking 1) = Ok tt s1
    /\ onRemove s1 = Ok tt s2
    /\ (program (this s1) = None /\ vertexShader (this s1) = Some vs
        /\ fragmentShader (this s1) = Some fs /\ vertexBuffer (this s1) = Some vb
        /\ indexBuffer (this s1) = Some ib)
    /\ console (env s1)
       = "Program linking error: program info log"%string
         :: console (env (new_plugin not_linking 1))
    /\ layers (env s1) = layer_id :: layers (env (new_plugin not_linking 1))
    /\ layers (env s2) = layers (env (new_plugin not_linking 1))
    /\ GL.objs (gl (env s2)) = GL.objs (gl (env s1))
    /\ (GL.live_shader vs (gl (env s2)) <> None
        /\ GL.live_shader fs (gl (env s2)) <> None
        /\ GL.live_buffer vb (gl (env s2)) <> None
        /\ GL.live_buffer ib (gl (env s2)) <> None).
Proof.
  apply (X15_onRemove_after_link_failure (new_plugin not_linking 1));
    [reflexivity | reflexivity | reflexivity |].
  cbn. intros [H|[]]. discriminate H.
Defined.

(** [onRemove] on a plugin whose map and program are null changes
    nothing. *)
Lemma onRemove_detached (s : st) :
  map (this s) = None -> program (this s) = None -> onRemove s = Ok tt s.
Proof.
  intros Hm Hp.
  destruct s as [[i d m0 p0 vb0 ib0 vs0 fs0 cl0] e].
  cbn in Hm, Hp. subst m0 p0.
  unfold onRemove. repeat step.
  match goal with |- ?m ?s = _ => norm (m s) end.
  reflexivity.
Qed.

(** X16: [onRemove] may be called again.  In every state it returns, and a
    second call right after it returns too and changes nothing: no layer is
    removed and no object is deleted twice. *)
Theorem X16_onRemove_twice (s : st) :
  exists s1 : st, onRemove s = Ok tt s1 /\ onRemove s1 = Ok tt s1.
Proof.
  pose proof (onRemove_clears s) as H.
  destruct (onRemove s) as [[] s1|e s1]; cbn in H; [|contradiction].
  exists s1. split; [reflexivity|].
  destruct H as (Hm & Hp & _).
  apply onRemove_detached; assumption.
Qed.

(** X18: [setDensity] does not change the stars.  After [onAdd], a call of
    [setDensity] stores the new density and logs the warning; the fragment
    shader of the program still holds the source baked with the density
    the plugin had at [onAdd]; the GL context is untouched and no repaint is
    asked for. *)
Theorem X18_setDensity_keeps_shader (s : st) (density' : R) :
  plugin_sources_accepted s -> ~ In layer_id (layers (env s)) ->
  exists (s1 s2 : st) (fs : GL.handle),
    onAdd the_map s = Ok tt s1
    /\ setDensity density' s1 = Ok tt s2
    /\ density (this s2) = density'
    /\ fragmentShader (this s2) = Some fs
    /\ GL.live_shader fs (gl (env s2))
       = Some (GL.Shader_obj GL.FRAGMENT_SHADER
                 (Some (GL.fragmentSource (fragmentSource (density (this s)))))
                 true false)
    /\ gl (env s2) = gl (env s1)
    /\ repaints (env s2) = repaints (env s1)
    /\ console (env s2)
       = "Changing density requires recreating the plugin"%string :: console (env s1).
Proof.
  intros (Hv & Hf & Hl) Hid. open_state s.
  do 3 eexists. split; [run_plugin_onAdd Hv Hf Hl Hid|].
  split.
  { unfold setDensity. repeat step.
    match goal with |- ?m ?s = _ => norm (m s) end. reflexivity. }
  split; [reflexivity|]. split; [reflexivity|].
  split.
  { unfold GL.live_shader. cbn. rewrite !Nat.eqb_refl. reflexivity. }
  repeat split.
Qed.

(** The plugin added with the default density 0.15, then told 0.5. *)
Lemma X18_witness_page :
  exists (s1 s2 : st) (fs : GL.handle),
    onAdd the_map (new_plugin accepting 1) = Ok tt s1
    /\ setDensity 0.5 s1 = Ok tt s2
    /\ density (this s2) = 0.5
    /\ fragmentShader (this s2) = Some fs
    /\ GL.live_shader fs (gl (env s2))
       = Some (GL.Shader_obj GL.FRAGMENT_SHADER
                 (Some (GL.fragmentSource
                          (fragmentSource (density (this (new_plugin accepting 1))))))
                 true false)
    /\ gl (env s2) = gl (env s1)
    /\ repaints (env s2) = repaints (env s1)
    /\ console (env s2)
       = "Changing density requires recreating the plugin"%string :: console (env s1).
Proof.
  destruct (new_plugin_accepted 1) as [Ha Hid].
  exact (X18_setDensity_keeps_shader (new_plugin accepting 1) 0.5 Ha Hid).
Defined.

(** The density that [onAdd] bakes is [this.density] as it is when [onAdd]
    runs: the fragment shader of the program that [onAdd] links holds the
    source built from it. *)
Lemma onAdd_bakes_density (s : st) :
  plugin_sources_accepted s -> ~ In layer_id (layers (env s)) ->
  exists (s' : st) (p : GL.handle),
    onAdd the_map s = Ok tt s'
    /\ program (this s') = Some p
    /\ program_fragment_source p (gl (env s'))
       = Some (GL.fragmentSource (fragmentSource (density (this s)))).
Proof.
  intros (Hv & Hf & Hl) Hid. open_state s.
  do 2 eexists. split; [run_plugin_onAdd Hv Hf Hl Hid|].
  split; [reflexivity|].
  unfold program_fragment_source, GL.live_program. cbn.
  fresh_names. rewrite ?Nat.eqb_refl. cbn.
  fresh_names. rewrite ?Nat.eqb_refl. cbn.
  reflexivity.
Qed.

(** [setDensity] stores the value, whatever the state of the plugin, and
    touches neither the GL context nor the style. *)
Lemma setDensity_stores (s : st) (density' : R) :
  exists s' : st,
    setDensity density' s = Ok tt s'
    /\ density (this s') = density'
    /\ gl (env s') = gl (env s)
    /\ layers (env s') = layers (env s).
Proof.
  destruct s as [[i d m0 p0 vb ib0 vs fs cl] [g c l tr gm r]].
  eexists. split.
  - unfold setDensity. repeat step.
    match goal with |- ?m ?s = _ => norm (m s) end. reflexivity.
  - repeat split.
Qed.

(** X25: [_createShader] for a vertex or a fragment shader, in any state:
    it returns, never throws, and leaves the fields of the plugin alone.
    When the implementation compiles the source, the result is a new
    shader of the asked type, alive and compiled, that holds the source,
    and nothing is logged; when it does not, the result is [null], one
    ['Shader compilation error'] line is logged and the shader created for
    the attempt is deleted. *)
Theorem X25_createShader_contract (type : GL.GLenum) (source : GL.source) (s : st) :
  type = GL.VERTEX_SHADER \/ type = GL.FRAGMENT_SHADER ->
  exists (r : option GL.handle) (s' : st),
    _createShader type source s = Ok r s'
    /\ this s' = this s
    /\ (GL.compiles (GL.drv (gl (env s))) source = true ->
        exists h : GL.handle,
          r = Some h
          /\ GL.live_shader h (gl (env s'))
             = Some (GL.Shader_obj type (Some source) true false)
          /\ console (env s') = console (env s))
    /\ (GL.compiles (GL.drv (gl (env s))) source = false ->
        r = None
        /\ console (env s')
           = "Shader compilation error: shader info log"%string :: console (env s)
        /\ GL.live_shader (GL.next_name (GL.objs (gl (env s)))) (gl (env s')) = None).
Proof.
  intros Ht. open_state s.
  destruct (GL.compiles drv source) eqn:Hc.
  - destruct Ht as [-> | ->].
    + do 2 eexists. split.
      { unfold _createShader. repeat step_with ltac:(rewrite ?Hc).
        finish_run ltac:(rewrite ?Hc). }
      split; [reflexivity|]. split; [|discriminate].
      intros _. eexists. split; [reflexivity|].
      unfold GL.live_shader. cbn. rewrite Nat.eqb_refl. split; reflexivity.
    + do 2 eexists. split.
      { unfold _createShader. repeat step_with ltac:(rewrite ?Hc).
        finish_run ltac:(rewrite ?Hc). }
      split; [reflexivity|]. split; [|discriminate].
      intros _. eexists. split; [reflexivity|].
      unfold GL.live_shader. cbn. rewrite Nat.eqb_refl. split; reflexivity.
  - destruct Ht as [-> | ->].
    + do 2 eexists. split.
      { unfold _createShader. repeat step_with ltac:(rewrite ?Hc).
        finish_run ltac:(rewrite ?Hc). }
      split; [reflexivity|]. split; [discriminate|].
      intros _. split; [reflexivity|]. split; [reflexivity|].
      unfold GL.live_shader. cbn. rewrite Nat.eqb_refl. reflexivity.
    + do 2 eexists. split.
      { unfold _createShader. repeat step_with ltac:(rewrite ?Hc).
        finish_run ltac:(rewrite ?Hc). }
      split; [reflexivity|]. split; [discriminate|].
      intros _. split; [reflexivity|]. split; [reflexivity|].
      unfold GL.live_shader. cbn. rewrite Nat.eqb_refl. reflexivity.
Qed.

(** The vertex source on the page. *)
Lemma X25_witness_vertex_shader :
  exists (r : option GL.handle) (s' : st),
    _createShader GL.VERTEX_SHADER GL.vertexSource (new_plugin accepting 1) = Ok r s'
    /\ this s' = this (new_plugin accepting 1)
    /\ (GL.compiles (GL.drv (gl (env (new_plugin accepting 1)))) GL.vertexSource = true ->
        exists h : GL.handle,
          r = Some h
          /\ GL.live_shader h (gl (env s'))
             = Some (GL.Shader_obj GL.VERTEX_SHADER (Some GL.vertexSource) true false)
          /\ console (env s') = console (env (new_plugin accepting 1)))
    /\ (GL.compiles (GL.drv (gl (env (new_plugin accepting 1)))) GL.vertexSource = false ->
        r = None
        /\ console (env s')
           = "Shader compilation error: shader info log"%string
             :: console (env (new_plugin accepting 1))
        /\ GL.live_shader (GL.next_name (GL.objs (gl (env (new_plugin accepting 1)))))
             (gl (env s')) = None).
Proof.
  apply (X25_createShader_contract GL.VERTEX_SHADER GL.vertexSource (new_plugin accepting 1)).
  left. reflexivity.
Defined.

(** X26: [_createProgram] does not check its arguments.  When either
    shader is [null] (what [_createShader] returns after a compile
    failure), [gl.attachShader] raises a [TypeError] that leaves
    [_createProgram], in any state: the program object just created is
    neither deleted nor returned, nothing is logged, and the fields of the
    plugin are as before. *)
Theorem X26_createProgram_null_shader (vertexShader fragmentShader : option GL.handle)
    (s : st) :
  vertexShader = None \/ fragmentShader = None ->
  exists s' : st,
    _createProgram vertexShader fragmentShader s = Throw (TypeError "attachShader") s'
    /\ GL.live_program (GL.next_name (GL.objs (gl (env s)))) (gl (env s')) <> None
    /\ console (env s') = console (env s)
    /\ this s' = this s.
Proof.
  intros Hn. open_state s.
  destruct vertexShader as [v|].
  - destruct Hn as [Hn|Hn]; [discriminate|]. subst fragmentShader.
    destruct (GL.lookup v shaders) as [[ty src c del]|] eqn:Hv; [destruct del|].
    + eexists. split.
      { unfold _createProgram. repeat step_with ltac:(rewrite ?Hv). reflexivity. }
      split; [|split; reflexivity].
      unfold GL.live_program. cbn. rewrite Nat.eqb_refl. discriminate.
    + eexists. split.
      { unfold _createProgram. repeat step_with ltac:(rewrite ?Hv). reflexivity. }
      split; [|split; reflexivity].
      unfold GL.live_program. cbn. rewrite Nat.eqb_refl. discriminate.
    + eexists. split.
      { unfold _createProgram. repeat step_with ltac:(rewrite ?Hv). reflexivity. }
      split; [|split; reflexivity].
      unfold GL.live_program. cbn. rewrite Nat.eqb_refl. discriminate.
  - eexists. split.
    { unfold _createProgram. repeat step. reflexivity. }
    split; [|split; reflexivity].
    unfold GL.live_program. cbn. rewrite Nat.eqb_refl. discriminate.
Qed.

(** The call that [onAdd] makes after the fragment source was rejected. *)
Lemma X26_witness_null_fragment :
  exists s' : st,
    _createProgram (Some 1%nat) None (new_plugin accepting 1)
    = Throw (TypeError "attachShader") s'
    /\ GL.live_program (GL.next_name (GL.objs (gl (env (new_plugin accepting 1)))))
         (gl (env s')) <> None
    /\ console (env s') = console (env (new_plugin accepting 1))
    /\ this s' = this (new_plugin accepting 1).
Proof.
  apply (X26_createProgram_null_shader (Some 1%nat) None (new_plugin accepting 1)).
  right. reflexivity.
Defined.

(** The page after a draw under another blend function, computed. *)
Lemma drawn_page_state :
  plugin_ready drawn_page
  /\ plugin_transition drawn_page = 1
  /\ plugin_program drawn_page = Some 3%nat
  /\ GL.linked 3%nat (gl (env drawn_page)) = true
  /\ plugin_pipe drawn_page
     = GL.Pipeline false GL.LESS true false
         GL.ONE GL.ONE_MINUS_SRC_ALPHA GL.ONE GL.ONE_MINUS_SRC_ALPHA.
Proof.
  unfold drawn_page, added_plugin. run_onAdd H. clear H.
  cbn [this program].
  match goal with
  | |- context [state_of (?m ?s)] =>
      let E := fresh "E" in
      eassert (E : m s = Ok tt _);
      [ repeat step; match goal with |- ?m' ?s' = _ => norm (m' s') end; reflexivity
      | rewrite E; cbn [state_of]; clear E ]
  end.
  split.
  { split; [discriminate|]. exists 3%nat, 5%nat. repeat split. }
  repeat split.
Qed.

(** The restore on the page where something has drawn. *)
Lemma X12_witness_drawn_page :
  post (fun s' => plugin_pipe s' = plugin_pipe drawn_page
                  /\ plugin_program s' = plugin_program drawn_page)
       (_render drawn_page).
Proof.
  destruct drawn_page_state as (Hr & Ht & Hp & Hl & Hpipe).
  apply (_render_restores drawn_page 3%nat Hr); try assumption;
    rewrite ?Ht, ?Hpipe; cbn; try reflexivity; try lra; discriminate.
Defined.

End Attach.

(** ** The uniforms computed from the transform *)

Section Uniforms.
Import JS Host StarsPlugin.

(** X19: for a world size that is not negative and a latitude between -90
    and 90 degrees, [_getGlobeRadius] lies between 0 and
    [worldSize / (2 * PI)], the value it takes on the equator; and it is
    the same for a latitude and its opposite. *)
Theorem X19_getGlobeRadius_range (worldSize latitude : R) :
  0 <= worldSize -> -90 <= latitude <= 90 ->
  0 <= _getGlobeRadius worldSize latitude <= worldSize / (2 * PI)
  /\ _getGlobeRadius worldSize (- latitude) = _getGlobeRadius worldSize latitude
  /\ _getGlobeRadius worldSize 0 = worldSize / (2 * PI).
Proof.
  intros Hw Hl. unfold _getGlobeRadius.
  pose proof PI_RGT_0 as HPI.
  assert (Hr : 0 <= worldSize / (2 * PI)).
  { apply Rmult_le_pos; [exact Hw|]. left. apply Rinv_0_lt_compat. lra. }
  assert (Hc : 0 <= cos (latitude * PI / 180) <= 1).
  { split; [|apply COS_bound].
    apply cos_ge_0; nra. }
  split; [split; [apply Rmult_le_pos; lra | nra]|].
  split.
  { replace (- latitude * PI / 180) with (- (latitude * PI / 180)) by lra.
    now rewrite cos_neg. }
  replace (0 * PI / 180) with 0 by lra. rewrite cos_0. ring.
Qed.

(** A world of 512 pixels, at 45 degrees north. *)
Lemma X19_witness_mid_latitude :
  0 <= _getGlobeRadius 512 45 <= 512 / (2 * PI)
  /\ _getGlobeRadius 512 (- 45) = _getGlobeRadius 512 45
  /\ _getGlobeRadius 512 0 = 512 / (2 * PI).
Proof. apply X19_getGlobeRadius_range; lra. Defined.

(** X20: the fallbacks [transform.pitchInRadians || ...] and
    [transform.bearingInRadians || ...] do no harm when a radian value is
    0.  For a transform that gives pitch and bearing in radians and in
    degrees alike, and a roll in radians, the camera angles are
    [(pitch, -bearing, -roll)] in radians, also when one of them is 0 and
    the fallback is taken. *)
Theorem X20_cameraAngles_fallback (tr : Transform) (roll : R) :
  pitchInRadians tr = Some (pitch tr * PI / 180) ->
  bearingInRadians tr = Some (bearing tr * PI / 180) ->
  rollInRadians tr = Some roll ->
  cameraAngles tr = [pitch tr * PI / 180; - (bearing tr * PI / 180); - roll].
Proof.
  intros Hp Hb Hr. unfold cameraAngles. rewrite Hp, Hb, Hr.
  unfold or_else.
  repeat match goal with
         | |- context [Req_dec_T ?a 0] => destruct (Req_dec_T a 0) as [->|?]
         end; reflexivity.
Qed.

(** A camera that looks straight down, north up: all three angles are 0,
    and every fallback is taken. *)
Lemma X20_witness_north_up :
  cameraAngles (Transform_ (ProjectionData_ 1) identity4 identity4 512 (LngLat_ 0 0)
                  (Some (0 * PI / 180)) 0 (Some (0 * PI / 180)) 0 (Some 0))
  = [0 * PI / 180; - (0 * PI / 180); - 0].
Proof.
  exact (X20_cameraAngles_fallback
           (Transform_ (ProjectionData_ 1) identity4 identity4 512 (LngLat_ 0 0)
              (Some (0 * PI / 180)) 0 (Some (0 * PI / 180)) 0 (Some 0))
           0 eq_refl eq_refl eq_refl).
Defined.

End Uniforms.

(** ** The bare layer, in any state of the context *)

Section LayerLifecycle.
Import JS Host StarsLayer.

Ltac open_layer s :=
  destruct s as [[i d id m0 p0 vb0 ib0 ap0]
                   [[drv [next shaders programs buffers] [cp ab eb attrs] pipe errors draws]
                      console layers tr glm rep]];
  cbn [GL.drv gl env this density Host.layers] in *.

Ltac run_layer_onAdd Hv Hf Hl :=
  unfold onAdd;
  repeat step_with ltac:(rewrite ?Hv, ?Hf, ?Hl; fresh_names);
  match goal with |- ?m ?s = _ => norm (m s) end;
  reflexivity.

(** X21: [onAdd] of the layer object, on an implementation that compiles
    and links the two sources, in any state of the layer, of the context
    and of the page: it returns; the layer holds the map, a linked program,
    the vertex buffer and the index buffer, and the location 0 of [a_pos];
    the two buffers hold the quad (8 coordinates, 6 indices) and are left
    bound to [ARRAY_BUFFER] and [ELEMENT_ARRAY_BUFFER]; nothing is logged,
    no GL error is recorded and the style is not touched (the caller adds
    the layer). *)
Theorem X21_layer_onAdd_attaches (s : st) :
  layer_sources_accepted s ->
  exists s' : st,
    onAdd the_map s = Ok tt s'
    /\ layer_ready s'
    /\ (exists vb ib,
          vertexBuffer (this s') = Some vb /\ indexBuffer (this s') = Some ib
          /\ vb <> ib
          /\ GL.live_buffer vb (gl (env s')) = Some (GL.Buffer_obj vertices false)
          /\ GL.live_buffer ib (gl (env s')) = Some (GL.Buffer_obj indices false)
          /\ GL.array_buffer (GL.binds (gl (env s'))) = Some vb
          /\ GL.element_array_buffer (GL.binds (gl (env s'))) = Some ib)
    /\ aPos (this s') = Some 0%Z
    /\ layers (env s') = layers (env s)
    /\ console (env s') = console (env s)
    /\ GL.errors (gl (env s')) = GL.errors (gl (env s)).
Proof.
  intros (Hv & Hf & Hl). open_layer s.
  eexists. split; [run_layer_onAdd Hv Hf Hl|].
  split.
  { split; [discriminate|]. eexists; eexists. split; [reflexivity|]. split; [reflexivity|].
    unfold GL.linked, GL.live_program. cbn. rewrite Nat.eqb_refl. reflexivity. }
  split.
  { eexists; eexists. split; [reflexivity|]. split; [reflexivity|].
    split; [apply Nat.neq_succ_diag_r|].
    unfold GL.live_buffer. cbn. fresh_names. rewrite !Nat.eqb_refl. cbn.
    repeat split. }
  repeat split.
Qed.

(** The layer with the default options on the page. *)
Lemma X21_witness_page :
  exists s' : st,
    onAdd the_map (new_layer accepting 1) = Ok tt s'
    /\ layer_ready s'
    /\ (exists vb ib,
          vertexBuffer (this s') = Some vb /\ indexBuffer (this s') = Some ib
          /\ vb <> ib
          /\ GL.live_buffer vb (gl (env s')) = Some (GL.Buffer_obj vertices false)
          /\ GL.live_buffer ib (gl (env s')) = Some (GL.Buffer_obj indices false)
          /\ GL.array_buffer (GL.binds (gl (env s'))) = Some vb
          /\ GL.element_array_buffer (GL.binds (gl (env s'))) = Some ib)
    /\ aPos (this s') = Some 0%Z
    /\ layers (env s') = layers (env (new_layer accepting 1))
    /\ console (env s') = console (env (new_layer accepting 1))
    /\ GL.errors (gl (env s')) = GL.errors (gl (env (new_layer accepting 1))).
Proof.
  apply (X21_layer_onAdd_attaches (new_layer accepting 1)).
  repeat split.
Defined.

(** The layer bakes the density of its options: the fragment shader of the
    program that [onAdd] links holds the source built from it. *)
Lemma layer_onAdd_bakes_density (s : st) :
  layer_sources_accepted s ->
  exists (s' : st) (p : GL.handle),
    onAdd the_map s = Ok tt s'
    /\ program (this s') = Some p
    /\ program_fragment_source p (gl (env s'))
       = Some (GL.fragmentSource (fragmentSource (density (this s)))).
Proof.
  intros (Hv & Hf & Hl). open_layer s.
  do 2 eexists. split; [run_layer_onAdd Hv Hf Hl|].
  split; [reflexivity|].
  unfold program_fragment_source, GL.live_program. cbn.
  fresh_names. rewrite ?Nat.eqb_refl. cbn.
  fresh_names. rewrite ?Nat.eqb_refl. cbn.
  reflexivity.
Qed.

(** X22: a drawing [render] of the layer (gate open, resources valid), in
    any state of the context: the one draw runs the layer's program over 6
    indices with the depth test off and the rest of the pipeline as the map
    had it; afterwards the depth test is on, whatever it was before, the
    layer's program is the active one, and its two buffers are the bound
    ones. *)
Theorem X22_layer_render_leaves_depth_test (s : st) (p : GL.handle) :
  layer_ready s -> layer_transition s > 0 -> program (this s) = Some p ->
  exists s' : st,
    render s = Ok tt s'
    /\ layer_draws s'
       = GL.Draw p 6 (GL.set_depth_test false (layer_pipe s)) :: layer_draws s
    /\ layer_pipe s' = GL.set_depth_test true (layer_pipe s)
    /\ layer_program s' = Some p
    /\ GL.array_buffer (GL.binds (gl (env s'))) = vertexBuffer (this s)
    /\ GL.element_array_buffer (GL.binds (gl (env s'))) = indexBuffer (this s).
Proof.
  intros Hr Hgt Hp0.
  assert (Hpt : layer_transition s <> 0) by lra. clear Hgt.
  destruct (layer_ready_program s Hr) as (m & p' & ib & att & unis & Hm & Hp & Hib & Hl).
  rewrite Hp0 in Hp. injection Hp as <-.
  match goal with
  | |- exists s', _ = _ /\ ?P =>
      assert (H : post (fun s' => P) (render s))
  end.
  { destruct s as [[i d id m0 p0 vb ib0 ap]
                     [[drv [next shaders programs buffers] [cp ab eb attrs] pipe errors draws]
                        console layers tr glm rep]].
    cbn in Hm, Hp0, Hib, Hl. subst m0 p0 ib0.
    unfold layer_transition, getProjectionData in Hpt; cbn in Hpt.
    unfold layer_draws, layer_pipe, layer_program;
      cbn [env gl this GL.draws GL.pipe vertexBuffer indexBuffer].
    unfold render.
    step. cbn [this map].
    step. unfold getProjectionData.
    destruct (Req_dec_T _ _) as [E|_]; [contradiction|].
    destruct vb; destruct ap as [[|z|z]|]; cbn [index_of];
      repeat step_with ltac:(rewrite ?Hl);
      last_with idtac; repeat split. }
  destruct (post_returns _ _ H) as ([] & s' & E & K).
  exists s'. split; assumption.
Qed.

Lemma added_layer_state (t : R) :
  program (this (added_layer accepting t)) = Some 3%nat
  /\ layer_transition (added_layer accepting t) = t.
Proof.
  unfold added_layer. run_onAdd H. clear H.
  repeat split.
Qed.

(** The first frame of the layer just added, on the globe. *)
Lemma X22_witness_first_frame :
  exists s' : st,
    render (added_layer accepting 1) = Ok tt s'
    /\ layer_draws s'
       = GL.Draw 3%nat 6 (GL.set_depth_test false (layer_pipe (added_layer accepting 1)))
         :: layer_draws (added_layer accepting 1)
    /\ layer_pipe s' = GL.set_depth_test true (layer_pipe (added_layer accepting 1))
    /\ layer_program s' = Some 3%nat
    /\ GL.array_buffer (GL.binds (gl (env s')))
       = vertexBuffer (this (added_layer accepting 1))
    /\ GL.element_array_buffer (GL.binds (gl (env s')))
       = indexBuffer (this (added_layer accepting 1)).
Proof.
  destruct (added_layer_state 1) as (Hp & Ht).
  apply X22_layer_render_leaves_depth_test;
    [apply added_layer_ready | rewrite Ht; lra | exact Hp].
Defined.

(** X23: the layer object does not stop at a shader that fails to compile.
    When the implementation rejects the fragment source, [onAdd] returns
    after logging the compile error and the link error, and keeps the
    program, which is not linked, with [aPos = -1].  A later [render] with
    the gate open returns as well: [useProgram] is refused, so the program
    that the map had active stays active, and [drawElements] is still
    called: with that program of the map when there is one, drawing
    nothing when there is none.  The depth test is left enabled. *)
Theorem X23_layer_compile_failure (s : st) :
  GL.compiles (GL.drv (gl (env s))) GL.vertexSource = true ->
  GL.compiles (GL.drv (gl (env s)))
    (GL.fragmentSource (fragmentSource (density (this s)))) = false ->
  layer_transition s <> 0 ->
  exists (s1 s2 : st) (p : GL.handle),
    onAdd the_map s = Ok tt s1
    /\ console (env s1)
       = "Program linking error: program info log"%string
         :: "Fragment shader compilation error: shader info log"%string
         :: console (env s)
    /\ program (this s1) = Some p
    /\ GL.linked p (gl (env s1)) = false
    /\ aPos (this s1) = Some (-1)%Z
    /\ render s1 = Ok tt s2
    /\ layer_program s2 = layer_program s
    /\ layer_draws s2
       = match layer_program s with
         | Some q => GL.Draw q 6 (GL.set_depth_test false (layer_pipe s)) :: layer_draws s
         | None => layer_draws s
         end
    /\ GL.depth_test (layer_pipe s2) = true.
Proof.
  intros Hv Hf Hpt. open_layer s.
  unfold layer_transition, getProjectionData in Hpt; cbn in Hpt.
  destruct cp as [q|].
  - do 3 eexists. split; [run_layer_onAdd Hv Hf Hf|].
    split; [reflexivity|]. split; [reflexivity|].
    split; [unfold GL.linked, GL.live_program; cbn; rewrite Nat.eqb_refl; reflexivity|].
    split; [reflexivity|].
    split.
    + unfold render. step. cbn [this map].
      step. unfold getProjectionData.
      destruct (Req_dec_T _ _) as [E|_]; [contradiction|].
      repeat step.
      match goal with |- ?m ?s = _ => norm (m s) end.
      reflexivity.
    + repeat split.
  - do 3 eexists. split; [run_layer_onAdd Hv Hf Hf|].
    split; [reflexivity|]. split; [reflexivity|].
    split; [unfold GL.linked, GL.live_program; cbn; rewrite Nat.eqb_refl; reflexivity|].
    split; [reflexivity|].
    split.
    + unfold render. step. cbn [this map].
      step. unfold getProjectionData.
      destruct (Req_dec_T _ _) as [E|_]; [contradiction|].
      repeat step.
      match goal with |- ?m ?s = _ => norm (m s) end.
      reflexivity.
    + repeat split.
Qed.

(** The layer with the default options, on an implementation that rejects
    the fragment source. *)
Lemma X23_witness_rejected_fragment :
  exists (s1 s2 : st) (p : GL.handle),
    onAdd the_map (new_layer rejecting_fragment 1) = Ok tt s1
    /\ console (env s1)
       = "Program linking error: program info log"%string
         :: "Fragment shader compilation error: shader info log"%string
         :: console (env (new_layer rejecting_fragment 1))
    /\ program (this s1) = Some p
    /\ GL.linked p (gl (env s1)) = false
    /\ aPos (this s1) = Some (-1)%Z
    /\ render s1 = Ok tt s2
    /\ layer_program s2 = layer_program (new_layer rejecting_fragment 1)
    /\ layer_draws s2
       = match layer_program (new_layer rejecting_fragment 1) with
         | Some q => GL.Draw q 6 (GL.set_depth_test false
                                    (layer_pipe (new_layer rejecting_fragment 1)))
                     :: layer_draws (new_layer rejecting_fragment 1)
         | None => layer_draws (new_layer rejecting_fragment 1)
         end
    /\ GL.depth_test (layer_pipe s2) = true.
Proof.
  apply (X23_layer_compile_failure (new_layer rejecting_fragment 1));
    [reflexivity | reflexivity |].
  cbn. lra.
Defined.

End LayerLifecycle.

(** ** The presence rule of the program that [onAdd] links *)

Section PresenceRule.
Import GLSL Shader JS Host.

(** The hash of the cell (0, 0) is [fract(sin(0) * 43758.5453)], which is
    0. *)
Lemma hash_origin : hash (Vec2 0 0) = 0.
Proof.
  unfold hash, cell_hash, dot; cbn [v2x v2y].
  replace (0 * 12.9898 + 0 * 78.233) with 0 by lra.
  rewrite sin_0.
  replace (0 * 43758.5453) with (IZR 0 + 0) by lra.
  apply fract_shift. lra.
Qed.

Lemma toFixed2_minus_one : toFixed2 (1 - 2) = -1.
Proof.
  rewrite toFixed2_negative by lra.
  destruct (Rle_dec _ _) as [B|_]; [lra|].
  rewrite (Zfloor_eq 100) by lra. lra.
Qed.




End PresenceRule.
